(** * Everstake wallet SDK: the transaction builders of the Ethereum,
    Berrachain and Polygon adapters

    A shallow embedding of the validation and transaction-assembly code of
    the three chain adapters.  Asynchronous methods become computations in
    a small exception monad that also threads the log of calls made to the
    outside (RPC client, off-chain API); [selectNetwork] threads the adapter
    object itself.  What the adapters import from viem, bignumber.js and
    the RPC endpoint is an interface ([Libraries], [World]); the constant
    tables of each adapter are an interface as well.  The remaining reads
    and aggregated views of the Ethereum adapter and the client of the
    off-chain API follow the adapters, each over the state it changes
    (the log of multicalls; the base URL, the requests sent and the error
    console). *)

From Stdlib Require Import ZArith QArith Lia Ascii.
From stdpp Require Import base strings gmap pretty.

Local Open Scope Z_scope.

(** ** bignumber.js values *)

Module BigNumber.

(** A BigNumber is NaN, plus or minus Infinity, or an exact decimal; the
    operations used by the adapters (comparison, addition, subtraction,
    decimal shift) are exact, so a rational carries the value. *)
Inductive t : Type :=
| NaN
| Infinity (negative : bool)
| Finite (q : Q).

(** [new BigNumber(v)] for a bigint [v] (also [BigNumber(v.toString())]). *)
Definition ofBigint (z : Z) : t := Finite (inject_Z z).

(** [compare] of bignumber.js: [null] as soon as one side is NaN. *)
Definition compare (x y : t) : option comparison :=
  match x, y with
  | NaN, _ | _, NaN => None
  | Finite a, Finite b => Some (a ?= b)%Q
  | Infinity n, Infinity m =>
      Some (if n then (if m then Eq else Lt) else (if m then Gt else Eq))
  | Infinity n, Finite _ => Some (if n then Lt else Gt)
  | Finite _, Infinity m => Some (if m then Gt else Lt)
  end.

Definition lt (x y : t) : bool :=
  match compare x y with Some Lt => true | _ => false end.

Definition gt (x y : t) : bool :=
  match compare x y with Some Gt => true | _ => false end.

Definition eq (x y : t) : bool :=
  match compare x y with Some Eq => true | _ => false end.

Definition isLessThan : t -> t -> bool := lt.

(** [x.lte(y)]; the adapters do not call it, the statements about
    balances do. *)
Definition lte (x y : t) : bool :=
  match compare x y with Some Lt | Some Eq => true | _ => false end.

Definition isZero (x : t) : bool :=
  match x with Finite q => Qeq_bool q 0 | _ => false end.

Definition negated (x : t) : t :=
  match x with
  | NaN => NaN
  | Infinity n => Infinity (negb n)
  | Finite q => Finite (- q)%Q
  end.

Definition plus (x y : t) : t :=
  match x, y with
  | NaN, _ | _, NaN => NaN
  | Finite a, Finite b => Finite (a + b)%Q
  | Infinity n, Infinity m => if Bool.eqb n m then Infinity n else NaN
  | Infinity n, Finite _ => Infinity n
  | Finite _, Infinity m => Infinity m
  end.

Definition minus (x y : t) : t := plus x (negated y).

(** [x.shiftedBy(k)]: multiplication by ten to the [k]. *)
Definition shiftedBy (x : t) (k : Z) : t :=
  match x with
  | Finite q => Finite (q * Qpower (inject_Z 10) k)%Q
  | other => other
  end.

End BigNumber.

(** ** JavaScript numbers holding integers *)

Module Number.

(** The double nearest to an integer: 53 significant bits, round to
    nearest, ties to even.  (Magnitudes beyond the double range, which
    become Infinity, are outside this model.) *)
Definition ofInteger (z : Z) : Z :=
  let a := Z.abs z in
  let e := Z.log2 a - 52 in
  if e <=? 0 then z
  else
    let q := Z.shiftr a e in
    let r := a - Z.shiftl q e in
    let half := Z.shiftl 1 (e - 1) in
    let q' :=
      if r <? half then q
      else if half <? r then q + 1
      else if Z.even q then q else q + 1 in
    Z.sgn z * Z.shiftl q' e.

(** [a + b] on two integer-valued numbers. *)
Definition add (a b : Z) : Z := ofInteger (a + b).

Definition MAX_SAFE_INTEGER : Z := 2 ^ 53 - 1.

End Number.

(** ** Failures *)

Definition HexString : Type := string.

(** A piece of a message: a literal, or a value rendered into it
    ([b.toString()], [`${n}`], [formatUnits(v, d)]). *)
Inductive Piece : Type :=
| PStr (s : string)
| PBigNumber (b : BigNumber.t)
| PBigint (z : Z)
| PUnits (v : Z) (decimals : Z).

(** What a method can throw. [Thrown] is a failure raised by the transport
    or by a library function (its kind is all the adapters look at);
    [PlainError] is [new Error(message)]; the last two are the two outcomes
    of the base class's [throwError]. *)
#[warnings="-register-all"]
Inductive Failure : Type :=
| Thrown (kind : string)
| PlainError (message : list Piece)
| UnknownErrorCode (code : string)
| WalletSDKError (code : string) (template : string) (values : list Piece)
                 (cause : option Failure).

(** ** Computations that may throw, over a threaded state *)

Definition Eff (S A : Type) : Type := S -> (Failure + A) * S.

Definition ret {S A} (a : A) : Eff S A := fun s => (inr a, s).

Definition throw {S A} (e : Failure) : Eff S A := fun s => (inl e, s).

Definition bind {S A B} (m : Eff S A) (k : A -> Eff S B) : Eff S B :=
  fun s =>
    match m s with
    | (inl e, s') => (inl e, s')
    | (inr a, s') => k a s'
    end.

(** [try { m } catch (error) { h error }] *)
Definition try_catch {S A} (m : Eff S A) (h : Failure -> Eff S A) : Eff S A :=
  fun s =>
    match m s with
    | (inl e, s') => h e s'
    | (inr a, s') => (inr a, s')
    end.

Definition modify {S} (f : S -> S) : Eff S unit := fun s => (inr tt, f s).

Definition get {S} : Eff S S := fun s => (inr s, s).

(** A pure library call that either returns or throws. *)
Definition orThrow {S A} (kind : string) (o : option A) : Eff S A :=
  match o with
  | Some a => ret a
  | None => throw (Thrown kind)
  end.

Notation "'await' x ':=' m 'in' k" := (bind m (fun x => k))
  (at level 10, x name, m at level 100, k at level 200,
   format "'[v' 'await'  x  ':='  m  'in' '/' k ']'").

(** ** The outside: viem, bignumber.js parsing, the RPC endpoint *)

Inductive Transport : Type :=
| http (url : string) (retryCount retryDelay : Z)
| transportObject (name : string).

Record PublicClient : Type := createPublicClient { transport : Transport }.

Inductive Abi : Type :=
| ABI_CONTRACT_ACCOUNTING
| ABI_CONTRACT_POOL
| ABI_CONTRACT_APPROVE
| ABI_CONTRACT_BUY
| ABI_CONTRACT_STAKING
| MAINNET_ABI
| TESTNET_ABI.

Inductive AbiArg : Type :=
| AUint (z : Z)
| AAddress (a : string).

(** Calls that leave the process. *)
Inductive Event : Type :=
| EvReadContract (c : PublicClient) (address : HexString) (abi : Abi)
                 (functionName : string) (args : list AbiArg)
| EvEstimateGas (c : PublicClient) (to data account : HexString)
| EvSimulateContract (c : PublicClient) (account address : HexString)
                     (abi : Abi) (functionName : string) (args : list AbiArg)
| EvGetTransactionReceipt (c : PublicClient) (hash : HexString)
| EvCheckToken (token : string)
| EvSetStats (token action amount address chain : string).

Definition Trace : Type := list Event.

(** Pure functions the adapters import. [None] stands for a thrown
    exception ([InvalidDecimalNumberError] for [parseUnits], [SyntaxError]
    for [BigInt]). The call-data encoder is left uninterpreted: it throws
    on arguments that do not fit the types of the function's parameters
    (an integer outside the range of its type, a string that is no
    address); [encodingError] is the kind of that error, if any, and
    [encodeFunctionData] the call data otherwise. *)
Class Libraries : Type := {
  isAddress : string -> bool;
  parseUnits : string -> Z -> option Z;
  BigNumber_ofString : string -> BigNumber.t;
  BigInt_ofString : string -> option Z;
  encodeFunctionData : Abi -> string -> list AbiArg -> HexString;
  encodingError : Abi -> string -> list AbiArg -> option string
}.

(** [encodeFunctionData({ abi, functionName, args })] on arguments. A
    call without arguments has nothing the encoder could refuse, and is
    written with [encodeFunctionData] itself. *)
Definition encode `{!Libraries} {S} (abi : Abi) (functionName : string)
    (args : list AbiArg) : Eff S HexString :=
  match encodingError abi functionName args with
  | Some kind => throw (Thrown kind)
  | None => ret (encodeFunctionData abi functionName args)
  end.

(** Answers of the RPC endpoint and of the off-chain API; the left
    injection is the kind of the failure that is thrown instead. A read
    answers with the tuple of integers the contract function returns. *)
Class World : Type := {
  rpc_readContract :
    PublicClient -> HexString -> Abi -> string -> list AbiArg -> string + list Z;
  rpc_estimateGas :
    PublicClient -> HexString -> HexString -> HexString -> string + Z;
  rpc_simulateContract :
    PublicClient -> HexString -> HexString -> Abi -> string -> list AbiArg ->
    string + Z;
  rpc_getTransactionReceipt : PublicClient -> HexString -> string + unit;
  api_checkToken : string -> string + bool;
  api_setStats : string -> string -> string -> string -> string -> string + unit
}.

Definition external {A} (ev : Event) (answer : string + A) : Eff Trace A :=
  fun t =>
    match answer with
    | inl kind => (inl (Thrown kind), t ++ [ev])
    | inr a => (inr a, t ++ [ev])
    end.

Section Client.
Context `{!World}.

Definition readContract (c : PublicClient) (address : HexString) (abi : Abi)
    (functionName : string) (args : list AbiArg) : Eff Trace (list Z) :=
  external (EvReadContract c address abi functionName args)
           (rpc_readContract c address abi functionName args).

Definition estimateGas (c : PublicClient) (to data account : HexString)
    : Eff Trace Z :=
  external (EvEstimateGas c to data account)
           (rpc_estimateGas c to data account).

Definition simulateContract (c : PublicClient) (account address : HexString)
    (abi : Abi) (functionName : string) (args : list AbiArg) : Eff Trace Z :=
  external (EvSimulateContract c account address abi functionName args)
           (rpc_simulateContract c account address abi functionName args).

Definition getTransactionReceipt (c : PublicClient) (hash : HexString)
    : Eff Trace unit :=
  external (EvGetTransactionReceipt c hash) (rpc_getTransactionReceipt c hash).

Definition CheckToken (token : string) : Eff Trace bool :=
  external (EvCheckToken token) (api_checkToken token).

Definition SetStats (token action amount address chain : string)
    : Eff Trace unit :=
  external (EvSetStats token action amount address chain)
           (api_setStats token action amount address chain).
End Client.

(** A read whose contract function returns one integer. *)
Definition single {S} (result : list Z) : Eff S Z :=
  match result with
  | [v] => ret v
  | _ => throw (Thrown "TypeError")
  end.

(** ** The Blockchain base class *)

Module Blockchain.

(** Modelled from the spec: the [Blockchain] base class (utils/index.ts)
    is not among the sources. [throwError(code, ...detailArgs)] looks
    [code] up in the adapter's [ERROR_MESSAGES], formats the message with
    the detail arguments, and fails with a structured error carrying the
    code and the message; it fails with an unknown-error-code failure
    when the table has no such code. The formatted message is kept as
    the template together with the values substituted into it. *)
Definition throwError {S A} (ERROR_MESSAGES : gmap string string)
    (code : string) (values : list Piece) : Eff S A :=
  match ERROR_MESSAGES !! code with
  | Some template => throw (WalletSDKError code template values None)
  | None => throw (UnknownErrorCode code)
  end.

Definition carriesKnownCode (ERROR_MESSAGES : gmap string string)
    (e : Failure) : bool :=
  match e with
  | WalletSDKError code _ _ _ => bool_decide (is_Some (ERROR_MESSAGES !! code))
  | _ => false
  end.

(** Modelled from the spec: [handleError(code, caughtError)] rethrows
    [caughtError] unchanged when it already carries one of the adapter's
    known codes, and otherwise wraps it under [code], keeping the
    original as the cause. The wrapper's message comes from the same
    table as in [throwError]. *)
Definition handleError {S A} (ERROR_MESSAGES : gmap string string)
    (code : string) (caughtError : Failure) : Eff S A :=
  if carriesKnownCode ERROR_MESSAGES caughtError then throw caughtError
  else
    match ERROR_MESSAGES !! code with
    | Some template =>
        throw (WalletSDKError code template [] (Some caughtError))
    | None => throw (UnknownErrorCode code)
    end.

End Blockchain.

(** ** Types shared by the adapters *)

Module Contract.
Record ContractProps : Type := { abi : Abi; address : HexString }.
End Contract.

(** ** The Ethereum adapter *)

Module Ethereum.

Record EthNetworkAddresses : Type := {
  addressContractAccounting : HexString;
  addressContractPool : HexString;
  addressContractWithdrawTreasury : HexString;
  rpcUrl : string
}.

Record EthTransaction : Type := {
  from : HexString;
  to : HexString;
  value : BigNumber.t;
  gasLimit : Z;
  data : HexString
}.

(** The mutable fields of an [Ethereum] object. *)
Record t : Type := {
  this_addressContractWithdrawTreasury : string;
  contractAccounting : Contract.ContractProps;
  contractPool : Contract.ContractProps;
  client : PublicClient
}.

(** An [Ethereum] object as [initializeNetwork] leaves it: the client
    is bound, and an address is what was read from a field of the
    network's addresses, [undefined] (here [None]) when there is no such
    field. The methods below are those of an object whose addresses are
    bound, [t]. *)
Record ObjectContract : Type := {
  object_abi : Abi;
  object_address : option HexString
}.

Record Object : Type := {
  object_addressContractWithdrawTreasury : option string;
  object_contractAccounting : ObjectContract;
  object_contractPool : ObjectContract;
  object_client : PublicClient
}.

Definition ofAdapter (this : t) : Object :=
  {| object_addressContractWithdrawTreasury :=
       Some (this_addressContractWithdrawTreasury this);
     object_contractAccounting :=
       {| object_abi := Contract.abi (contractAccounting this);
          object_address := Some (Contract.address (contractAccounting this)) |};
     object_contractPool :=
       {| object_abi := Contract.abi (contractPool this);
          object_address := Some (Contract.address (contractPool this)) |};
     object_client := client this |}.

(** What a property read on the address table finds. *)
Inductive Property : Type :=
| Entry (networkAddresses : EthNetworkAddresses)
| Inherited
| Missing.

(** The property names of [Object.prototype]. *)
Definition inheritedNames : list string :=
  ["constructor"; "hasOwnProperty"; "isPrototypeOf"; "propertyIsEnumerable";
   "toLocaleString"; "toString"; "valueOf"; "__proto__"; "__defineGetter__";
   "__defineSetter__"; "__lookupGetter__"; "__lookupSetter__"]%string.

(** The adapter's constants module is not among the sources: its tables
    and amounts are parameters. [ETH_NETWORK_ADDRESSES] holds the
    entries of the table object, [ETH_MIN_AMOUNT] is held as the value of
    [new BigNumber(ETH_MIN_AMOUNT)] and [ETH_GAS_RESERVE] as an integer. *)
Class Constants : Type := {
  ETH_NETWORK_ADDRESSES : gmap string EthNetworkAddresses;
  ETH_GAS_RESERVE : Z;
  ETH_MIN_AMOUNT : BigNumber.t;
  ERROR_MESSAGES : gmap string string
}.

(** Modelled from the spec: [UINT16_MAX] lives in the missing constants
    module; the spec gives it as the 16-bit maximum, 65535. *)
Definition UINT16_MAX : Z := 65535.

Section Methods.
Context `{!Libraries, !World, !Constants}.

Definition minAmount : BigNumber.t := ETH_MIN_AMOUNT.

Definition throwError {S A} (code : string) (values : list Piece)
    : Eff S A :=
  Blockchain.throwError ERROR_MESSAGES code values.

Definition handleError {S A} (code : string) (error : Failure) : Eff S A :=
  Blockchain.handleError ERROR_MESSAGES code error.

Definition fromWeiToEther (amount : Z) : BigNumber.t :=
  BigNumber.shiftedBy (BigNumber.ofBigint amount) (-18).

(** [new BigNumber(gasConsumption.toString()).plus(ETH_GAS_RESERVE)
    .toNumber()]: the sum is exact, [toNumber] makes it a double. *)
Definition calculateGasLimit (gasConsumption : Z) : Z :=
  Number.ofInteger (gasConsumption + ETH_GAS_RESERVE).

Definition getTransaction (this : t) (data address contractAddress : HexString)
    (value : option BigNumber.t) : Eff Trace EthTransaction :=
  let value := default (BigNumber.ofBigint 0) value in
  await gasConsumption :=
    estimateGas (client this) contractAddress data address in
  ret {| from := address;
         to := contractAddress;
         value := value;
         gasLimit := calculateGasLimit gasConsumption;
         data := data |}.

Definition readyforAutocompoundRewardsAmount (this : t)
    : Eff Trace BigNumber.t :=
  try_catch
    (await result :=
       readContract (client this)
         (Contract.address (contractAccounting this))
         (Contract.abi (contractAccounting this))
         "readyforAutocompoundRewardsAmount" [] in
     await result := single result in
     ret (fromWeiToEther result))
    (handleError "READY_FOR_AUTOCOMPOUND_REWARDS_AMOUNT_ERROR").

Definition pendingBalanceOf (this : t) (address : string)
    : Eff Trace BigNumber.t :=
  try_catch
    (if negb (isAddress address) then throwError "ADDRESS_FORMAT_ERROR" []
     else
       await result :=
         readContract (client this)
           (Contract.address (contractAccounting this))
           (Contract.abi (contractAccounting this))
           "pendingBalanceOf" [AAddress address] in
       await result := single result in
       ret (fromWeiToEther result))
    (handleError "PENDING_BALANCE_OF_ERROR").

Definition autocompoundBalanceOf (this : t) (address : string)
    : Eff Trace BigNumber.t :=
  try_catch
    (if negb (isAddress address) then throwError "ADDRESS_FORMAT_ERROR" []
     else
       await result :=
         readContract (client this)
           (Contract.address (contractAccounting this))
           (Contract.abi (contractAccounting this))
           "autocompoundBalanceOf" [AAddress address] in
       await result := single result in
       ret (fromWeiToEther result))
    (handleError "AUTOCOMPOUND_BALANCE_OF_ERROR").

Definition withdrawRequest (this : t) (address : string)
    : Eff Trace (BigNumber.t * BigNumber.t) :=
  try_catch
    (if negb (isAddress address) then throwError "ADDRESS_FORMAT_ERROR" []
     else
       await result :=
         readContract (client this)
           (Contract.address (contractAccounting this))
           (Contract.abi (contractAccounting this))
           "withdrawRequest" [AAddress address] in
       match result with
       | [requested; readyForClaim] =>
           ret (fromWeiToEther requested, fromWeiToEther readyForClaim)
       | _ => throw (Thrown "TypeError")
       end)
    (handleError "WITHDRAW_REQUEST_ERROR").

Definition minStakeAmount (this : t) : Eff Trace BigNumber.t :=
  try_catch
    (await result :=
       readContract (client this)
         (Contract.address (contractPool this))
         (Contract.abi (contractPool this))
         "minStakeAmount" [] in
     await result := single result in
     ret (fromWeiToEther result))
    (handleError "MIN_STAKE_AMOUNT_ERROR").

Definition autocompound (this : t) (address : string)
    : Eff Trace EthTransaction :=
  try_catch
    (if negb (isAddress address) then throwError "ADDRESS_FORMAT_ERROR" []
     else
       await rewards := readyforAutocompoundRewardsAmount this in
       if BigNumber.isZero rewards then throwError "NO_REWARDS_MESSAGE" []
       else
         getTransaction this
           (encodeFunctionData (Contract.abi (contractAccounting this))
              "autocompound" [])
           address
           (Contract.address (contractAccounting this))
           None)
    (handleError "AUTOCOMPOUND_ERROR").

Definition claimWithdrawRequest (this : t) (address : string)
    : Eff Trace EthTransaction :=
  try_catch
    (if negb (isAddress address) then throwError "ADDRESS_FORMAT_ERROR" []
     else
       await rewards := withdrawRequest this address in
       let '(requested, readyForClaim) := rewards in
       if BigNumber.isZero requested then
         throwError "ZERO_UNSTAKE_ERROR" []
       else if negb (BigNumber.eq readyForClaim requested) then
         throwError "NOT_FILLED_UNSTAKE_MESSAGE" []
       else
         getTransaction this
           (encodeFunctionData (Contract.abi (contractAccounting this))
              "claimWithdrawRequest" [])
           address
           (Contract.address (contractAccounting this))
           None)
    (handleError "CLAIM_WITHDRAW_REQUEST_ERROR").

(** [amount] is a string in this embedding, so the [typeof amount]
    guard of [stake] and [unstake] never fires. *)
Definition stake (this : t) (address amount : string)
    (source : option string) : Eff Trace EthTransaction :=
  let source := default "0"%string source in
  if negb (isAddress address) then throwError "ADDRESS_FORMAT_ERROR" []
  else
    await amountWei :=
      orThrow "InvalidDecimalNumberError" (parseUnits amount 18) in
    let amountWei := BigNumber.ofBigint amountWei in
    if BigNumber.lt amountWei minAmount then
      throwError "MIN_AMOUNT_ERROR" [PBigNumber minAmount]
    else
      try_catch
        (await source := orThrow "SyntaxError" (BigInt_ofString source) in
         await data :=
           encode (Contract.abi (contractPool this)) "stake" [AUint source] in
         getTransaction this data address
           (Contract.address (contractPool this))
           (Some amountWei))
        (handleError "STAKE_ERROR").

(** The clamp shared, line for line, by [unstake] and [simulateUnstake]. *)
Definition clampInterchangeNum (allowedInterchangeNum : Z) : Z :=
  if allowedInterchangeNum >? UINT16_MAX then UINT16_MAX
  else allowedInterchangeNum.

Definition unstake (this : t) (address amount : string)
    (allowedInterchangeNum : option Z) (source : option string)
    : Eff Trace EthTransaction :=
  let allowedInterchangeNum := default 0 allowedInterchangeNum in
  let source := default "0"%string source in
  if negb (isAddress address) then throwError "ADDRESS_FORMAT_ERROR" []
  else
    try_catch
      (await balance := autocompoundBalanceOf this address in
       let allowedInterchangeNum :=
         clampInterchangeNum allowedInterchangeNum in
       if BigNumber.lt balance (BigNumber_ofString amount) then
         throwError "MAX_AMOUNT_FOR_UNSTAKE_ERROR" [PBigNumber balance]
       else
         await amountWei :=
           orThrow "InvalidDecimalNumberError" (parseUnits amount 18) in
         await source := orThrow "SyntaxError" (BigInt_ofString source) in
         await data :=
           encode (Contract.abi (contractPool this)) "unstake"
             [AUint amountWei; AUint allowedInterchangeNum; AUint source] in
         getTransaction this data address
           (Contract.address (contractPool this))
           None)
      (handleError "UNSTAKE_ERROR").

Definition simulateUnstake (this : t) (address amount : string)
    (allowedInterchangeNum : option Z) (source : option string)
    : Eff Trace BigNumber.t :=
  let allowedInterchangeNum := default 1 allowedInterchangeNum in
  let source := default "0"%string source in
  try_catch
    (if negb (isAddress address) then throwError "ADDRESS_FORMAT_ERROR" []
     else
       await balance := autocompoundBalanceOf this address in
       let allowedInterchangeNum :=
         clampInterchangeNum allowedInterchangeNum in
       if BigNumber.lt balance (BigNumber_ofString amount) then
         throwError "MAX_AMOUNT_FOR_UNSTAKE_ERROR" [PBigNumber balance]
       else
         await amountWei :=
           orThrow "InvalidDecimalNumberError" (parseUnits amount 18) in
         await source := orThrow "SyntaxError" (BigInt_ofString source) in
         await result :=
           simulateContract (client this) address
             (Contract.address (contractPool this))
             (Contract.abi (contractPool this))
             "unstake"
             [AUint amountWei; AUint allowedInterchangeNum; AUint source] in
         ret (fromWeiToEther result))
    (handleError "SIMULATE_UNSTAKE_ERROR").

Definition unstakePending (this : t) (address amount : string)
    : Eff Trace EthTransaction :=
  if negb (isAddress address) then throwError "ADDRESS_FORMAT_ERROR" []
  else
    await pendingBalance := pendingBalanceOf this address in
    if BigNumber.isZero pendingBalance then
      throwError "ZERO_UNSTAKE_MESSAGE" []
    else
      let bnAmount := BigNumber_ofString amount in
      if BigNumber.gt bnAmount pendingBalance then
        throwError "AMOUNT_GREATER_THAN_PENDING_BALANCE_ERROR"
          [PBigNumber pendingBalance]
      else
        try_catch
          (let pendingBalance := BigNumber.minus pendingBalance bnAmount in
           await _ :=
             (if negb (BigNumber.isZero pendingBalance) then
                await minStake := minStakeAmount this in
                if BigNumber.lt pendingBalance minStake then
                  throwError "INSUFFICIENT_PENDING_BALANCE_ERROR"
                    [PBigNumber minStake]
                else ret tt
              else ret tt) in
           await amountWei :=
             orThrow "InvalidDecimalNumberError" (parseUnits amount 18) in
           await data :=
             encode (Contract.abi (contractPool this)) "unstakePending"
               [AUint amountWei] in
           getTransaction this data address
             (Contract.address (contractPool this))
             None)
          (handleError "UNSTAKE_PENDING_ERROR").

Definition activateStake (this : t) (address : string)
    : Eff Trace EthTransaction :=
  try_catch
    (if negb (isAddress address) then throwError "ADDRESS_FORMAT_ERROR" []
     else
       getTransaction this
         (encodeFunctionData (Contract.abi (contractPool this))
            "activateStake" [])
         address
         (Contract.address (contractPool this))
         None)
    (handleError "ACTIVATE_STAKE_ERROR").

(** [ETH_NETWORK_ADDRESSES[network]] is a property read on an object:
    it finds an entry of the table, or else what every object inherits
    from [Object.prototype] under that name (a function, or the prototype
    itself for [__proto__]: truthy, and with none of the fields of an
    entry), or else [undefined]. *)
Definition property (network : string) : Property :=
  match ETH_NETWORK_ADDRESSES !! network with
  | Some networkAddresses => Entry networkAddresses
  | None =>
      if existsb (String.eqb network) inheritedNames then Inherited
      else Missing
  end.

(** A field of what the property read found; [None] is [undefined]. *)
Definition field {A} (networkAddresses : Property)
    (read : EthNetworkAddresses -> A) : option A :=
  match networkAddresses with
  | Entry entry => Some (read entry)
  | _ => None
  end.

(** [initializeNetwork] assigns the fields of [this] one after the
    other, so it runs over the object as its state. An absent or empty
    [urlOrTransport] is falsy and gives way to the [rpcUrl] field of what
    was found. [createPublicClient] calls its transport, so a transport
    that is [undefined] is a [TypeError]. *)
Definition initializeNetwork (network : string)
    (urlOrTransport : option (string + Transport)) : Eff Object unit :=
  let networkAddresses := property network in
  match networkAddresses with
  | Missing => throwError "NETWORK_NOT_SUPPORTED" [PStr network]
  | _ =>
      let urlOrTransport :=
        match urlOrTransport with
        | None | Some (inl EmptyString) => inl <$> field networkAddresses rpcUrl
        | Some other => Some other
        end in
      await client :=
        match urlOrTransport with
        | Some (inl url) => ret (createPublicClient (http url 1 300))
        | Some (inr transport) => ret (createPublicClient transport)
        | None => throw (Thrown "TypeError")
        end in
      await _ := modify (fun this =>
        {| object_addressContractWithdrawTreasury :=
             object_addressContractWithdrawTreasury this;
           object_contractAccounting := object_contractAccounting this;
           object_contractPool := object_contractPool this;
           object_client := client |}) in
      await _ := modify (fun this =>
        {| object_addressContractWithdrawTreasury :=
             field networkAddresses addressContractWithdrawTreasury;
           object_contractAccounting := object_contractAccounting this;
           object_contractPool := object_contractPool this;
           object_client := object_client this |}) in
      await _ := modify (fun this =>
        {| object_addressContractWithdrawTreasury :=
             object_addressContractWithdrawTreasury this;
           object_contractAccounting :=
             {| object_abi := ABI_CONTRACT_ACCOUNTING;
                object_address :=
                  field networkAddresses addressContractAccounting |};
           object_contractPool := object_contractPool this;
           object_client := object_client this |}) in
      modify (fun this =>
        {| object_addressContractWithdrawTreasury :=
             object_addressContractWithdrawTreasury this;
           object_contractAccounting := object_contractAccounting this;
           object_contractPool :=
             {| object_abi := ABI_CONTRACT_POOL;
                object_address := field networkAddresses addressContractPool |};
           object_client := object_client this |})
  end.

(** [selectNetwork] returns [this], here the object after rebinding. *)
Definition selectNetwork (network : string) (url : option string)
    : Eff Object Object :=
  await _ := initializeNetwork network (option_map inl url) in
  get.

End Methods.

End Ethereum.

(** ** The Berrachain adapter *)

Module Berrachain.

Inductive Network : Type := testnet | mainnet.

Record BGTContract : Type := {
  btg_network : Network;
  contractAddress : HexString;
  abi : Abi
}.

Record Transaction : Type := {
  from : HexString;
  to : HexString;
  value : BigNumber.t;
  gasLimit : Z;
  data : HexString
}.

Record t : Type := {
  validator : HexString;
  client : PublicClient;
  btg : BGTContract;
  network : Network
}.

(** The constants module is not among the sources; [GAS_RESERVE] is a
    plain number holding an integer. *)
Class Constants : Type := {
  GAS_RESERVE : Z;
  MAINNET_BGT_CONTRACT_ADDRESS : HexString;
  MAINNET_VALIDATOR : HexString;
  TESTNET_BGT_CONTRACT_ADDRESS : HexString;
  TESTNET_VALIDATOR : HexString;
  ERROR_MESSAGES : gmap string string
}.

Section Methods.
Context `{!Libraries, !World, !Constants}.

Definition throwError {S A} (code : string) (values : list Piece)
    : Eff S A :=
  Blockchain.throwError ERROR_MESSAGES code values.

Definition handleError {S A} (code : string) (error : Failure) : Eff S A :=
  Blockchain.handleError ERROR_MESSAGES code error.

(** The constructor; [Network] has the two values of the source's
    type, so the [default] arm of its switch is not reachable. *)
Definition new (network : option Network) (rpcOrTransport : string + Transport)
    : t :=
  let network := default mainnet network in
  let client :=
    createPublicClient
      match rpcOrTransport with
      | inl url => http url 1 300
      | inr transport => transport
      end in
  match network with
  | mainnet =>
      {| validator := MAINNET_VALIDATOR;
         client := client;
         btg := {| btg_network := network;
                   abi := MAINNET_ABI;
                   contractAddress := MAINNET_BGT_CONTRACT_ADDRESS |};
         network := network |}
  | testnet =>
      {| validator := TESTNET_VALIDATOR;
         client := client;
         btg := {| btg_network := network;
                   abi := TESTNET_ABI;
                   contractAddress := TESTNET_BGT_CONTRACT_ADDRESS |};
         network := network |}
  end.

(** [Number(gasConsumption) + GAS_RESERVE] *)
Definition calculateGasLimit (gasConsumption : Z) : Z :=
  Number.add (Number.ofInteger gasConsumption) GAS_RESERVE.

Definition getTransaction (this : t) (data address : HexString)
    (value : option BigNumber.t) : Eff Trace Transaction :=
  let value := default (BigNumber.ofBigint 0) value in
  await gasConsumption :=
    estimateGas (client this) (contractAddress (btg this)) data address in
  ret {| from := address;
         to := contractAddress (btg this);
         value := value;
         gasLimit := calculateGasLimit gasConsumption;
         data := data |}.

Definition approveForStake (this : t) (address amount : string)
    : Eff Trace Transaction :=
  try_catch
    (await amountWei :=
       orThrow "InvalidDecimalNumberError" (parseUnits amount 18) in
     await data :=
       encode (abi (btg this)) "approve"
         [AAddress (contractAddress (btg this)); AUint amountWei] in
     getTransaction this data address None)
    (handleError "APPROVE_FOR_STAKE_ERROR").

Definition activateStake (this : t) (address : string)
    : Eff Trace Transaction :=
  try_catch
    (await data :=
       match btg_network (btg this) with
       | testnet =>
           encode (abi (btg this)) "activateBoost" [AAddress (validator this)]
       | mainnet =>
           encode (abi (btg this)) "activateBoost"
             [AAddress address; AAddress (validator this)]
       end in
     getTransaction this data address None)
    (handleError "ACTIVATE_BOOST_ERROR").

Definition cancelStakeInQueue (this : t) (address amount : string)
    : Eff Trace Transaction :=
  try_catch
    (if negb (isAddress address) then throwError "ADDRESS_FORMAT_ERROR" []
     else
       await amountWei :=
         orThrow "InvalidDecimalNumberError" (parseUnits amount 18) in
       await data :=
         encode (abi (btg this)) "cancelBoost"
           [AAddress (validator this); AUint amountWei] in
       getTransaction this data address None)
    (handleError "CANCEL_BOOST_ERROR").

Definition unstake (this : t) (address amount : string)
    : Eff Trace Transaction :=
  try_catch
    (if negb (isAddress address) then throwError "ADDRESS_FORMAT_ERROR" []
     else
       await data :=
         match btg_network (btg this) with
         | testnet =>
             await amountWei :=
               orThrow "InvalidDecimalNumberError" (parseUnits amount 18) in
             encode (abi (btg this)) "dropBoost"
               [AAddress (validator this); AUint amountWei]
         | mainnet =>
             encode (abi (btg this)) "dropBoost"
               [AAddress address; AAddress (validator this)]
         end in
       getTransaction this data address None)
    (handleError "DROP_BOOST_ERROR").

Definition stake (this : t) (address amount : string)
    : Eff Trace Transaction :=
  try_catch
    (if negb (isAddress address) then throwError "ADDRESS_FORMAT_ERROR" []
     else
       await amountWei :=
         orThrow "InvalidDecimalNumberError" (parseUnits amount 18) in
       await data :=
         encode (abi (btg this)) "queueBoost"
           [AAddress (validator this); AUint amountWei] in
       getTransaction this data address None)
    (handleError "BOOST_ERROR").

Definition queueUnstake (this : t) (address amount : string)
    : Eff Trace Transaction :=
  try_catch
    (match network this with
     | testnet => throwError "NOT_AVAILABLE_NETWORK" []
     | mainnet =>
         await amountWei :=
           orThrow "InvalidDecimalNumberError" (parseUnits amount 18) in
         await data :=
           encode (abi (btg this)) "queueDropBoost"
             [AAddress (validator this); AUint amountWei] in
         getTransaction this data address None
     end)
    (handleError "QUEUE_DROP_BOOST_ERROR").

Definition cancelUnstake (this : t) (address amount : string)
    : Eff Trace Transaction :=
  try_catch
    (match network this with
     | testnet => throwError "NOT_AVAILABLE_NETWORK" []
     | mainnet =>
         await amountWei :=
           orThrow "InvalidDecimalNumberError" (parseUnits amount 18) in
         await data :=
           encode (abi (btg this)) "cancelDropBoost"
             [AAddress (validator this); AUint amountWei] in
         getTransaction this data address None
     end)
    (handleError "CANCEL_DROP_BOOST_ERROR").

End Methods.

End Berrachain.

(** ** The Polygon adapter *)

Module Polygon.

Record TransactionRequest : Type := {
  from : HexString;
  to : HexString;
  gasLimit : Z;
  data : HexString
}.

Record UnbondInfo : Type := {
  amount : BigNumber.t;
  withdrawEpoch : Z;
  unbondNonces : Z
}.

Record t : Type := {
  contract_approve : Contract.ContractProps;
  contract_approve_pol : Contract.ContractProps;
  contract_buy : Contract.ContractProps;
  contract_staking : Contract.ContractProps;
  client : PublicClient
}.

(** The constants modules are not among the sources. The amounts are
    integers (base units, epochs, gas); [TOKEN_ERROR] is the text of
    [COMMON_ERROR_MESSAGES.TOKEN_ERROR]. *)
Class Constants : Type := {
  ADDRESS_CONTRACT_APPROVE : HexString;
  ADDRESS_CONTRACT_APPROVE_POL : HexString;
  ADDRESS_CONTRACT_BUY : HexString;
  ADDRESS_CONTRACT_STAKING : HexString;
  CHAIN : string;
  CLAIM_REWARDS_BASE_GAS : Z;
  CLAIM_UNDELEGATE_BASE_GAS : Z;
  DELEGATE_BASE_GAS : Z;
  MIN_AMOUNT : Z;
  RESTAKE_BASE_GAS : Z;
  RPC_URL : string;
  UNDELEGATE_BASE_GAS : Z;
  WITHDRAW_EPOCH_DELAY : Z;
  TOKEN_ERROR : string;
  ERROR_MESSAGES : gmap string string
}.

Section Methods.
Context `{!Libraries, !World, !Constants}.

Definition throwError {S A} (code : string) (values : list Piece)
    : Eff S A :=
  Blockchain.throwError ERROR_MESSAGES code values.

Definition handleError {S A} (code : string) (error : Failure) : Eff S A :=
  Blockchain.handleError ERROR_MESSAGES code error.

Definition new (rpcOrTransport : option (string + Transport)) : t :=
  let rpcOrTransport := default (inl RPC_URL) rpcOrTransport in
  {| client :=
       createPublicClient
         match rpcOrTransport with
         | inl url => http url 1 300
         | inr transport => transport
         end;
     contract_approve :=
       {| Contract.abi := ABI_CONTRACT_APPROVE;
          Contract.address := ADDRESS_CONTRACT_APPROVE |};
     contract_approve_pol :=
       {| Contract.abi := ABI_CONTRACT_APPROVE;
          Contract.address := ADDRESS_CONTRACT_APPROVE_POL |};
     contract_buy :=
       {| Contract.abi := ABI_CONTRACT_BUY;
          Contract.address := ADDRESS_CONTRACT_BUY |};
     contract_staking :=
       {| Contract.abi := ABI_CONTRACT_STAKING;
          Contract.address := ADDRESS_CONTRACT_STAKING |} |}.

(** [new BigNumber(formatUnits(v, 18))] *)
Definition fromUnits (v : Z) : BigNumber.t :=
  BigNumber.shiftedBy (BigNumber.ofBigint v) (-18).

(** Returns the [result] field of the answer. *)
Definition isTransactionLoading (this : t) (hash : HexString)
    : Eff Trace bool :=
  try_catch
    (try_catch
       (await _ := getTransactionReceipt (client this) hash in
        ret false)
       (fun e =>
          match e with
          | Thrown "TransactionReceiptNotFoundError" => ret true
          | _ => throw e
          end))
    (handleError "TRANSACTION_LOADING_ERR").

Definition getTransaction (this : t) (data address contractAddress : HexString)
    : Eff Trace TransactionRequest :=
  await gasLimit :=
    estimateGas (client this) contractAddress data address in
  ret {| from := address;
         to := contractAddress;
         gasLimit := gasLimit;
         data := data |}.

Definition approve (this : t) (address amount : string) (isPOL : option bool)
    : Eff Trace TransactionRequest :=
  let isPOL := default false isPOL in
  await amountWei :=
    orThrow "InvalidDecimalNumberError" (parseUnits amount 18) in
  if BigNumber.isLessThan (BigNumber.ofBigint amountWei)
       (BigNumber.ofBigint MIN_AMOUNT) then
    throw (PlainError [PStr "Min Amount "; PUnits MIN_AMOUNT 18; PStr " matic"])
  else
    let contract :=
      if isPOL then contract_approve_pol this else contract_approve this in
    try_catch
      (await data :=
         encode (Contract.abi contract) "approve"
           [AAddress ADDRESS_CONTRACT_STAKING; AUint amountWei] in
       getTransaction this data address (Contract.address contract))
      (handleError "APPROVE_ERR").

Definition getReward (this : t) (address : HexString)
    : Eff Trace BigNumber.t :=
  try_catch
    (await result :=
       readContract (client this)
         (Contract.address (contract_buy this))
         (Contract.abi (contract_buy this))
         "getLiquidRewards" [AAddress address] in
     await result := single result in
     ret (fromUnits result))
    (handleError "GET_REWARD_ERR").

Definition getAllowance (this : t) (owner : HexString) (isPOL : option bool)
    (spender : option HexString) : Eff Trace Z :=
  let isPOL := default false isPOL in
  let spender := default ADDRESS_CONTRACT_STAKING spender in
  let contract :=
    if isPOL then contract_approve_pol this else contract_approve this in
  try_catch
    (await result :=
       readContract (client this)
         (Contract.address contract)
         (Contract.abi contract)
         "allowance" [AAddress owner; AAddress spender] in
     single result)
    (handleError "GET_ALLOWANCE_ERR").

Definition getTotalDelegate (this : t) (address : HexString)
    : Eff Trace BigNumber.t :=
  try_catch
    (await results :=
       readContract (client this)
         (Contract.address (contract_buy this))
         (Contract.abi (contract_buy this))
         "getTotalStake" [AAddress address] in
     match results with
     | result :: _ => ret (fromUnits result)
     | [] => throw (Thrown "TypeError")
     end)
    (handleError "GET_TOTAL_DELEGATE_ERR").

Definition getUnbondNonces (this : t) (address : HexString) : Eff Trace Z :=
  try_catch
    (await result :=
       readContract (client this)
         (Contract.address (contract_buy this))
         (Contract.abi (contract_buy this))
         "unbondNonces" [AAddress address] in
     single result)
    (handleError "GET_UNBOND_NONCE_ERR").

Definition getUnbond (this : t) (address : HexString) (unbondNonce : option Z)
    : Eff Trace UnbondInfo :=
  let unbondNonce := default 0 unbondNonce in
  try_catch
    (await unbondNoncesRes := getUnbondNonces this address in
     let unbondNonces :=
       if unbondNonce =? 0 then unbondNoncesRes else unbondNonce in
     await result :=
       readContract (client this)
         (Contract.address (contract_buy this))
         (Contract.abi (contract_buy this))
         "unbonds_new" [AAddress address; AUint unbondNonces] in
     match result with
     | res0 :: res1 :: _ =>
         ret {| amount := fromUnits res0;
                withdrawEpoch := res1;
                unbondNonces := unbondNonces |}
     | _ => throw (Thrown "TypeError")
     end)
    (handleError "GET_UNBOND_ERR").

Definition getCurrentEpoch (this : t) : Eff Trace Z :=
  await result :=
    readContract (client this)
      (Contract.address (contract_staking this))
      (Contract.abi (contract_staking this))
      "currentEpoch" [] in
  single result.

(** A bigint allowance of zero is falsy, so the allowance test is
    skipped for it. *)
Definition delegate (this : t) (token : string) (address amount : string)
    (isPOL : option bool) : Eff Trace TransactionRequest :=
  let isPOL := default false isPOL in
  await valid := CheckToken token in
  if valid then
    await amountWei :=
      orThrow "InvalidDecimalNumberError" (parseUnits amount 18) in
    if BigNumber.isLessThan (BigNumber.ofBigint amountWei)
         (BigNumber.ofBigint MIN_AMOUNT) then
      throw (PlainError
               [PStr "Min Amount "; PBigint MIN_AMOUNT; PStr " wei matic"])
    else
      try_catch
        (await allowedAmount := getAllowance this address None None in
         if negb (allowedAmount =? 0)
            && BigNumber.isLessThan (BigNumber.ofBigint allowedAmount)
                 (BigNumber.ofBigint amountWei) then
           throwError "ALLOWANCE_ERR" []
         else
           await data :=
             encode (Contract.abi (contract_buy this))
               (if isPOL then "buyVoucherPOL" else "buyVoucher")
               [AUint amountWei; AUint 0] in
           let tx :=
             {| from := address;
                to := ADDRESS_CONTRACT_BUY;
                gasLimit := DELEGATE_BASE_GAS;
                data := data |} in
           await _ := SetStats token "stake" amount address CHAIN in
           ret tx)
        (handleError "DELEGATE_ERR")
  else throw (PlainError [PStr TOKEN_ERROR]).

Definition undelegate (this : t) (token : string) (address amount : string)
    (isPOL : option bool) : Eff Trace TransactionRequest :=
  let isPOL := default false isPOL in
  await valid := CheckToken token in
  if valid then
    try_catch
      (await amountWei :=
         orThrow "InvalidDecimalNumberError" (parseUnits amount 18) in
       await delegatedBalance := getTotalDelegate this address in
       if BigNumber.isLessThan delegatedBalance (BigNumber_ofString amount)
       then throwError "DELEGATED_BALANCE_ERR" []
       else
         await data :=
           encode (Contract.abi (contract_buy this))
             (if isPOL then "sellVoucher_newPOL" else "sellVoucher_new")
             [AUint amountWei; AUint amountWei] in
         let tx :=
           {| from := address;
              to := ADDRESS_CONTRACT_BUY;
              gasLimit := UNDELEGATE_BASE_GAS;
              data := data |} in
         await _ := SetStats token "unstake" amount address CHAIN in
         ret tx)
      (handleError "UNDELEGATE_ERR")
  else throw (PlainError [PStr TOKEN_ERROR]).

Definition claimUndelegate (this : t) (address : HexString)
    (unbondNonce : option Z) (isPOL : option bool)
    : Eff Trace TransactionRequest :=
  let isPOL := default false isPOL in
  await unbond := getUnbond this address unbondNonce in
  if BigNumber.isZero (amount unbond) then
    throw (PlainError [PStr "Nothing to claim"])
  else
    await currentEpoch := getCurrentEpoch this in
    if BigNumber.isLessThan (BigNumber.ofBigint currentEpoch)
         (BigNumber.plus (BigNumber.ofBigint (withdrawEpoch unbond))
            (BigNumber.ofBigint WITHDRAW_EPOCH_DELAY)) then
      throw (PlainError [PStr "Current epoch less than withdraw delay"])
    else
      await data :=
        encode (Contract.abi (contract_buy this))
          (if isPOL then "unstakeClaimTokens_newPOL"
           else "unstakeClaimTokens_new")
          [AUint (unbondNonces unbond)] in
      ret {| from := address;
             to := ADDRESS_CONTRACT_BUY;
             gasLimit := CLAIM_UNDELEGATE_BASE_GAS;
             data := data |}.

Definition reward (this : t) (address : string) (isPOL : option bool)
    : Eff Trace TransactionRequest :=
  let isPOL := default false isPOL in
  let data :=
    encodeFunctionData (Contract.abi (contract_buy this))
      (if isPOL then "withdrawRewardsPOL" else "withdrawRewards") [] in
  ret {| from := address;
         to := ADDRESS_CONTRACT_BUY;
         gasLimit := CLAIM_REWARDS_BASE_GAS;
         data := data |}.

Definition restake (this : t) (address : string) (isPOL : option bool)
    : Eff Trace TransactionRequest :=
  let isPOL := default false isPOL in
  let data :=
    encodeFunctionData (Contract.abi (contract_buy this))
      (if isPOL then "restakePOL" else "restake") [] in
  ret {| from := address;
         to := ADDRESS_CONTRACT_BUY;
         gasLimit := RESTAKE_BASE_GAS;
         data := data |}.

End Methods.

End Polygon.

(** ** The transaction builders of each adapter, as one family *)

(** Every state-changing operation of the Ethereum adapter; all of them
    end in [Ethereum.getTransaction]. *)
Inductive EthOperation : Type :=
| EthAutocompound (address : string)
| EthClaimWithdrawRequest (address : string)
| EthStake (address amount : string) (source : option string)
| EthUnstake (address amount : string) (allowedInterchangeNum : option Z)
             (source : option string)
| EthUnstakePending (address amount : string)
| EthActivateStake (address : string).

Definition runEth `{!Libraries, !World, !Ethereum.Constants}
    (this : Ethereum.t) (op : EthOperation)
    : Eff Trace Ethereum.EthTransaction :=
  match op with
  | EthAutocompound address => Ethereum.autocompound this address
  | EthClaimWithdrawRequest address => Ethereum.claimWithdrawRequest this address
  | EthStake address amount source => Ethereum.stake this address amount source
  | EthUnstake address amount n source =>
      Ethereum.unstake this address amount n source
  | EthUnstakePending address amount =>
      Ethereum.unstakePending this address amount
  | EthActivateStake address => Ethereum.activateStake this address
  end.

(** Every state-changing operation of the Berrachain adapter. *)
Inductive BeraOperation : Type :=
| BeraApproveForStake (address amount : string)
| BeraActivateStake (address : string)
| BeraCancelStakeInQueue (address amount : string)
| BeraUnstake (address amount : string)
| BeraStake (address amount : string)
| BeraQueueUnstake (address amount : string)
| BeraCancelUnstake (address amount : string).

Definition runBera `{!Libraries, !World, !Berrachain.Constants}
    (this : Berrachain.t) (op : BeraOperation)
    : Eff Trace Berrachain.Transaction :=
  match op with
  | BeraApproveForStake address amount =>
      Berrachain.approveForStake this address amount
  | BeraActivateStake address => Berrachain.activateStake this address
  | BeraCancelStakeInQueue address amount =>
      Berrachain.cancelStakeInQueue this address amount
  | BeraUnstake address amount => Berrachain.unstake this address amount
  | BeraStake address amount => Berrachain.stake this address amount
  | BeraQueueUnstake address amount =>
      Berrachain.queueUnstake this address amount
  | BeraCancelUnstake address amount =>
      Berrachain.cancelUnstake this address amount
  end.

(** A computation run for its outcome only. *)
Definition forget {S A} (m : Eff S A) : Eff S unit :=
  await _ := m in ret tt.

(** ** Sample instances

    Concrete libraries, constants and endpoint answers on which the
    statements below are exercised. *)

Module Sample.

Definition isDigit (c : Ascii.ascii) : bool :=
  let n := Ascii.N_of_ascii c in ((48 <=? n) && (n <=? 57))%N.

Definition isLowerHex (c : Ascii.ascii) : bool :=
  let n := Ascii.N_of_ascii c in
  (((48 <=? n) && (n <=? 57)) || ((97 <=? n) && (n <=? 102)))%N.

Fixpoint digitsValue (acc : N) (s : string) : option N :=
  match s with
  | EmptyString => Some acc
  | String c rest =>
      if isDigit c then
        digitsValue (acc * 10 + (Ascii.N_of_ascii c - 48))%N rest
      else None
  end.

(** The value of a non-empty string of decimal digits. *)
Definition unsignedLiteral (s : string) : option Z :=
  match s with
  | EmptyString => None
  | _ => Z.of_N <$> digitsValue 0 s
  end.

Fixpoint allLowerHex (s : string) : bool :=
  match s with
  | EmptyString => true
  | String c rest => isLowerHex c && allLowerHex rest
  end.

(** [0x] and forty hexadecimal digits, none of them upper case: on
    strings without upper-case letters this is what viem answers. *)
Definition lowerCaseAddress (s : string) : bool :=
  match s with
  | String "0"%char (String "x"%char rest) =>
      (String.length rest =? 40)%nat && allLowerHex rest
  | _ => false
  end.

Definition showArg (a : AbiArg) : string :=
  match a with
  | AUint z => pretty z
  | AAddress s => s
  end.

(** The widths the sample encoder takes for integer parameters:
    [unstake(uint256, uint16, uint64)], [stake(uint64)], and 256 bits
    everywhere else. *)
Definition uintBits (functionName : string) (position : nat) : Z :=
  if String.eqb functionName "unstake" then
    match position with
    | 1%nat => 16
    | 2%nat => 64
    | _ => 256
    end
  else if String.eqb functionName "stake" then 64
  else 256.

(** An address argument of the samples: a string that starts with [0x]
    has to be an address; the names that stand for the contracts of the
    sample tables are let through; the empty string is refused. *)
Definition addressArgument (s : string) : bool :=
  match s with
  | EmptyString => false
  | String "0"%char (String "x"%char _) => lowerCaseAddress s
  | _ => true
  end.

Definition refusal (functionName : string) (position : nat) (a : AbiArg)
    : option string :=
  match a with
  | AUint z =>
      if (0 <=? z) && (z <? 2 ^ uintBits functionName position) then None
      else Some "IntegerOutOfRangeError"%string
  | AAddress s =>
      if addressArgument s then None else Some "InvalidAddressError"%string
  end.

Fixpoint firstRefusal (functionName : string) (position : nat)
    (args : list AbiArg) : option string :=
  match args with
  | [] => None
  | a :: rest =>
      match refusal functionName position a with
      | Some kind => Some kind
      | None => firstRefusal functionName (S position) rest
      end
  end.

(** The libraries on unsigned integer literals, where [parseUnits],
    [new BigNumber] and [BigInt] agree on the value read; every other
    string is refused. Call data is kept readable, and the encoder
    refuses the first argument that does not fit. *)
Definition libraries : Libraries := {|
  isAddress := lowerCaseAddress;
  parseUnits amount decimals :=
    (fun v => v * 10 ^ decimals) <$> unsignedLiteral amount;
  BigNumber_ofString amount :=
    match unsignedLiteral amount with
    | Some v => BigNumber.ofBigint v
    | None => BigNumber.NaN
    end;
  BigInt_ofString := unsignedLiteral;
  encodeFunctionData _ functionName args :=
    (functionName +:+ "(" +:+ String.concat "," (showArg <$> args) +:+ ")")%string;
  encodingError _ functionName args := firstRefusal functionName 0 args
|}.

(** An endpoint that answers each read by the name of the contract
    function and gas estimation with [gas]. *)
Definition world (reads : string -> string + list Z) (gas : string + Z)
    : World := {|
  rpc_readContract _ _ _ functionName _ := reads functionName;
  rpc_estimateGas _ _ _ _ := gas;
  rpc_simulateContract _ _ _ _ _ _ := inr 0;
  rpc_getTransactionReceipt _ _ := inr tt;
  api_checkToken _ := inr true;
  api_setStats _ _ _ _ _ := inr tt
|}.

Definition user : string := "0x00000000000000000000000000000000000000aa".

Definition ethAddresses (tag : string) : Ethereum.EthNetworkAddresses := {|
  Ethereum.addressContractAccounting := (tag +:+ "-accounting")%string;
  Ethereum.addressContractPool := (tag +:+ "-pool")%string;
  Ethereum.addressContractWithdrawTreasury := (tag +:+ "-treasury")%string;
  Ethereum.rpcUrl := ("https://" +:+ tag +:+ ".example")%string
|}.

Definition ethErrors : gmap string string :=
  list_to_map
    [("ADDRESS_FORMAT_ERROR", "Invalid address format");
     ("MIN_AMOUNT_ERROR", "Min amount is {0}");
     ("MAX_AMOUNT_FOR_UNSTAKE_ERROR", "Max amount for unstake is {0}");
     ("ZERO_UNSTAKE_ERROR", "No funds to claim");
     ("ZERO_UNSTAKE_MESSAGE", "Zero pending balance");
     ("NOT_FILLED_UNSTAKE_MESSAGE", "Unstake request is not filled yet");
     ("AMOUNT_GREATER_THAN_PENDING_BALANCE_ERROR",
      "Amount greater than pending balance {0}");
     ("INSUFFICIENT_PENDING_BALANCE_ERROR",
      "Pending balance less than min stake amount {0}");
     ("NETWORK_NOT_SUPPORTED", "Unsupported network {0}");
     ("NO_REWARDS_MESSAGE", "No active rewards");
     ("STAKE_ERROR", "Stake failed");
     ("UNSTAKE_ERROR", "Unstake failed");
     ("SIMULATE_UNSTAKE_ERROR", "Unstake simulation failed");
     ("UNSTAKE_PENDING_ERROR", "Unstake pending failed");
     ("CLAIM_WITHDRAW_REQUEST_ERROR", "Claim failed");
     ("AUTOCOMPOUND_ERROR", "Autocompound failed");
     ("ACTIVATE_STAKE_ERROR", "Activate stake failed");
     ("AUTOCOMPOUND_BALANCE_OF_ERROR", "Autocompound balance read failed");
     ("PENDING_BALANCE_OF_ERROR", "Pending balance read failed");
     ("WITHDRAW_REQUEST_ERROR", "Withdraw request read failed");
     ("MIN_STAKE_AMOUNT_ERROR", "Min stake amount read failed");
     ("READY_FOR_AUTOCOMPOUND_REWARDS_AMOUNT_ERROR", "Rewards read failed")]%string.

Definition ethConstants : Ethereum.Constants := {|
  Ethereum.ETH_NETWORK_ADDRESSES :=
    list_to_map
      [("mainnet", ethAddresses "mainnet");
       ("holesky", ethAddresses "holesky");
       ("hoodi", ethAddresses "hoodi")]%string;
  Ethereum.ETH_GAS_RESERVE := 220000;
  Ethereum.ETH_MIN_AMOUNT := BigNumber.ofBigint (10 ^ 17);
  Ethereum.ERROR_MESSAGES := ethErrors
|}.

Definition ethereum : Ethereum.t := {|
  Ethereum.this_addressContractWithdrawTreasury := "mainnet-treasury";
  Ethereum.contractAccounting :=
    {| Contract.abi := ABI_CONTRACT_ACCOUNTING;
       Contract.address := "mainnet-accounting" |};
  Ethereum.contractPool :=
    {| Contract.abi := ABI_CONTRACT_POOL;
       Contract.address := "mainnet-pool" |};
  Ethereum.client := createPublicClient (http "https://mainnet.example" 1 300)
|}.

Definition beraConstants : Berrachain.Constants := {|
  Berrachain.GAS_RESERVE := 50000;
  Berrachain.MAINNET_BGT_CONTRACT_ADDRESS := "bgt-mainnet";
  Berrachain.MAINNET_VALIDATOR := "validator-mainnet";
  Berrachain.TESTNET_BGT_CONTRACT_ADDRESS := "bgt-testnet";
  Berrachain.TESTNET_VALIDATOR := "validator-testnet";
  Berrachain.ERROR_MESSAGES :=
    list_to_map
      [("ADDRESS_FORMAT_ERROR", "Invalid address format");
       ("BOOST_ERROR", "Boost failed")]%string
|}.

Definition polygonErrors : gmap string string :=
  list_to_map
    [("TRANSACTION_LOADING_ERR", "Transaction status failed");
     ("APPROVE_ERR", "Approve failed");
     ("ALLOWANCE_ERR", "Allowance less than amount");
     ("DELEGATE_ERR", "Delegate failed");
     ("DELEGATED_BALANCE_ERR", "Delegated balance less than amount");
     ("UNDELEGATE_ERR", "Undelegate failed");
     ("GET_REWARD_ERR", "Reward read failed");
     ("GET_ALLOWANCE_ERR", "Allowance read failed");
     ("GET_TOTAL_DELEGATE_ERR", "Total delegate read failed");
     ("GET_UNBOND_ERR", "Unbond read failed");
     ("GET_UNBOND_NONCE_ERR", "Unbond nonce read failed")]%string.

Definition polygonConstants : Polygon.Constants := {|
  Polygon.ADDRESS_CONTRACT_APPROVE := "matic-token";
  Polygon.ADDRESS_CONTRACT_APPROVE_POL := "pol-token";
  Polygon.ADDRESS_CONTRACT_BUY := "validator-share";
  Polygon.ADDRESS_CONTRACT_STAKING := "stake-manager";
  Polygon.CHAIN := "polygon";
  Polygon.CLAIM_REWARDS_BASE_GAS := 180000;
  Polygon.CLAIM_UNDELEGATE_BASE_GAS := 200000;
  Polygon.DELEGATE_BASE_GAS := 220000;
  Polygon.MIN_AMOUNT := 10 ^ 18;
  Polygon.RESTAKE_BASE_GAS := 220000;
  Polygon.RPC_URL := "https://polygon.example";
  Polygon.UNDELEGATE_BASE_GAS := 300000;
  Polygon.WITHDRAW_EPOCH_DELAY := 80;
  Polygon.TOKEN_ERROR := "Please create or use correct token";
  Polygon.ERROR_MESSAGES := polygonErrors
|}.

Definition polygon : Polygon.t := @Polygon.new polygonConstants None.

Definition berrachain : Berrachain.t :=
  @Berrachain.new beraConstants None (inl "https://bera.example"%string).

(** A fresh unbond (nothing left to claim, epoch 0) on a chain at
    [epoch], the latest nonce being 7. *)
Definition unbondReads (amount withdrawEpoch epoch : Z)
    (functionName : string) : string + list Z :=
  if String.eqb functionName "unbondNonces" then inr [7]
  else if String.eqb functionName "unbonds_new" then
    inr [amount; withdrawEpoch]
  else if String.eqb functionName "currentEpoch" then inr [epoch]
  else inl "ContractFunctionExecutionError"%string.

(** Reads of the Ethereum accounting and pool contracts. *)
Definition ethReads (balance requested readyForClaim minStake : Z)
    (functionName : string) : string + list Z :=
  if String.eqb functionName "autocompoundBalanceOf" then inr [balance]
  else if String.eqb functionName "pendingBalanceOf" then inr [balance]
  else if String.eqb functionName "withdrawRequest" then
    inr [requested; readyForClaim]
  else if String.eqb functionName "minStakeAmount" then inr [minStake]
  else inl "ContractFunctionExecutionError"%string.

(** One ether in base units. *)
Definition ether : Z := 10 ^ 18.

(** Autocompound and pending balance of 2 ether, a withdraw request of 1
    ether that is filled, a minimum stake of 0.1 ether; gas is estimated
    at 21000. *)
Definition healthy : World :=
  world (ethReads (2 * ether) ether ether (ether / 10)) (inr 21000).

(** As [healthy], with an endpoint that refuses to estimate gas. *)
Definition gasFailing : World :=
  world (ethReads (2 * ether) ether ether (ether / 10))
        (inl "EstimateGasExecutionError"%string).

(** A withdraw request of 1 ether of which half is ready. *)
Definition halfFilled : World :=
  world (ethReads (2 * ether) ether (ether / 2) (ether / 10)) (inr 21000).

(** A pending balance of 1.05 ether. *)
Definition smallPending : World :=
  world (ethReads (105 * (ether / 100)) 0 0 (ether / 10)) (inr 21000).


(** Polygon: an unbond record that holds nothing. *)
Definition nothingToClaim : World :=
  world (unbondReads 0 0 100) (inr 21000).

End Sample.

(** ** Vocabulary of the statements *)

Section Answers.
Context `{!World}.

(** What the endpoint answers to a read of [contract], and the call as it
    is logged. *)
Definition readAnswer (c : PublicClient) (contract : Contract.ContractProps)
    (functionName : string) (args : list AbiArg) : string + list Z :=
  rpc_readContract c (Contract.address contract) (Contract.abi contract)
    functionName args.

Definition readEvent (c : PublicClient) (contract : Contract.ContractProps)
    (functionName : string) (args : list AbiArg) : Event :=
  EvReadContract c (Contract.address contract) (Contract.abi contract)
    functionName args.

End Answers.

(** A computation that returns. *)
Definition returns {S A} (m : Eff S A) (s : S) : Prop :=
  exists a s', m s = (inr a, s').

(** The code carried by a structured error. *)
Definition codeOf (e : Failure) : option string :=
  match e with
  | WalletSDKError code _ _ _ => Some code
  | _ => None
  end.

(** [Q] holds of whatever [m] returns, and of the state it returns in. *)
Definition onReturn {S A} (m : Eff S A) (Q : A -> S -> Prop) : Prop :=
  forall s a s', m s = (inr a, s') -> Q a s'.

(** [P] holds of whatever [m] throws. *)
Definition onThrow {S A} (m : Eff S A) (P : Failure -> Prop) : Prop :=
  forall s e s', m s = (inl e, s') -> P e.

(** * Further code of the repository *)

(** ** The remaining reads and views of the Ethereum adapter *)

Module EthereumViews.

(** ASCII lower case; the strings this is applied to are the names of
    the enum below. *)
Definition lowerAscii (c : Ascii.ascii) : Ascii.ascii :=
  let n := Ascii.N_of_ascii c in
  if ((65 <=? n) && (n <=? 90))%N then Ascii.ascii_of_N (n + 32) else c.

Fixpoint toLowerCase (s : string) : string :=
  match s with
  | EmptyString => EmptyString
  | String c rest => String (lowerAscii c) (toLowerCase rest)
  end.

(** The numeric enum [ValidatorStatus] read by number: the compiled enum
    maps 0, 1 and 2 back to the names of its members and has no entry for
    any other number. *)
Definition ValidatorStatus (code : Z) : option string :=
  if code =? 0 then Some "Unknown"%string
  else if code =? 1 then Some "Pending"%string
  else if code =? 2 then Some "Deposited"%string
  else None.

(** A name is a non-empty string, hence truthy; the other arm is taken
    for [undefined] only. *)
Definition getStatusFromCode (code : Z) : string :=
  match ValidatorStatus code with
  | Some name => toLowerCase name
  | None => "invalid status"
  end.

Record MulticallContract : Type := {
  functionName : string;
  address : HexString;
  abi : Abi;
  args : option (list AbiArg)
}.

Record MulticallParameters : Type := {
  contracts : list MulticallContract;
  allowFailure : bool;
  multicallAddress : HexString
}.

(** What the two aggregated views need besides the adapter's constants:
    the address of the multicall contract (constants module, not among
    the sources), the endpoint's answer to a multicall, and the decimal
    rendering [toFixed] of bignumber.js. *)
Class Externals : Type := {
  MULTICALL_CONTRACT_ADDRESS : HexString;
  rpc_multicall : PublicClient -> MulticallParameters -> string + list Z;
  BigNumber_toFixed : BigNumber.t -> string
}.

(** The multicalls made, in order. *)
Definition MulticallLog : Type := list (PublicClient * MulticallParameters).

Section Views.
Context `{!Libraries, !World, !Ethereum.Constants, !Externals}.

Definition multicall (c : PublicClient) (parameters : MulticallParameters)
    : Eff MulticallLog (list Z) :=
  fun log =>
    match rpc_multicall c parameters with
    | inl kind => (inl (Thrown kind), log ++ [(c, parameters)])
    | inr results => (inr results, log ++ [(c, parameters)])
    end.

(** [methods.map((method, index) => [method,
    this.fromWeiToEther(results[index]!).toFixed()])] from [index] on; a
    missing result is [undefined], whose [toString] throws. *)
Fixpoint entries {St} (methods : list string) (index : nat) (results : list Z)
    : Eff St (list (string * string)) :=
  match methods with
  | [] => ret []
  | method :: rest =>
      await result := orThrow "TypeError" (results !! index) in
      await others := entries rest (S index) results in
      ret ((method, BigNumber_toFixed (Ethereum.fromWeiToEther result))
             :: others)
  end.

Definition poolMethods : list string :=
  ["balance"; "pendingBalance"; "pendingDepositedBalance";
   "pendingRestakedRewards"; "readyforAutocompoundRewardsAmount"]%string.

Definition userMethods : list string :=
  ["pendingBalanceOf"; "pendingDepositedBalanceOf"; "pendingRestakedRewardOf";
   "autocompoundBalanceOf"; "depositedBalanceOf"]%string.

(** The object built by [Object.fromEntries], as its entries in order. *)
Definition poolBalances (this : Ethereum.t)
    : Eff MulticallLog (list (string * string)) :=
  let methods := poolMethods in
  try_catch
    (let multicallContracts :=
       map (fun functionName =>
              {| functionName := functionName;
                 address := Contract.address (Ethereum.contractAccounting this);
                 abi := Contract.abi (Ethereum.contractAccounting this);
                 args := None |}) methods in
     await results :=
       multicall (Ethereum.client this)
         {| contracts := multicallContracts;
            allowFailure := false;
            multicallAddress := MULTICALL_CONTRACT_ADDRESS |} in
     entries methods 0 results)
    (Ethereum.handleError "POOL_BALANCES_ERROR").

Definition userBalances (this : Ethereum.t) (address : string)
    : Eff MulticallLog (list (string * string)) :=
  let methods := userMethods in
  try_catch
    (let multicallContracts :=
       map (fun functionName =>
              {| functionName := functionName;
                 address := Contract.address (Ethereum.contractAccounting this);
                 abi := Contract.abi (Ethereum.contractAccounting this);
                 args := Some [AAddress address] |}) methods in
     await results :=
       multicall (Ethereum.client this)
         {| contracts := multicallContracts;
            allowFailure := false;
            multicallAddress := MULTICALL_CONTRACT_ADDRESS |} in
     entries methods 0 results)
    (Ethereum.handleError "USER_BALANCES_ERROR").

Definition balance (this : Ethereum.t) : Eff Trace BigNumber.t :=
  try_catch
    (await result :=
       readContract (Ethereum.client this)
         (Contract.address (Ethereum.contractAccounting this))
         (Contract.abi (Ethereum.contractAccounting this))
         "balance" [] in
     await result := single result in
     ret (Ethereum.fromWeiToEther result))
    (Ethereum.handleError "BALANCE_ERROR").

Definition pendingBalance (this : Ethereum.t) : Eff Trace BigNumber.t :=
  try_catch
    (await result :=
       readContract (Ethereum.client this)
         (Contract.address (Ethereum.contractAccounting this))
         (Contract.abi (Ethereum.contractAccounting this))
         "pendingBalance" [] in
     await result := single result in
     ret (Ethereum.fromWeiToEther result))
    (Ethereum.handleError "PENDING_BALANCE_ERROR").

Definition pendingDepositedBalance (this : Ethereum.t)
    : Eff Trace BigNumber.t :=
  try_catch
    (await result :=
       readContract (Ethereum.client this)
         (Contract.address (Ethereum.contractAccounting this))
         (Contract.abi (Ethereum.contractAccounting this))
         "pendingDepositedBalance" [] in
     await result := single result in
     ret (Ethereum.fromWeiToEther result))
    (Ethereum.handleError "PENDING_DEPOSITED_BALANCE_ERROR").

Definition pendingRestakedRewards (this : Ethereum.t)
    : Eff Trace BigNumber.t :=
  try_catch
    (await result :=
       readContract (Ethereum.client this)
         (Contract.address (Ethereum.contractAccounting this))
         (Contract.abi (Ethereum.contractAccounting this))
         "pendingRestakedRewards" [] in
     await result := single result in
     ret (Ethereum.fromWeiToEther result))
    (Ethereum.handleError "PENDING_RESTAKED_REWARDS_ERROR").

Definition pendingDepositedBalanceOf (this : Ethereum.t) (address : string)
    : Eff Trace BigNumber.t :=
  try_catch
    (if negb (isAddress address) then
       Ethereum.throwError "ADDRESS_FORMAT_ERROR" []
     else
       await result :=
         readContract (Ethereum.client this)
           (Contract.address (Ethereum.contractAccounting this))
           (Contract.abi (Ethereum.contractAccounting this))
           "pendingDepositedBalanceOf" [AAddress address] in
       await result := single result in
       ret (Ethereum.fromWeiToEther result))
    (Ethereum.handleError "PENDING_DEPOSITED_BALANCE_OF_ERROR").

Definition depositedBalanceOf (this : Ethereum.t) (address : string)
    : Eff Trace BigNumber.t :=
  try_catch
    (if negb (isAddress address) then
       Ethereum.throwError "ADDRESS_FORMAT_ERROR" []
     else
       await result :=
         readContract (Ethereum.client this)
           (Contract.address (Ethereum.contractAccounting this))
           (Contract.abi (Ethereum.contractAccounting this))
           "depositedBalanceOf" [AAddress address] in
       await result := single result in
       ret (Ethereum.fromWeiToEther result))
    (Ethereum.handleError "DEPOSITED_BALANCE_OF_ERROR").

Definition pendingRestakedRewardOf (this : Ethereum.t) (address : string)
    : Eff Trace BigNumber.t :=
  try_catch
    (if negb (isAddress address) then
       Ethereum.throwError "ADDRESS_FORMAT_ERROR" []
     else
       await result :=
         readContract (Ethereum.client this)
           (Contract.address (Ethereum.contractAccounting this))
           (Contract.abi (Ethereum.contractAccounting this))
           "pendingRestakedRewardOf" [AAddress address] in
       await result := single result in
       ret (Ethereum.fromWeiToEther result))
    (Ethereum.handleError "PENDING_RESTAKED_REWARD_OF_ERROR").

Definition restakedRewardOf (this : Ethereum.t) (address : string)
    : Eff Trace BigNumber.t :=
  try_catch
    (if negb (isAddress address) then
       Ethereum.throwError "ADDRESS_FORMAT_ERROR" []
     else
       await result :=
         readContract (Ethereum.client this)
           (Contract.address (Ethereum.contractAccounting this))
           (Contract.abi (Ethereum.contractAccounting this))
           "restakedRewardOf" [AAddress address] in
       await result := single result in
       ret (Ethereum.fromWeiToEther result))
    (Ethereum.handleError "RESTAKED_REWARD_OF_ERROR").

End Views.

End EthereumViews.

(** ** The off-chain API client *)

Module Api.

(** A value produced by [JSON.parse]; a number is kept as its literal. *)
#[warnings="-register-all"]
Inductive Json : Type :=
| JNull
| JBool (b : bool)
| JNumber (literal : string)
| JString (s : string)
| JArray (items : list Json)
| JObject (fields : list (string * Json)).

(** What a call resolves to: [undefined], or a value (parsed JSON, or
    the raw body as a string). *)
Inductive JsValue : Type :=
| Undefined
| Value (j : Json).

(** The property of an object read by name; when a key occurs more than
    once the last occurrence is the one [JSON.parse] keeps. *)
Fixpoint field (name : string) (fields : list (string * Json)) : JsValue :=
  match fields with
  | [] => Undefined
  | (key, value) :: rest =>
      match field name rest with
      | Undefined => if String.eqb key name then Value value else Undefined
      | found => found
      end
  end.

Record Request : Type := {
  url : string;
  method : string;
  headers : list (string * string);
  body : option Json
}.

Record Response : Type := {
  ok : bool;
  statusText : string;
  text : string + string
}.

(** The network, the JSON parser and the URL parser. [fetch] and
    [response.text()] answer or reject (left injection: the kind of the
    rejection); [JSON_parse] is [None] where [JSON.parse] throws;
    [URL_canParse] tells whether [new URL] accepts a string, and
    [URL_href] is the text of such a URL once the given search parameters
    are set. A request body is kept as the value handed to
    [JSON.stringify]. *)
Class Network : Type := {
  fetch : Request -> string + Response;
  JSON_parse : string -> option Json;
  URL_canParse : string -> bool;
  URL_href : string -> list (string * string) -> string
}.

(** The module's state, and what it leaves behind: the base URL, the
    requests sent, the lines written by [console.error]. *)
Record State : Type := {
  apiUrl : string;
  requests : list Request;
  console : list (string * Failure)
}.

Definition initial : State :=
  {| apiUrl := ""; requests := []; console := [] |}.

Definition setApiUrl (url : string) : Eff State unit :=
  modify (fun st =>
    {| apiUrl := url; requests := requests st; console := console st |}).

Section Calls.
Context `{!Network}.

Definition send (request : Request) : Eff State Response :=
  fun st =>
    let st' := {| apiUrl := apiUrl st;
                  requests := requests st ++ [request];
                  console := console st |} in
    match fetch request with
    | inl kind => (inl (Thrown kind), st')
    | inr response => (inr response, st')
    end.

Definition consoleError (prefix : string) (error : Failure) : Eff State unit :=
  modify (fun st =>
    {| apiUrl := apiUrl st;
       requests := requests st;
       console := console st ++ [((prefix +:+ ":")%string, error)] |}).

(** A transform returns a value or throws. *)
Definition applyTransform (transformResponseData : Json -> string + JsValue)
    (data : Json) : Eff State JsValue :=
  match transformResponseData data with
  | inl kind => throw (Thrown kind)
  | inr value => ret value
  end.

(** [fetchArgsFn] builds the request from [apiUrl] as it is when the
    call is made; it runs inside the [try] and may throw (left injection:
    the kind of what it throws). *)
Definition makeApiFetchFn {Args : Type}
    (fetchArgsFn : string -> Args -> string + Request)
    (transformResponseData : Json -> string + JsValue)
    (errorMessagePrefix : string) (args : Args) : Eff State JsValue :=
  try_catch
    (await st := get in
     await request :=
       match fetchArgsFn (apiUrl st) args with
       | inl kind => throw (Thrown kind)
       | inr request => ret request
       end in
     await response := send request in
     if negb (ok response) then
       throw (PlainError [PStr "Error: "; PStr (statusText response)])
     else
       await rawResponseBody :=
         match text response with
         | inl kind => throw (Thrown kind)
         | inr raw => ret raw
         end in
       try_catch
         (await data := orThrow "SyntaxError" (JSON_parse rawResponseBody) in
          applyTransform transformResponseData data)
         (fun _ =>
            applyTransform transformResponseData (JString rawResponseBody)))
    (fun error =>
       await _ := consoleError errorMessagePrefix error in
       throw error).

(** [data.result]: reading a property of [null] throws; an object gives
    its own property; a string, number, boolean or array has no property
    of that name. *)
Definition resultOf (data : Json) : string + JsValue :=
  match data with
  | JNull => inl "TypeError"%string
  | JObject fields => inr (field "result" fields)
  | _ => inr Undefined
  end.

Definition jsonHeaders : list (string * string) :=
  [("Content-Type", "application/json")]%string.

Definition checkToken : string -> Eff State JsValue :=
  makeApiFetchFn
    (fun apiUrl token =>
       inr {| url :=
                (apiUrl +:+ "/everstake-wallet/token/check/" +:+ token)%string;
              method := "GET";
              headers := jsonHeaders;
              body := None |})
    resultOf
    "Failed to check token".

Record SetStatsParams : Type := {
  token : string;
  action : string;
  amount : string;
  address : string;
  chain : string
}.

Definition setStats : SetStatsParams -> Eff State JsValue :=
  makeApiFetchFn
    (fun apiUrl params =>
       inr {| url := (apiUrl +:+ "/everstake-wallet/stats/set")%string;
              method := "POST";
              headers := jsonHeaders;
              body :=
                Some (JObject
                        [("token", JString (token params));
                         ("action", JString (action params));
                         ("amount", JNumber (amount params));
                         ("address", JString (address params));
                         ("chain", JString (chain params))]%string) |})
    (fun _ => inr Undefined)
    "Failed to set stats".

Definition createToken : string * string -> Eff State JsValue :=
  makeApiFetchFn
    (fun apiUrl '(name, type) =>
       inr {| url := (apiUrl +:+ "/everstake-wallet/token/create")%string;
              method := "POST";
              headers := jsonHeaders;
              body := Some (JObject [("name", JString name);
                                     ("type", JString type)]%string) |})
    (fun data => inr (Value data))
    "Failed to create token".

Definition getEthValidatorsQueueStats : unit -> Eff State JsValue :=
  makeApiFetchFn
    (fun apiUrl _ =>
       inr {| url := (apiUrl +:+ "/everstake-eth-api/validators/queue")%string;
              method := "GET";
              headers := [];
              body := None |})
    (fun data => inr (Value data))
    "Failed to get ETH validators queue stats".

(** The argument of [getEthAccountTransactions]: the account, and the
    other properties of the object in their order, each with its value
    as [toString] renders it, or [None] for [null] and [undefined]. *)
Record AccountTransactionsParams : Type := {
  account : string;
  restParams : list (string * option string)
}.

(** The search parameters that are set: those whose value is neither
    [null] nor [undefined]. *)
Definition searchParams (restParams : list (string * option string))
    : list (string * string) :=
  omap (fun '(key, value) => pair key <$> value) restParams.

(** The request is built with [new URL], which throws a [TypeError] on a
    string that is no URL, such as a path under the empty base URL. *)
Definition getEthAccountTransactions
    : AccountTransactionsParams -> Eff State JsValue :=
  makeApiFetchFn
    (fun apiUrl params =>
       let target :=
         (apiUrl +:+ "/everstake-eth-api/transactions/" +:+ account params)%string in
       if URL_canParse target then
         inr {| url := URL_href target (searchParams (restParams params));
                method := "GET";
                headers := [];
                body := None |}
       else inl "TypeError"%string)
    (fun data => inr (Value data))
    "Failed to get ETH account transactions".

End Calls.

End Api.

(** ** Calls of the Ethereum adapter that take the user's address *)

Inductive EthAddressedCall : Type :=
| AddrPendingBalanceOf
| AddrPendingDepositedBalanceOf
| AddrDepositedBalanceOf
| AddrPendingRestakedRewardOf
| AddrRestakedRewardOf
| AddrAutocompoundBalanceOf
| AddrWithdrawRequest
| AddrAutocompound
| AddrClaimWithdrawRequest
| AddrStake (amount : string) (source : option string)
| AddrUnstake (amount : string) (allowedInterchangeNum : option Z)
              (source : option string)
| AddrSimulateUnstake (amount : string) (allowedInterchangeNum : option Z)
                      (source : option string)
| AddrUnstakePending (amount : string)
| AddrActivateStake.

Definition runEthAddressed `{!Libraries, !World, !Ethereum.Constants}
    (this : Ethereum.t) (call : EthAddressedCall) (address : string)
    : Eff Trace unit :=
  match call with
  | AddrPendingBalanceOf => forget (Ethereum.pendingBalanceOf this address)
  | AddrPendingDepositedBalanceOf =>
      forget (EthereumViews.pendingDepositedBalanceOf this address)
  | AddrDepositedBalanceOf =>
      forget (EthereumViews.depositedBalanceOf this address)
  | AddrPendingRestakedRewardOf =>
      forget (EthereumViews.pendingRestakedRewardOf this address)
  | AddrRestakedRewardOf => forget (EthereumViews.restakedRewardOf this address)
  | AddrAutocompoundBalanceOf =>
      forget (Ethereum.autocompoundBalanceOf this address)
  | AddrWithdrawRequest => forget (Ethereum.withdrawRequest this address)
  | AddrAutocompound => forget (Ethereum.autocompound this address)
  | AddrClaimWithdrawRequest =>
      forget (Ethereum.claimWithdrawRequest this address)
  | AddrStake amount source =>
      forget (Ethereum.stake this address amount source)
  | AddrUnstake amount n source =>
      forget (Ethereum.unstake this address amount n source)
  | AddrSimulateUnstake amount n source =>
      forget (Ethereum.simulateUnstake this address amount n source)
  | AddrUnstakePending amount =>
      forget (Ethereum.unstakePending this address amount)
  | AddrActivateStake => forget (Ethereum.activateStake this address)
  end.

(** The pool-wide reads of the Ethereum adapter, each with the contract
    function it reads and the code it fails under. *)
Inductive EthPoolRead : Type :=
| ReadBalance
| ReadPendingBalance
| ReadPendingDepositedBalance
| ReadPendingRestakedRewards
| ReadReadyforAutocompoundRewardsAmount
| ReadMinStakeAmount.

Definition runEthPoolRead `{!Libraries, !World, !Ethereum.Constants}
    (this : Ethereum.t) (read : EthPoolRead) : Eff Trace BigNumber.t :=
  match read with
  | ReadBalance => EthereumViews.balance this
  | ReadPendingBalance => EthereumViews.pendingBalance this
  | ReadPendingDepositedBalance => EthereumViews.pendingDepositedBalance this
  | ReadPendingRestakedRewards => EthereumViews.pendingRestakedRewards this
  | ReadReadyforAutocompoundRewardsAmount =>
      Ethereum.readyforAutocompoundRewardsAmount this
  | ReadMinStakeAmount => Ethereum.minStakeAmount this
  end.

Definition poolReadFunction (read : EthPoolRead) : string :=
  match read with
  | ReadBalance => "balance"
  | ReadPendingBalance => "pendingBalance"
  | ReadPendingDepositedBalance => "pendingDepositedBalance"
  | ReadPendingRestakedRewards => "pendingRestakedRewards"
  | ReadReadyforAutocompoundRewardsAmount => "readyforAutocompoundRewardsAmount"
  | ReadMinStakeAmount => "minStakeAmount"
  end.

Definition poolReadContract (this : Ethereum.t) (read : EthPoolRead)
    : Contract.ContractProps :=
  match read with
  | ReadMinStakeAmount => Ethereum.contractPool this
  | _ => Ethereum.contractAccounting this
  end.

Definition poolReadCode (read : EthPoolRead) : string :=
  match read with
  | ReadBalance => "BALANCE_ERROR"
  | ReadPendingBalance => "PENDING_BALANCE_ERROR"
  | ReadPendingDepositedBalance => "PENDING_DEPOSITED_BALANCE_ERROR"
  | ReadPendingRestakedRewards => "PENDING_RESTAKED_REWARDS_ERROR"
  | ReadReadyforAutocompoundRewardsAmount =>
      "READY_FOR_AUTOCOMPOUND_REWARDS_AMOUNT_ERROR"
  | ReadMinStakeAmount => "MIN_STAKE_AMOUNT_ERROR"
  end.

(** The address an operation is made for, and the contract it is sent
    to. *)
Definition ethOperationAddress (op : EthOperation) : string :=
  match op with
  | EthAutocompound address | EthClaimWithdrawRequest address
  | EthStake address _ _ | EthUnstake address _ _ _
  | EthUnstakePending address _ | EthActivateStake address => address
  end.

Definition ethOperationContract (this : Ethereum.t) (op : EthOperation)
    : Contract.ContractProps :=
  match op with
  | EthAutocompound _ | EthClaimWithdrawRequest _ =>
      Ethereum.contractAccounting this
  | _ => Ethereum.contractPool this
  end.

Definition beraOperationAddress (op : BeraOperation) : string :=
  match op with
  | BeraApproveForStake address _ | BeraActivateStake address
  | BeraCancelStakeInQueue address _ | BeraUnstake address _
  | BeraStake address _ | BeraQueueUnstake address _
  | BeraCancelUnstake address _ => address
  end.

(** The operations of the Berrachain adapter that start by testing the
    address. *)
Definition beraValidatesAddress (op : BeraOperation) : bool :=
  match op with
  | BeraCancelStakeInQueue _ _ | BeraUnstake _ _ | BeraStake _ _ => true
  | _ => false
  end.

(** A result of a multicall as the aggregated views render it. *)
Definition renderWei `{!EthereumViews.Externals} (result : Z) : string :=
  EthereumViews.BigNumber_toFixed (Ethereum.fromWeiToEther result).

(** ** Further sample instances *)

Module Scenario.

(** An endpoint and an API given answer by answer; reads are answered by
    the name of the contract function. *)
Definition world (reads : string -> string + list Z)
    (gas simulation : string + Z) (receipt : string + unit)
    (tokenValid : string + bool) (stats : string + unit) : World := {|
  rpc_readContract _ _ _ functionName _ := reads functionName;
  rpc_estimateGas _ _ _ _ := gas;
  rpc_simulateContract _ _ _ _ _ _ := simulation;
  rpc_getTransactionReceipt _ _ := receipt;
  api_checkToken _ := tokenValid;
  api_setStats _ _ _ _ _ := stats
|}.

(** Polygon: an allowance of 5 POL, a delegated stake of 3 POL, the
    latest unbond nonce 7 with a record of 2 POL withdrawable from epoch
    10, at epoch 100. *)
Definition polygonReads (functionName : string) : string + list Z :=
  if String.eqb functionName "allowance" then inr [5 * Sample.ether]
  else if String.eqb functionName "getTotalStake" then
    inr [3 * Sample.ether; 1]
  else if String.eqb functionName "unbondNonces" then inr [7]
  else if String.eqb functionName "unbonds_new" then
    inr [2 * Sample.ether; 10]
  else if String.eqb functionName "currentEpoch" then inr [100]
  else inl "ContractFunctionExecutionError"%string.

(** A delegator with a valid token, on an endpoint that answers. *)
Definition delegator : World :=
  world polygonReads (inr 21000) (inr 0) (inr tt) (inr true) (inr tt).

(** The same with a token that the API declares invalid. *)
Definition invalidToken : World :=
  world polygonReads (inr 21000) (inr 0) (inr tt) (inr false) (inr tt).

(** An endpoint on which every read fails. *)
Definition unreadable : World :=
  world (fun _ => inl "ContractFunctionExecutionError"%string)
        (inr 21000) (inr 0) (inr tt) (inr true) (inr tt).

(** Ethereum: 4 ether of rewards ready for autocompound, an autocompound
    balance of 2 ether, and a simulation of [unstake] that answers 1
    ether. *)
Definition ethereumReads (functionName : string) : string + list Z :=
  if String.eqb functionName "readyforAutocompoundRewardsAmount" then
    inr [4 * Sample.ether]
  else if String.eqb functionName "autocompoundBalanceOf" then
    inr [2 * Sample.ether]
  else inl "ContractFunctionExecutionError"%string.

Definition rewarding : World :=
  world ethereumReads (inr 21000) (inr Sample.ether) (inr tt) (inr true)
        (inr tt).

Definition ethConstants : Ethereum.Constants := {|
  Ethereum.ETH_NETWORK_ADDRESSES :=
    @Ethereum.ETH_NETWORK_ADDRESSES Sample.ethConstants;
  Ethereum.ETH_GAS_RESERVE := 220000;
  Ethereum.ETH_MIN_AMOUNT := BigNumber.ofBigint (10 ^ 17);
  Ethereum.ERROR_MESSAGES :=
    <["POOL_BALANCES_ERROR"%string := "Pool balances read failed"%string]>
      Sample.ethErrors
|}.

(** Decimal rendering of an integer number of ether; other values are
    not rendered by this sample. *)
Definition toFixed (b : BigNumber.t) : string :=
  match b with
  | BigNumber.Finite q =>
      if (Z.pos (Qden q) =? 1) || (Qnum q mod Z.pos (Qden q) =? 0) then
        pretty (Qnum q / Z.pos (Qden q))
      else "?"
  | _ => "NaN"
  end.

(** A multicall contract that answers 1 to 5 ether. *)
Definition multicalling : EthereumViews.Externals := {|
  EthereumViews.MULTICALL_CONTRACT_ADDRESS := "multicall3";
  EthereumViews.rpc_multicall _ _ :=
    inr [1 * Sample.ether; 2 * Sample.ether; 3 * Sample.ether;
         4 * Sample.ether; 5 * Sample.ether];
  EthereumViews.BigNumber_toFixed := toFixed
|}.

(** A multicall contract that answers three results only. *)
Definition shortAnswer : EthereumViews.Externals := {|
  EthereumViews.MULTICALL_CONTRACT_ADDRESS := "multicall3";
  EthereumViews.rpc_multicall _ _ :=
    inr [1 * Sample.ether; 2 * Sample.ether; 3 * Sample.ether];
  EthereumViews.BigNumber_toFixed := toFixed
|}.

Definition beraConstants : Berrachain.Constants := {|
  Berrachain.GAS_RESERVE := 50000;
  Berrachain.MAINNET_BGT_CONTRACT_ADDRESS := "bgt-mainnet";
  Berrachain.MAINNET_VALIDATOR := "validator-mainnet";
  Berrachain.TESTNET_BGT_CONTRACT_ADDRESS := "bgt-testnet";
  Berrachain.TESTNET_VALIDATOR := "validator-testnet";
  Berrachain.ERROR_MESSAGES :=
    list_to_map
      [("ADDRESS_FORMAT_ERROR", "Invalid address format");
       ("NOT_AVAILABLE_NETWORK", "Not available on this network");
       ("DROP_BOOST_ERROR", "Drop boost failed")]%string
|}.

Definition testnetAdapter : Berrachain.t :=
  @Berrachain.new beraConstants (Some Berrachain.testnet)
    (inl "https://bera-testnet.example"%string).

(** The double quote, and the body of an answer to a token check. *)
Definition quote : string :=
  String (Ascii.Ascii false true false false false true false false)
         EmptyString.

Definition validBody : string :=
  ("{" +:+ quote +:+ "result" +:+ quote +:+ ":true}")%string.

(** The text of a URL with its search parameters, without escapes. *)
Fixpoint query (separator : string) (params : list (string * string))
    : string :=
  match params with
  | [] => ""
  | (key, value) :: rest =>
      (separator +:+ key +:+ "=" +:+ value +:+ query "&" rest)%string
  end.

(** A server that answers every request with the same body, a parser
    that knows the three bodies used here, and a URL parser that accepts
    what starts with [https://]. *)
Definition server (body : string) : Api.Network := {|
  Api.fetch _ :=
    inr {| Api.ok := true; Api.statusText := "OK"; Api.text := inr body |};
  Api.JSON_parse raw :=
    if String.eqb raw validBody then
      Some (Api.JObject [("result"%string, Api.JBool true)])
    else if String.eqb raw "null" then Some Api.JNull
    else if String.eqb raw "true" then Some (Api.JBool true)
    else None;
  Api.URL_canParse target := String.prefix "https://" target;
  Api.URL_href target params := (target +:+ query "?" params)%string
|}.

End Scenario.

(** * Properties *)

(** ** The exception monad *)

Section EffFacts.
Context {S A B : Type}.

Lemma bind_inr_inv (m : Eff S A) (k : A -> Eff S B) s b s' :
  bind m k s = (inr b, s') ->
  exists a s1, m s = (inr a, s1) /\ k a s1 = (inr b, s').
Proof.
  unfold bind. destruct (m s) as [[e | a] s1]; intros H.
  - discriminate.
  - exists a, s1. split; [reflexivity | exact H].
Qed.

Lemma bind_inl_inv (m : Eff S A) (k : A -> Eff S B) s e s' :
  bind m k s = (inl e, s') ->
  m s = (inl e, s') \/ exists a s1, m s = (inr a, s1) /\ k a s1 = (inl e, s').
Proof.
  unfold bind. destruct (m s) as [[e0 | a] s1]; intros H.
  - left. injection H as -> ->. reflexivity.
  - right. exists a, s1. split; [reflexivity | exact H].
Qed.

Lemma orThrow_inr_inv kind (o : option A) (s s' : S) a :
  orThrow kind o s = (inr a, s') -> o = Some a /\ s' = s.
Proof.
  destruct o as [a0 |]; cbn; intros H.
  - injection H as -> ->. split; reflexivity.
  - discriminate.
Qed.

Lemma throwError_never_returns tbl code values (s s' : S) (a : A) :
  Blockchain.throwError tbl code values s <> (inr a, s').
Proof.
  unfold Blockchain.throwError. destruct (tbl !! code); cbn; discriminate.
Qed.

Lemma throwError_known tbl code template values (s : S) :
  tbl !! code = Some template ->
  @Blockchain.throwError S A tbl code values s
  = (inl (WalletSDKError code template values None), s).
Proof. intros H. unfold Blockchain.throwError. rewrite H. reflexivity. Qed.

Lemma handleError_never_returns tbl code e (s s' : S) (a : A) :
  Blockchain.handleError tbl code e s <> (inr a, s').
Proof.
  unfold Blockchain.handleError.
  destruct (Blockchain.carriesKnownCode tbl e); [cbn; discriminate |].
  destruct (tbl !! code); cbn; discriminate.
Qed.

Lemma handleError_passes_known tbl code e (s : S) :
  Blockchain.carriesKnownCode tbl e = true ->
  @Blockchain.handleError S A tbl code e s = (inl e, s).
Proof. intros H. unfold Blockchain.handleError. rewrite H. reflexivity. Qed.

Lemma handleError_wraps tbl code template e (s : S) :
  Blockchain.carriesKnownCode tbl e = false ->
  tbl !! code = Some template ->
  @Blockchain.handleError S A tbl code e s
  = (inl (WalletSDKError code template [] (Some e)), s).
Proof.
  intros H1 H2. unfold Blockchain.handleError. rewrite H1, H2. reflexivity.
Qed.

Lemma handleError_keeps_state tbl code e (s : S) :
  snd (@Blockchain.handleError S A tbl code e s) = s.
Proof.
  unfold Blockchain.handleError.
  destruct (Blockchain.carriesKnownCode tbl e); [reflexivity |].
  destruct (tbl !! code); reflexivity.
Qed.

Lemma external_inr_inv (ev : Event) (answer : string + A) t a t' :
  external ev answer t = (inr a, t') -> answer = inr a /\ t' = t ++ [ev].
Proof.
  unfold external. destruct answer; intros H; [discriminate |].
  injection H as -> <-. split; reflexivity.
Qed.
End EffFacts.

(** ** What a computation returns and throws, step by step *)

Section Outcomes.
Context {S A B : Type}.

Lemma onReturn_ret (a : A) (Q : A -> S -> Prop) :
  (forall s, Q a s) -> onReturn (ret a) Q.
Proof. intros HQ s a0 s' H. injection H as <- <-. apply HQ. Qed.

Lemma onReturn_throw (e : Failure) (Q : A -> S -> Prop) :
  onReturn (throw e) Q.
Proof. intros s a s' H. discriminate. Qed.

Lemma onReturn_throwError tbl code values (Q : A -> S -> Prop) :
  onReturn (Blockchain.throwError tbl code values) Q.
Proof. intros s a s' H. exfalso. exact (throwError_never_returns _ _ _ _ _ _ H). Qed.

Lemma onReturn_handleError tbl code e (Q : A -> S -> Prop) :
  onReturn (Blockchain.handleError tbl code e) Q.
Proof. intros s a s' H. exfalso. exact (handleError_never_returns _ _ _ _ _ _ H). Qed.

Lemma onReturn_bind (m : Eff S A) (k : A -> Eff S B) (Q : B -> S -> Prop) :
  (forall a, onReturn (k a) Q) -> onReturn (bind m k) Q.
Proof.
  intros Hk s b s' H. apply bind_inr_inv in H as (a & s1 & _ & H).
  exact (Hk a _ _ _ H).
Qed.

Lemma onReturn_bind_orThrow kind (o : option A) (k : A -> Eff S B)
    (Q : B -> S -> Prop) :
  (forall a, o = Some a -> onReturn (k a) Q) ->
  onReturn (bind (orThrow kind o) k) Q.
Proof.
  intros Hk s b s' H. apply bind_inr_inv in H as (a & s1 & Ho & H).
  apply orThrow_inr_inv in Ho as [Ho _]. exact (Hk a Ho _ _ _ H).
Qed.

Lemma onReturn_try (m : Eff S A) (h : Failure -> Eff S A)
    (Q : A -> S -> Prop) :
  onReturn m Q -> (forall e, onReturn (h e) Q) -> onReturn (try_catch m h) Q.
Proof.
  intros Hm Hh s a s' H. unfold try_catch in H.
  destruct (m s) as [[e | a0] s1] eqn:Hms.
  - exact (Hh e _ _ _ H).
  - injection H as <- <-. exact (Hm _ _ _ Hms).
Qed.

Lemma onThrow_ret (a : A) (P : Failure -> Prop) : onThrow (@ret S A a) P.
Proof. intros s e s' H. discriminate. Qed.

Lemma onThrow_throw (e : Failure) (P : Failure -> Prop) :
  P e -> onThrow (@throw S A e) P.
Proof. intros HP s e0 s' H. injection H as <- _. exact HP. Qed.

Lemma onThrow_bind (m : Eff S A) (k : A -> Eff S B) (P : Failure -> Prop) :
  onThrow m P -> (forall a, onThrow (k a) P) -> onThrow (bind m k) P.
Proof.
  intros Hm Hk s e s' H.
  apply bind_inl_inv in H as [H | (a & s1 & _ & H)].
  - exact (Hm _ _ _ H).
  - exact (Hk a _ _ _ H).
Qed.

Lemma onThrow_try (m : Eff S A) (h : Failure -> Eff S A)
    (P : Failure -> Prop) :
  (forall e, onThrow (h e) P) -> onThrow (try_catch m h) P.
Proof.
  intros Hh s e s' H. unfold try_catch in H.
  destruct (m s) as [[e0 | a0] s1].
  - exact (Hh e0 _ _ _ H).
  - discriminate.
Qed.

Lemma onThrow_handleError tbl code caught (P : Failure -> Prop) :
  is_Some (tbl !! code) ->
  (forall e, Blockchain.carriesKnownCode tbl e = true -> P e) ->
  onThrow (@Blockchain.handleError S A tbl code caught) P.
Proof.
  intros [template Hcode] HP s e s' H. unfold Blockchain.handleError in H.
  destruct (Blockchain.carriesKnownCode tbl caught) eqn:Hknown.
  - injection H as <- _. apply HP, Hknown.
  - rewrite Hcode in H. injection H as <- _.
    apply HP. cbn. apply bool_decide_eq_true. rewrite Hcode.
    eexists. reflexivity.
Qed.

Lemma onThrow_bind_orThrow kind (o : option A) (k : A -> Eff S B)
    (P : Failure -> Prop) :
  is_Some o -> (forall a, o = Some a -> onThrow (k a) P) ->
  onThrow (bind (orThrow kind o) k) P.
Proof.
  intros [a ->] Hk s e s' H. exact (Hk a eq_refl _ _ _ H).
Qed.

Lemma onThrow_returning (m : Eff S A) (P : Failure -> Prop) :
  (forall s, exists a s', m s = (inr a, s')) -> onThrow m P.
Proof.
  intros Hm s e s' H. destruct (Hm s) as (a & s1 & Hs). congruence.
Qed.

End Outcomes.

(** ** Inverting a computation that returned *)

Section ReturnFacts.
Context {S A : Type}.

Lemma try_catch_inr_inv (m : Eff S A) tbl code s a s' :
  try_catch m (Blockchain.handleError tbl code) s = (inr a, s') ->
  m s = (inr a, s').
Proof.
  unfold try_catch. destruct (m s) as [[e | a0] s1]; intros H.
  - exfalso. exact (handleError_never_returns _ _ _ _ _ _ H).
  - exact H.
Qed.

Lemma try_catch_returns (m : Eff S A) (h : Failure -> Eff S A) s a s' :
  m s = (inr a, s') -> try_catch m h s = (inr a, s').
Proof. intros H. unfold try_catch. rewrite H. reflexivity. Qed.

(** A failure that carries no code leaves a [catch] wrapped under the
    code of that [catch]. *)
Lemma try_catch_wraps_thrown (m : Eff S A) tbl code template kind s s' :
  m s = (inl (Thrown kind), s') ->
  tbl !! code = Some template ->
  try_catch m (Blockchain.handleError tbl code) s
  = (inl (WalletSDKError code template [] (Some (Thrown kind))), s').
Proof.
  intros H Hcode. unfold try_catch. rewrite H.
  apply handleError_wraps; [reflexivity | exact Hcode].
Qed.

(** A failure raised under a known code leaves a [catch] as it is. *)
Lemma try_catch_passes_known (m : Eff S A) tbl code e s s' :
  m s = (inl e, s') ->
  Blockchain.carriesKnownCode tbl e = true ->
  try_catch m (Blockchain.handleError tbl code) s = (inl e, s').
Proof.
  intros H Hknown. unfold try_catch. rewrite H.
  apply handleError_passes_known, Hknown.
Qed.

End ReturnFacts.

Lemma single_inr_inv {S} (result : list Z) (s s' : S) v :
  single result s = (inr v, s') -> result = [v] /\ s' = s.
Proof.
  destruct result as [| v0 [| v1 rest]]; cbn; intros H; try discriminate.
  injection H as -> ->. split; reflexivity.
Qed.

Lemma carriesKnownCode_wrapped tbl code template cause :
  tbl !! code = Some template ->
  Blockchain.carriesKnownCode tbl (WalletSDKError code template [] cause) = true.
Proof.
  intros H. cbn. apply bool_decide_eq_true. rewrite H. eexists. reflexivity.
Qed.

(** ** The call-data encoder *)

Section EncoderFacts.
Context {L : Libraries} {S B : Type}.

Lemma encode_accepted abi functionName args (s : S) :
  encodingError abi functionName args = None ->
  encode abi functionName args s
  = (inr (encodeFunctionData abi functionName args), s).
Proof. intros H. unfold encode. rewrite H. reflexivity. Qed.

Lemma encode_refused abi functionName args kind (s : S) :
  encodingError abi functionName args = Some kind ->
  encode abi functionName args s = (inl (Thrown kind), s).
Proof. intros H. unfold encode. rewrite H. reflexivity. Qed.

Lemma encode_inr_inv abi functionName args (s s' : S) data :
  encode abi functionName args s = (inr data, s') ->
  encodingError abi functionName args = None
  /\ data = encodeFunctionData abi functionName args /\ s' = s.
Proof.
  unfold encode. destruct (encodingError _ _ _); cbn; intros H.
  - discriminate.
  - injection H as <- <-. repeat split.
Qed.

Lemma onReturn_bind_encode abi functionName args (k : HexString -> Eff S B)
    (Q : B -> S -> Prop) :
  (encodingError abi functionName args = None ->
   onReturn (k (encodeFunctionData abi functionName args)) Q) ->
  onReturn (bind (encode abi functionName args) k) Q.
Proof.
  intros Hk s b s' H. apply bind_inr_inv in H as (data & s1 & Hdata & H).
  apply encode_inr_inv in Hdata as (Hok & -> & ->). exact (Hk Hok _ _ _ H).
Qed.

End EncoderFacts.

Lemma onThrow_bind_answered {A B} (ev : Event) (answer : string + A)
    (k : A -> Eff Trace B) (P : Failure -> Prop) a :
  answer = inr a -> onThrow (k a) P -> onThrow (bind (external ev answer) k) P.
Proof.
  intros -> Hk s e s' H. unfold bind, external in H. exact (Hk _ _ _ H).
Qed.

Lemma carriesKnownCode_thrown tbl code template values :
  tbl !! code = Some template ->
  Blockchain.carriesKnownCode tbl (WalletSDKError code template values None)
  = true.
Proof.
  intros H. cbn. apply bool_decide_eq_true. rewrite H. eexists. reflexivity.
Qed.

(** ** Comparisons of amounts read from the chain *)

Section BigNumberFacts.

Lemma shiftedBy_wei (z : Z) :
  BigNumber.shiftedBy (BigNumber.ofBigint z) (-18)
  = BigNumber.Finite (z # 1000000000000000000).
Proof.
  unfold BigNumber.shiftedBy, BigNumber.ofBigint.
  change (Qpower (inject_Z 10) (-18)) with (1 # 1000000000000000000)%Q.
  unfold Qmult, inject_Z. cbn [Qnum Qden].
  rewrite Z.mul_1_r. reflexivity.
Qed.

Lemma isZero_wei (z : Z) :
  BigNumber.isZero (BigNumber.shiftedBy (BigNumber.ofBigint z) (-18))
  = (z =? 0).
Proof.
  rewrite shiftedBy_wei. unfold BigNumber.isZero, Qeq_bool. cbn [Qnum Qden].
  rewrite Z.mul_1_r. reflexivity.
Qed.

Lemma compare_wei (a b : Z) :
  BigNumber.compare (BigNumber.shiftedBy (BigNumber.ofBigint a) (-18))
                    (BigNumber.shiftedBy (BigNumber.ofBigint b) (-18))
  = Some (a ?= b).
Proof.
  rewrite !shiftedBy_wei. unfold BigNumber.compare, Qcompare.
  cbn [Qnum Qden]. f_equal.
  symmetry. apply Zmult_compare_compat_r. reflexivity.
Qed.

Lemma eq_wei (a b : Z) :
  BigNumber.eq (BigNumber.shiftedBy (BigNumber.ofBigint a) (-18))
               (BigNumber.shiftedBy (BigNumber.ofBigint b) (-18))
  = (a =? b).
Proof.
  unfold BigNumber.eq. rewrite compare_wei, Z.eqb_compare. reflexivity.
Qed.

Lemma compare_bigint (a b : Z) :
  BigNumber.compare (BigNumber.ofBigint a) (BigNumber.ofBigint b)
  = Some (a ?= b).
Proof.
  unfold BigNumber.compare, BigNumber.ofBigint, Qcompare, inject_Z.
  cbn [Qnum Qden]. rewrite !Z.mul_1_r. reflexivity.
Qed.

Lemma lt_bigint (a b : Z) :
  BigNumber.lt (BigNumber.ofBigint a) (BigNumber.ofBigint b) = (a <? b).
Proof.
  unfold BigNumber.lt. rewrite compare_bigint. unfold Z.ltb.
  destruct (a ?= b); reflexivity.
Qed.


(** On numbers, "not greater" is "at most". *)
Lemma lt_false_lte (x y : BigNumber.t) :
  x <> BigNumber.NaN -> y <> BigNumber.NaN ->
  BigNumber.lt y x = false -> BigNumber.lte x y = true.
Proof.
  unfold BigNumber.lt, BigNumber.lte.
  destruct x as [| n | a], y as [| m | b]; try congruence; intros _ _; cbn.
  - destruct n, m; cbn; congruence.
  - destruct n; congruence.
  - destruct m; congruence.
  - rewrite <- (Qcompare_antisym b a). destruct (b ?= a)%Q; cbn; congruence.
Qed.

Lemma lte_lt_false (x y : BigNumber.t) :
  BigNumber.lte x y = true -> BigNumber.lt y x = false.
Proof.
  unfold BigNumber.lt, BigNumber.lte.
  destruct x as [| n | a], y as [| m | b]; cbn; try congruence.
  - destruct n, m; cbn; congruence.
  - destruct n; congruence.
  - destruct m; congruence.
  - rewrite <- (Qcompare_antisym a b). destruct (a ?= b)%Q; cbn; congruence.
Qed.

End BigNumberFacts.

(** ** Integers held in JavaScript numbers *)

Section NumberFacts.

(** An integer within the safe range is stored exactly. *)
Lemma ofInteger_exact (z : Z) :
  Z.abs z <= Number.MAX_SAFE_INTEGER -> Number.ofInteger z = z.
Proof.
  unfold Number.MAX_SAFE_INTEGER, Number.ofInteger. intros H.
  assert (Z.log2 (Z.abs z) < 53) as Hlog.
  { destruct (Z.eq_dec (Z.abs z) 0) as [-> | Hne]; [reflexivity |].
    apply Z.log2_lt_pow2; lia. }
  destruct (Z.leb_spec (Z.log2 (Z.abs z) - 52) 0); [reflexivity | lia].
Qed.

Lemma add_exact (a b : Z) :
  Z.abs a <= Number.MAX_SAFE_INTEGER ->
  Z.abs (a + b) <= Number.MAX_SAFE_INTEGER ->
  Number.add (Number.ofInteger a) b = a + b.
Proof.
  intros Ha Hab. unfold Number.add.
  rewrite (ofInteger_exact a Ha). apply ofInteger_exact, Hab.
Qed.

End NumberFacts.

(** ** The Ethereum adapter: reads and transaction assembly *)

Section EthereumFacts.
Context {L : Libraries} {W : World} {K : Ethereum.Constants}.
Implicit Types (this : Ethereum.t) (t : Trace).

Lemma eth_getTransaction_returns this data address contractAddress value t gas :
  rpc_estimateGas (Ethereum.client this) contractAddress data address = inr gas ->
  Ethereum.getTransaction this data address contractAddress value t
  = (inr {| Ethereum.from := address;
            Ethereum.to := contractAddress;
            Ethereum.value := default (BigNumber.ofBigint 0) value;
            Ethereum.gasLimit := Ethereum.calculateGasLimit gas;
            Ethereum.data := data |},
     t ++ [EvEstimateGas (Ethereum.client this) contractAddress data address]).
Proof.
  intros Hgas. unfold Ethereum.getTransaction, bind, estimateGas, external.
  rewrite Hgas. reflexivity.
Qed.

Lemma eth_getTransaction_inv this data address contractAddress value t tx t' :
  Ethereum.getTransaction this data address contractAddress value t = (inr tx, t') ->
  exists gas,
    rpc_estimateGas (Ethereum.client this) contractAddress data address = inr gas
    /\ tx = {| Ethereum.from := address;
               Ethereum.to := contractAddress;
               Ethereum.value := default (BigNumber.ofBigint 0) value;
               Ethereum.gasLimit := Ethereum.calculateGasLimit gas;
               Ethereum.data := data |}
    /\ t' = t ++ [EvEstimateGas (Ethereum.client this) contractAddress data address].
Proof.
  unfold Ethereum.getTransaction, bind, estimateGas, external.
  destruct (rpc_estimateGas _ _ _ _) as [kind | gas]; intros H; [discriminate |].
  injection H as <- <-. exists gas. repeat split.
Qed.

Lemma autocompoundBalanceOf_returns this address t b :
  isAddress address = true ->
  readAnswer (Ethereum.client this) (Ethereum.contractAccounting this)
    "autocompoundBalanceOf" [AAddress address] = inr [b] ->
  Ethereum.autocompoundBalanceOf this address t
  = (inr (Ethereum.fromWeiToEther b),
     t ++ [readEvent (Ethereum.client this) (Ethereum.contractAccounting this)
             "autocompoundBalanceOf" [AAddress address]]).
Proof.
  intros Haddr Hread. unfold readAnswer in Hread.
  unfold Ethereum.autocompoundBalanceOf, try_catch, bind, readContract, external.
  rewrite Haddr. cbn [negb]. rewrite Hread. reflexivity.
Qed.

Lemma pendingBalanceOf_returns this address t p :
  isAddress address = true ->
  readAnswer (Ethereum.client this) (Ethereum.contractAccounting this)
    "pendingBalanceOf" [AAddress address] = inr [p] ->
  Ethereum.pendingBalanceOf this address t
  = (inr (Ethereum.fromWeiToEther p),
     t ++ [readEvent (Ethereum.client this) (Ethereum.contractAccounting this)
             "pendingBalanceOf" [AAddress address]]).
Proof.
  intros Haddr Hread. unfold readAnswer in Hread.
  unfold Ethereum.pendingBalanceOf, try_catch, bind, readContract, external.
  rewrite Haddr. cbn [negb]. rewrite Hread. reflexivity.
Qed.

Lemma withdrawRequest_returns this address t requested readyForClaim :
  isAddress address = true ->
  readAnswer (Ethereum.client this) (Ethereum.contractAccounting this)
    "withdrawRequest" [AAddress address] = inr [requested; readyForClaim] ->
  Ethereum.withdrawRequest this address t
  = (inr (Ethereum.fromWeiToEther requested,
          Ethereum.fromWeiToEther readyForClaim),
     t ++ [readEvent (Ethereum.client this) (Ethereum.contractAccounting this)
             "withdrawRequest" [AAddress address]]).
Proof.
  intros Haddr Hread. unfold readAnswer in Hread.
  unfold Ethereum.withdrawRequest, try_catch, bind, readContract, external.
  rewrite Haddr. cbn [negb]. rewrite Hread. reflexivity.
Qed.

Lemma minStakeAmount_returns this t m :
  readAnswer (Ethereum.client this) (Ethereum.contractPool this)
    "minStakeAmount" [] = inr [m] ->
  Ethereum.minStakeAmount this t
  = (inr (Ethereum.fromWeiToEther m),
     t ++ [readEvent (Ethereum.client this) (Ethereum.contractPool this)
             "minStakeAmount" []]).
Proof.
  intros Hread. unfold readAnswer in Hread.
  unfold Ethereum.minStakeAmount, try_catch, bind, readContract, external.
  rewrite Hread. reflexivity.
Qed.

Lemma eth_throwError_known {S A} code template values (s : S) :
  Ethereum.ERROR_MESSAGES !! code = Some template ->
  @Ethereum.throwError _ S A code values s
  = (inl (WalletSDKError code template values None), s).
Proof. apply throwError_known. Qed.

(** An error raised by [throwError] inside a [try] leaves through the
    [catch] as it is. *)
Lemma eth_handleError_rethrows {S A} wrap code template values (s : S) :
  Ethereum.ERROR_MESSAGES !! code = Some template ->
  @Ethereum.handleError _ S A wrap (WalletSDKError code template values None) s
  = (inl (WalletSDKError code template values None), s).
Proof.
  intros H. apply handleError_passes_known.
  apply carriesKnownCode_thrown, H.
Qed.

Lemma clampInterchangeNum_min (n : Z) :
  Ethereum.clampInterchangeNum n = Z.min n 65535.
Proof.
  unfold Ethereum.clampInterchangeNum, Ethereum.UINT16_MAX.
  destruct (Z.gtb_spec n 65535); lia.
Qed.

Lemma autocompoundBalanceOf_inr_inv this address t balance t' :
  Ethereum.autocompoundBalanceOf this address t = (inr balance, t') ->
  exists result,
    isAddress address = true
    /\ readAnswer (Ethereum.client this) (Ethereum.contractAccounting this)
         "autocompoundBalanceOf" [AAddress address] = inr [result]
    /\ balance = Ethereum.fromWeiToEther result
    /\ t' = t ++ [readEvent (Ethereum.client this)
                    (Ethereum.contractAccounting this)
                    "autocompoundBalanceOf" [AAddress address]].
Proof.
  intros H. apply try_catch_inr_inv in H.
  destruct (isAddress address) eqn:Haddr; cbn [negb] in H.
  2: { exfalso. exact (throwError_never_returns _ _ _ _ _ _ H). }
  apply bind_inr_inv in H as (result & t1 & Hread & H).
  apply external_inr_inv in Hread as [Hread ->].
  apply bind_inr_inv in H as (r & t2 & Hsingle & H).
  apply single_inr_inv in Hsingle as [-> ->].
  injection H as <- <-. exists r. repeat split. exact Hread.
Qed.

Lemma eth_unstake_returns
    this address amount n source t b amountWei src gas :
  let args :=
    [AUint amountWei; AUint (Z.min (default 0 n) 65535); AUint src] in
  let data :=
    encodeFunctionData (Contract.abi (Ethereum.contractPool this)) "unstake"
      args in
  isAddress address = true ->
  readAnswer (Ethereum.client this) (Ethereum.contractAccounting this)
    "autocompoundBalanceOf" [AAddress address] = inr [b] ->
  BigNumber.lt (Ethereum.fromWeiToEther b) (BigNumber_ofString amount)
  = false ->
  parseUnits amount 18 = Some amountWei ->
  BigInt_ofString (default "0"%string source) = Some src ->
  encodingError (Contract.abi (Ethereum.contractPool this)) "unstake" args
  = None ->
  rpc_estimateGas (Ethereum.client this)
    (Contract.address (Ethereum.contractPool this)) data address = inr gas ->
  Ethereum.unstake this address amount n source t
  = (inr {| Ethereum.from := address;
            Ethereum.to := Contract.address (Ethereum.contractPool this);
            Ethereum.value := BigNumber.ofBigint 0;
            Ethereum.gasLimit := Ethereum.calculateGasLimit gas;
            Ethereum.data := data |},
     t ++ [readEvent (Ethereum.client this) (Ethereum.contractAccounting this)
             "autocompoundBalanceOf" [AAddress address];
           EvEstimateGas (Ethereum.client this)
             (Contract.address (Ethereum.contractPool this)) data address]).
Proof.
  intros args data Haddr Hread Hlt Hparse Hsrc Hok Hgas.
  unfold Ethereum.unstake. rewrite Haddr. cbn [negb].
  apply try_catch_returns. unfold bind at 1.
  rewrite (autocompoundBalanceOf_returns _ _ _ _ Haddr Hread).
  rewrite Hlt. unfold bind, orThrow. rewrite Hparse, Hsrc. cbn [ret].
  rewrite clampInterchangeNum_min. fold args.
  rewrite (encode_accepted _ _ _ _ Hok). fold data.
  rewrite (eth_getTransaction_returns _ _ _ _ _ _ _ Hgas).
  rewrite <- app_assoc. reflexivity.
Qed.

Lemma eth_unstake_inr_inv this address amount n source t tx t' :
  Ethereum.unstake this address amount n source t = (inr tx, t') ->
  exists b amountWei src gas,
    let args :=
      [AUint amountWei; AUint (Z.min (default 0 n) 65535); AUint src] in
    let data :=
      encodeFunctionData (Contract.abi (Ethereum.contractPool this)) "unstake"
        args in
    isAddress address = true
    /\ readAnswer (Ethereum.client this) (Ethereum.contractAccounting this)
         "autocompoundBalanceOf" [AAddress address] = inr [b]
    /\ BigNumber.lt (Ethereum.fromWeiToEther b) (BigNumber_ofString amount)
       = false
    /\ parseUnits amount 18 = Some amountWei
    /\ BigInt_ofString (default "0"%string source) = Some src
    /\ encodingError (Contract.abi (Ethereum.contractPool this)) "unstake"
         args = None
    /\ rpc_estimateGas (Ethereum.client this)
         (Contract.address (Ethereum.contractPool this)) data address
       = inr gas
    /\ tx = {| Ethereum.from := address;
               Ethereum.to := Contract.address (Ethereum.contractPool this);
               Ethereum.value := BigNumber.ofBigint 0;
               Ethereum.gasLimit := Ethereum.calculateGasLimit gas;
               Ethereum.data := data |}
    /\ t' = t ++ [readEvent (Ethereum.client this)
                    (Ethereum.contractAccounting this)
                    "autocompoundBalanceOf" [AAddress address];
                  EvEstimateGas (Ethereum.client this)
                    (Contract.address (Ethereum.contractPool this))
                    data address].
Proof.
  intros H. unfold Ethereum.unstake in H.
  destruct (isAddress address) eqn:Haddr; cbn [negb] in H.
  2: { exfalso. exact (throwError_never_returns _ _ _ _ _ _ H). }
  apply try_catch_inr_inv in H.
  apply bind_inr_inv in H as (balance & t1 & Hbalance & H).
  apply autocompoundBalanceOf_inr_inv in Hbalance as (b & _ & Hread & -> & ->).
  destruct (BigNumber.lt _ _) eqn:Hlt.
  { exfalso. exact (throwError_never_returns _ _ _ _ _ _ H). }
  apply bind_inr_inv in H as (amountWei & t1 & Hparse & H).
  apply orThrow_inr_inv in Hparse as [Hparse ->].
  apply bind_inr_inv in H as (src & t1 & Hsrc & H).
  apply orThrow_inr_inv in Hsrc as [Hsrc ->].
  apply bind_inr_inv in H as (data & t1 & Hdata & H).
  apply encode_inr_inv in Hdata as (Hok & -> & ->).
  apply eth_getTransaction_inv in H as (gas & Hgas & -> & ->).
  rewrite clampInterchangeNum_min in *.
  exists b, amountWei, src, gas. rewrite <- app_assoc.
  repeat split; assumption.
Qed.

Lemma simulateUnstake_returns
    this address amount n source t b amountWei src result :
  let args :=
    [AUint amountWei; AUint (Z.min (default 1 n) 65535); AUint src] in
  isAddress address = true ->
  readAnswer (Ethereum.client this) (Ethereum.contractAccounting this)
    "autocompoundBalanceOf" [AAddress address] = inr [b] ->
  BigNumber.lt (Ethereum.fromWeiToEther b) (BigNumber_ofString amount)
  = false ->
  parseUnits amount 18 = Some amountWei ->
  BigInt_ofString (default "0"%string source) = Some src ->
  rpc_simulateContract (Ethereum.client this) address
    (Contract.address (Ethereum.contractPool this))
    (Contract.abi (Ethereum.contractPool this)) "unstake" args = inr result ->
  Ethereum.simulateUnstake this address amount n source t
  = (inr (Ethereum.fromWeiToEther result),
     t ++ [readEvent (Ethereum.client this) (Ethereum.contractAccounting this)
             "autocompoundBalanceOf" [AAddress address];
           EvSimulateContract (Ethereum.client this) address
             (Contract.address (Ethereum.contractPool this))
             (Contract.abi (Ethereum.contractPool this)) "unstake" args]).
Proof.
  intros args Haddr Hread Hlt Hparse Hsrc Hsim.
  apply try_catch_returns. rewrite Haddr. cbn [negb]. unfold bind at 1.
  rewrite (autocompoundBalanceOf_returns _ _ _ _ Haddr Hread).
  rewrite Hlt. unfold bind, orThrow. rewrite Hparse, Hsrc. cbn [ret].
  unfold simulateContract, external. rewrite clampInterchangeNum_min.
  fold args. rewrite Hsim. rewrite <- app_assoc. reflexivity.
Qed.

Lemma simulateUnstake_inr_inv this address amount n source t v t' :
  Ethereum.simulateUnstake this address amount n source t = (inr v, t') ->
  exists b amountWei src result,
    let args :=
      [AUint amountWei; AUint (Z.min (default 1 n) 65535); AUint src] in
    isAddress address = true
    /\ readAnswer (Ethereum.client this) (Ethereum.contractAccounting this)
         "autocompoundBalanceOf" [AAddress address] = inr [b]
    /\ BigNumber.lt (Ethereum.fromWeiToEther b) (BigNumber_ofString amount)
       = false
    /\ parseUnits amount 18 = Some amountWei
    /\ BigInt_ofString (default "0"%string source) = Some src
    /\ rpc_simulateContract (Ethereum.client this) address
         (Contract.address (Ethereum.contractPool this))
         (Contract.abi (Ethereum.contractPool this)) "unstake" args
       = inr result
    /\ v = Ethereum.fromWeiToEther result
    /\ t' = t ++ [readEvent (Ethereum.client this)
                    (Ethereum.contractAccounting this)
                    "autocompoundBalanceOf" [AAddress address];
                  EvSimulateContract (Ethereum.client this) address
                    (Contract.address (Ethereum.contractPool this))
                    (Contract.abi (Ethereum.contractPool this)) "unstake"
                    args].
Proof.
  intros H. apply try_catch_inr_inv in H.
  destruct (isAddress address) eqn:Haddr; cbn [negb] in H.
  2: { exfalso. exact (throwError_never_returns _ _ _ _ _ _ H). }
  apply bind_inr_inv in H as (balance & t1 & Hbalance & H).
  apply autocompoundBalanceOf_inr_inv in Hbalance as (b & _ & Hread & -> & ->).
  destruct (BigNumber.lt _ _) eqn:Hlt.
  { exfalso. exact (throwError_never_returns _ _ _ _ _ _ H). }
  apply bind_inr_inv in H as (amountWei & t1 & Hparse & H).
  apply orThrow_inr_inv in Hparse as [Hparse ->].
  apply bind_inr_inv in H as (src & t1 & Hsrc & H).
  apply orThrow_inr_inv in Hsrc as [Hsrc ->].
  apply bind_inr_inv in H as (result & t1 & Hsim & H).
  apply external_inr_inv in Hsim as [Hsim ->].
  injection H as <- <-. rewrite clampInterchangeNum_min in *.
  exists b, amountWei, src, result. rewrite <- app_assoc.
  repeat split; assumption.
Qed.

End EthereumFacts.

Section EthereumClaims.
Context {L : Libraries} {W : World} {K : Ethereum.Constants}.
Implicit Types (this : Ethereum.t) (t : Trace).

(** C2. [claimWithdrawRequest] on a valid address whose withdraw-request
    read answers [(requested, readyForClaim)]: with [requested = 0] it
    fails with [ZERO_UNSTAKE_ERROR]; with [requested] non-zero and
    [readyForClaim] different from it, it fails with
    [NOT_FILLED_UNSTAKE_MESSAGE]; in both cases nothing is asked of the
    endpoint after the read. It returns a transaction only when
    [readyForClaim = requested], and in that case the next thing it does is
    to build the transaction (the gas estimate of the
    [claimWithdrawRequest] call). *)
Theorem claimWithdrawRequest_requires_filled_request
    this address t requested readyForClaim zeroTemplate notFilledTemplate :
  isAddress address = true ->
  readAnswer (Ethereum.client this) (Ethereum.contractAccounting this)
    "withdrawRequest" [AAddress address] = inr [requested; readyForClaim] ->
  Ethereum.ERROR_MESSAGES !! "ZERO_UNSTAKE_ERROR"%string = Some zeroTemplate ->
  Ethereum.ERROR_MESSAGES !! "NOT_FILLED_UNSTAKE_MESSAGE"%string
    = Some notFilledTemplate ->
  let t1 :=
    t ++ [readEvent (Ethereum.client this) (Ethereum.contractAccounting this)
            "withdrawRequest" [AAddress address]] in
  let build :=
    EvEstimateGas (Ethereum.client this)
      (Contract.address (Ethereum.contractAccounting this))
      (encodeFunctionData (Contract.abi (Ethereum.contractAccounting this))
         "claimWithdrawRequest" [])
      address in
  (requested = 0 ->
   Ethereum.claimWithdrawRequest this address t
   = (inl (WalletSDKError "ZERO_UNSTAKE_ERROR" zeroTemplate [] None), t1))
  /\ (requested <> 0 -> readyForClaim <> requested ->
      Ethereum.claimWithdrawRequest this address t
      = (inl (WalletSDKError "NOT_FILLED_UNSTAKE_MESSAGE" notFilledTemplate
                [] None), t1))
  /\ (forall tx t', Ethereum.claimWithdrawRequest this address t = (inr tx, t') ->
      readyForClaim = requested /\ requested <> 0)
  /\ (requested <> 0 -> readyForClaim = requested ->
      snd (Ethereum.claimWithdrawRequest this address t) = t1 ++ [build]).
Proof.
  intros Haddr Hread Hzero Hfill t1 build.
  assert (Hrun : Ethereum.claimWithdrawRequest this address t
    = try_catch
        (fun s =>
           (if BigNumber.isZero (Ethereum.fromWeiToEther requested) then
              Ethereum.throwError "ZERO_UNSTAKE_ERROR" []
            else if negb (BigNumber.eq (Ethereum.fromWeiToEther readyForClaim)
                            (Ethereum.fromWeiToEther requested)) then
              Ethereum.throwError "NOT_FILLED_UNSTAKE_MESSAGE" []
            else
              Ethereum.getTransaction this
                (encodeFunctionData
                   (Contract.abi (Ethereum.contractAccounting this))
                   "claimWithdrawRequest" [])
                address
                (Contract.address (Ethereum.contractAccounting this)) None) t1)
        (Ethereum.handleError "CLAIM_WITHDRAW_REQUEST_ERROR") t).
  { unfold Ethereum.claimWithdrawRequest, try_catch, bind.
    rewrite Haddr. cbn [negb].
    rewrite (withdrawRequest_returns _ _ _ _ _ Haddr Hread). reflexivity. }
  rewrite Hrun. unfold Ethereum.fromWeiToEther.
  rewrite isZero_wei, eq_wei. unfold try_catch.
  split; [| split; [| split]].
  - intros ->. cbn [Z.eqb].
    rewrite (eth_throwError_known _ _ _ _ Hzero).
    apply eth_handleError_rethrows, Hzero.
  - intros Hnz Hne.
    destruct (Z.eqb_spec requested 0) as [? | _]; [contradiction |].
    destruct (Z.eqb_spec readyForClaim requested) as [? | _]; [contradiction |].
    cbn [negb].
    rewrite (eth_throwError_known _ _ _ _ Hfill).
    apply eth_handleError_rethrows, Hfill.
  - intros tx t' Hret.
    destruct (Z.eqb_spec requested 0) as [-> | Hnz].
    + rewrite (eth_throwError_known _ _ _ _ Hzero) in Hret.
      rewrite (eth_handleError_rethrows _ _ _ _ _ Hzero) in Hret. discriminate.
    + destruct (Z.eqb_spec readyForClaim requested) as [Heq | Hne];
        [split; assumption |].
      cbn [negb] in Hret.
      rewrite (eth_throwError_known _ _ _ _ Hfill) in Hret.
      rewrite (eth_handleError_rethrows _ _ _ _ _ Hfill) in Hret. discriminate.
  - intros Hnz ->.
    destruct (Z.eqb_spec requested 0) as [? | _]; [contradiction |].
    rewrite Z.eqb_refl. cbn [negb].
    unfold Ethereum.getTransaction, bind, estimateGas, external.
    destruct (rpc_estimateGas _ _ _ _) as [kind | gas].
    + unfold Ethereum.handleError. apply handleError_keeps_state.
    + reflexivity.
Qed.

(** C1 (as amended). [unstake] on a valid address whose autocompound
    balance read answers [B], for a requested amount [A]: when [B < A] the
    call fails with the [MAX_AMOUNT_FOR_UNSTAKE_ERROR] code and [B] is the
    value put into the message; when the call returns a transaction,
    [B < A] does not hold, so [A <= B] for an amount that is a number;
    and when [A <= B] the call returns a transaction as soon as
    [parseUnits] accepts the amount, [BigInt] accepts the source, the
    encoder accepts the three arguments and the gas estimate of the
    encoded call is answered, while it fails with [UNSTAKE_ERROR] when
    the encoder refuses them. *)
Theorem unstake_balance_check
    this address amount allowedInterchangeNum source t b template :
  isAddress address = true ->
  readAnswer (Ethereum.client this) (Ethereum.contractAccounting this)
    "autocompoundBalanceOf" [AAddress address] = inr [b] ->
  Ethereum.ERROR_MESSAGES !! "MAX_AMOUNT_FOR_UNSTAKE_ERROR"%string
    = Some template ->
  let A := BigNumber_ofString amount in
  let B := Ethereum.fromWeiToEther b in
  let t1 :=
    t ++ [readEvent (Ethereum.client this) (Ethereum.contractAccounting this)
            "autocompoundBalanceOf" [AAddress address]] in
  let run :=
    Ethereum.unstake this address amount allowedInterchangeNum source in
  (BigNumber.lt B A = true ->
   run t = (inl (WalletSDKError "MAX_AMOUNT_FOR_UNSTAKE_ERROR" template
                   [PBigNumber B] None), t1))
  /\ (returns run t ->
      BigNumber.lt B A = false
      /\ (A <> BigNumber.NaN -> BigNumber.lte A B = true))
  /\ (BigNumber.lte A B = true ->
      forall amountWei src,
        parseUnits amount 18 = Some amountWei ->
        BigInt_ofString (default "0"%string source) = Some src ->
        let args :=
          [AUint amountWei;
           AUint (Ethereum.clampInterchangeNum
                    (default 0 allowedInterchangeNum));
           AUint src] in
        (forall gas,
           encodingError (Contract.abi (Ethereum.contractPool this))
             "unstake" args = None ->
           rpc_estimateGas (Ethereum.client this)
             (Contract.address (Ethereum.contractPool this))
             (encodeFunctionData (Contract.abi (Ethereum.contractPool this))
                "unstake" args)
             address = inr gas ->
           returns run t)
        /\ (forall kind wrapped,
              encodingError (Contract.abi (Ethereum.contractPool this))
                "unstake" args = Some kind ->
              Ethereum.ERROR_MESSAGES !! "UNSTAKE_ERROR"%string
                = Some wrapped ->
              run t = (inl (WalletSDKError "UNSTAKE_ERROR" wrapped []
                              (Some (Thrown kind))), t1))).
Proof.
  intros Haddr Hread Hmax A B t1 run.
  assert (Hrun : run t
    = try_catch
        (fun _ =>
           (if BigNumber.lt B A then
              Ethereum.throwError "MAX_AMOUNT_FOR_UNSTAKE_ERROR" [PBigNumber B]
            else
              await amountWei :=
                orThrow "InvalidDecimalNumberError" (parseUnits amount 18) in
              await src :=
                orThrow "SyntaxError"
                  (BigInt_ofString (default "0"%string source)) in
              await data :=
                encode (Contract.abi (Ethereum.contractPool this)) "unstake"
                  [AUint amountWei;
                   AUint (Ethereum.clampInterchangeNum
                            (default 0 allowedInterchangeNum));
                   AUint src] in
              Ethereum.getTransaction this data
                address (Contract.address (Ethereum.contractPool this)) None)
             t1)
        (Ethereum.handleError "UNSTAKE_ERROR") t).
  { unfold run, Ethereum.unstake. rewrite Haddr. cbn [negb].
    unfold try_catch, bind.
    rewrite (autocompoundBalanceOf_returns _ _ _ _ Haddr Hread). reflexivity. }
  assert (HB : B <> BigNumber.NaN).
  { unfold B, Ethereum.fromWeiToEther. rewrite shiftedBy_wei. discriminate. }
  unfold returns. rewrite Hrun. unfold try_catch.
  split; [| split].
  - intros Hlt. rewrite Hlt.
    rewrite (eth_throwError_known _ _ _ _ Hmax).
    apply eth_handleError_rethrows, Hmax.
  - intros (tx & t' & Hret).
    destruct (BigNumber.lt B A) eqn:Hlt.
    + rewrite (eth_throwError_known _ _ _ _ Hmax) in Hret.
      rewrite (eth_handleError_rethrows _ _ _ _ _ Hmax) in Hret. discriminate.
    + split; [reflexivity |].
      intros HA. apply lt_false_lte; assumption.
  - intros Hle amountWei src Hparse Hsrc. cbv zeta.
    rewrite (lte_lt_false _ _ Hle).
    unfold bind, orThrow. rewrite Hparse, Hsrc. cbn [ret]. split.
    + intros gas Hok Hgas. rewrite (encode_accepted _ _ _ _ Hok).
      rewrite (eth_getTransaction_returns _ _ _ _ _ _ _ Hgas).
      eexists _, _. reflexivity.
    + intros kind wrapped Hrefused Hcode.
      rewrite (encode_refused _ _ _ _ _ Hrefused).
      unfold Ethereum.handleError.
      apply handleError_wraps; [reflexivity | exact Hcode].
Qed.

(** C3 (as amended). [unstakePending] on a valid address whose pending
    balance read answers [P]: it fails when [P] is zero and when the
    amount exceeds [P], in both cases right after the read; when the
    remainder [P - amount] is not zero and is below the [minStakeAmount]
    read it fails with [INSUFFICIENT_PENDING_BALANCE_ERROR]; when the
    remainder is exactly zero [minStakeAmount] is not read and the call
    goes on to build the transaction, which it returns as soon as
    [parseUnits] accepts the amount, the encoder accepts the parsed
    amount and the gas estimate is answered, while it fails with
    [UNSTAKE_PENDING_ERROR] when the encoder refuses the parsed amount. *)
Theorem unstakePending_checks this address amount t p :
  isAddress address = true ->
  readAnswer (Ethereum.client this) (Ethereum.contractAccounting this)
    "pendingBalanceOf" [AAddress address] = inr [p] ->
  let P := Ethereum.fromWeiToEther p in
  let A := BigNumber_ofString amount in
  let R := BigNumber.minus P A in
  let t1 :=
    t ++ [readEvent (Ethereum.client this) (Ethereum.contractAccounting this)
            "pendingBalanceOf" [AAddress address]] in
  let run := Ethereum.unstakePending this address amount in
  (p = 0 -> exists e, run t = (inl e, t1))
  /\ (BigNumber.gt A P = true -> exists e, run t = (inl e, t1))
  /\ (p <> 0 -> BigNumber.gt A P = false -> BigNumber.isZero R = false ->
      forall m template,
        readAnswer (Ethereum.client this) (Ethereum.contractPool this)
          "minStakeAmount" [] = inr [m] ->
        BigNumber.lt R (Ethereum.fromWeiToEther m) = true ->
        Ethereum.ERROR_MESSAGES !! "INSUFFICIENT_PENDING_BALANCE_ERROR"%string
          = Some template ->
        run t
        = (inl (WalletSDKError "INSUFFICIENT_PENDING_BALANCE_ERROR" template
                  [PBigNumber (Ethereum.fromWeiToEther m)] None),
           t1 ++ [readEvent (Ethereum.client this) (Ethereum.contractPool this)
                    "minStakeAmount" []]))
  /\ (p <> 0 -> BigNumber.gt A P = false -> BigNumber.isZero R = true ->
      forall amountWei gas,
        parseUnits amount 18 = Some amountWei ->
        encodingError (Contract.abi (Ethereum.contractPool this))
          "unstakePending" [AUint amountWei] = None ->
        let data :=
          encodeFunctionData (Contract.abi (Ethereum.contractPool this))
            "unstakePending" [AUint amountWei] in
        rpc_estimateGas (Ethereum.client this)
          (Contract.address (Ethereum.contractPool this)) data address
          = inr gas ->
        run t
        = (inr {| Ethereum.from := address;
                  Ethereum.to := Contract.address (Ethereum.contractPool this);
                  Ethereum.value := BigNumber.ofBigint 0;
                  Ethereum.gasLimit := Ethereum.calculateGasLimit gas;
                  Ethereum.data := data |},
           t1 ++ [EvEstimateGas (Ethereum.client this)
                    (Contract.address (Ethereum.contractPool this))
                    data address]))
  /\ (p <> 0 -> BigNumber.gt A P = false -> BigNumber.isZero R = true ->
      forall amountWei kind template,
        parseUnits amount 18 = Some amountWei ->
        encodingError (Contract.abi (Ethereum.contractPool this))
          "unstakePending" [AUint amountWei] = Some kind ->
        Ethereum.ERROR_MESSAGES !! "UNSTAKE_PENDING_ERROR"%string
          = Some template ->
        run t
        = (inl (WalletSDKError "UNSTAKE_PENDING_ERROR" template []
                  (Some (Thrown kind))), t1)).
Proof.
  intros Haddr Hread P A R t1 run.
  assert (Hrun : run t
    = (if BigNumber.isZero P then Ethereum.throwError "ZERO_UNSTAKE_MESSAGE" []
       else if BigNumber.gt A P then
         Ethereum.throwError "AMOUNT_GREATER_THAN_PENDING_BALANCE_ERROR"
           [PBigNumber P]
       else
         try_catch
           (await _ :=
              (if negb (BigNumber.isZero R) then
                 await minStake := Ethereum.minStakeAmount this in
                 if BigNumber.lt R minStake then
                   Ethereum.throwError "INSUFFICIENT_PENDING_BALANCE_ERROR"
                     [PBigNumber minStake]
                 else ret tt
               else ret tt) in
            await amountWei :=
              orThrow "InvalidDecimalNumberError" (parseUnits amount 18) in
            await data :=
              encode (Contract.abi (Ethereum.contractPool this))
                "unstakePending" [AUint amountWei] in
            Ethereum.getTransaction this data
              address (Contract.address (Ethereum.contractPool this)) None)
           (Ethereum.handleError "UNSTAKE_PENDING_ERROR")) t1).
  { unfold run, Ethereum.unstakePending. rewrite Haddr. cbn [negb].
    unfold bind at 1.
    rewrite (pendingBalanceOf_returns _ _ _ _ Haddr Hread). reflexivity. }
  assert (HP : BigNumber.isZero P = (p =? 0)).
  { unfold P, Ethereum.fromWeiToEther. apply isZero_wei. }
  rewrite Hrun, HP.
  split; [| split; [| split; [| split]]].
  - intros ->. cbn [Z.eqb].
    unfold Ethereum.throwError, Blockchain.throwError.
    destruct (Ethereum.ERROR_MESSAGES !! _); eexists; reflexivity.
  - intros Hgt. rewrite Hgt.
    unfold Ethereum.throwError, Blockchain.throwError.
    destruct (p =? 0); destruct (Ethereum.ERROR_MESSAGES !! _);
      eexists; reflexivity.
  - intros Hp Hgt HR m template Hmin Hlt Hcode.
    destruct (Z.eqb_spec p 0) as [? | _]; [contradiction |].
    rewrite Hgt, HR. cbn [negb]. unfold try_catch, bind.
    rewrite (minStakeAmount_returns _ _ _ Hmin), Hlt.
    rewrite (eth_throwError_known _ _ _ _ Hcode).
    apply eth_handleError_rethrows, Hcode.
  - intros Hp Hgt HR amountWei gas Hparse Hok data Hgas.
    destruct (Z.eqb_spec p 0) as [? | _]; [contradiction |].
    rewrite Hgt, HR. cbn [negb]. unfold try_catch, bind, orThrow.
    cbn [ret]. rewrite Hparse. cbn [ret].
    rewrite (encode_accepted _ _ _ _ Hok). fold data.
    rewrite (eth_getTransaction_returns _ _ _ _ _ _ _ Hgas). reflexivity.
  - intros Hp Hgt HR amountWei kind template Hparse Hrefused Hcode.
    destruct (Z.eqb_spec p 0) as [? | _]; [contradiction |].
    rewrite Hgt, HR. cbn [negb]. unfold try_catch, bind, orThrow.
    cbn [ret]. rewrite Hparse. cbn [ret].
    rewrite (encode_refused _ _ _ _ _ Hrefused).
    unfold Ethereum.handleError.
    apply handleError_wraps; [reflexivity | exact Hcode].
Qed.

(** C5 (as amended). The interchange allowance of [unstake] and
    [simulateUnstake] saturates at 65535. With an input above 65535
    either operation runs in every respect (result, failure, calls made)
    as with 65535 itself, so no error is due to the size of the input.
    On a valid address whose balance covers the amount, the allowance
    handed to the encoder (by [unstake]) and to the simulation (by
    [simulateUnstake]) is the smaller of the input and 65535, the input
    itself when it is at most 65535: [unstake] returns the transaction
    that carries the encoding of that value as soon as the encoder
    accepts the arguments and the gas estimate is answered,
    [simulateUnstake] returns as soon as the simulation on that value is
    answered, and [unstake] fails with [UNSTAKE_ERROR] when the encoder
    refuses the arguments. *)
Theorem allowedInterchangeNum_saturates
    this address amount n source t b amountWei src :
  isAddress address = true ->
  readAnswer (Ethereum.client this) (Ethereum.contractAccounting this)
    "autocompoundBalanceOf" [AAddress address] = inr [b] ->
  BigNumber.lt (Ethereum.fromWeiToEther b) (BigNumber_ofString amount)
  = false ->
  parseUnits amount 18 = Some amountWei ->
  BigInt_ofString (default "0"%string source) = Some src ->
  let pool := Ethereum.contractPool this in
  let args := [AUint amountWei; AUint (Z.min n 65535); AUint src] in
  let data := encodeFunctionData (Contract.abi pool) "unstake" args in
  let t1 :=
    t ++ [readEvent (Ethereum.client this) (Ethereum.contractAccounting this)
            "autocompoundBalanceOf" [AAddress address]] in
  (65535 < n ->
   args = [AUint amountWei; AUint 65535; AUint src]
   /\ Ethereum.unstake this address amount (Some n) source
      = Ethereum.unstake this address amount (Some 65535) source
   /\ Ethereum.simulateUnstake this address amount (Some n) source
      = Ethereum.simulateUnstake this address amount (Some 65535) source)
  /\ (n <= 65535 -> args = [AUint amountWei; AUint n; AUint src])
  /\ (forall gas,
        encodingError (Contract.abi pool) "unstake" args = None ->
        rpc_estimateGas (Ethereum.client this) (Contract.address pool) data
          address = inr gas ->
        Ethereum.unstake this address amount (Some n) source t
        = (inr {| Ethereum.from := address;
                  Ethereum.to := Contract.address pool;
                  Ethereum.value := BigNumber.ofBigint 0;
                  Ethereum.gasLimit := Ethereum.calculateGasLimit gas;
                  Ethereum.data := data |},
           t1 ++ [EvEstimateGas (Ethereum.client this) (Contract.address pool)
                    data address]))
  /\ (forall result,
        rpc_simulateContract (Ethereum.client this) address
          (Contract.address pool) (Contract.abi pool) "unstake" args
        = inr result ->
        Ethereum.simulateUnstake this address amount (Some n) source t
        = (inr (Ethereum.fromWeiToEther result),
           t1 ++ [EvSimulateContract (Ethereum.client this) address
                    (Contract.address pool) (Contract.abi pool) "unstake"
                    args]))
  /\ (forall kind template,
        encodingError (Contract.abi pool) "unstake" args = Some kind ->
        Ethereum.ERROR_MESSAGES !! "UNSTAKE_ERROR"%string = Some template ->
        Ethereum.unstake this address amount (Some n) source t
        = (inl (WalletSDKError "UNSTAKE_ERROR" template []
                  (Some (Thrown kind))), t1)).
Proof.
  intros Haddr Hread Hlt Hparse Hsrc pool args data t1.
  split; [| split; [| split; [| split]]].
  - intros Hn. split; [| split].
    + unfold args. rewrite Z.min_r by lia. reflexivity.
    + unfold Ethereum.unstake, Ethereum.clampInterchangeNum,
        Ethereum.UINT16_MAX.
      cbn [from_option id].
      destruct (Z.gtb_spec n 65535); [reflexivity | lia].
    + unfold Ethereum.simulateUnstake, Ethereum.clampInterchangeNum,
        Ethereum.UINT16_MAX.
      cbn [from_option id].
      destruct (Z.gtb_spec n 65535); [reflexivity | lia].
  - intros Hn. unfold args. rewrite Z.min_l by lia. reflexivity.
  - intros gas Hok Hgas. unfold t1. rewrite <- app_assoc.
    exact (eth_unstake_returns this address amount (Some n) source t b
             amountWei src gas Haddr Hread Hlt Hparse Hsrc Hok Hgas).
  - intros result Hsim. unfold t1. rewrite <- app_assoc.
    exact (simulateUnstake_returns this address amount (Some n) source t b
             amountWei src result Haddr Hread Hlt Hparse Hsrc Hsim).
  - intros kind template Hrefused Hcode.
    unfold Ethereum.unstake. rewrite Haddr. cbn [negb from_option id].
    unfold Ethereum.handleError.
    apply try_catch_wraps_thrown; [| exact Hcode].
    unfold bind at 1.
    rewrite (autocompoundBalanceOf_returns _ _ _ _ Haddr Hread).
    rewrite Hlt. unfold bind, orThrow. rewrite Hparse, Hsrc. cbn [ret].
    rewrite clampInterchangeNum_min. fold pool. fold args.
    rewrite (encode_refused _ _ _ _ _ Hrefused). reflexivity.
Qed.

(** C10. Left out, the interchange allowance is 0 for [unstake] and 1 for
    [simulateUnstake]: for every address, amount and source each
    operation without the parameter runs as with that value given. A
    call of [unstake] without it returns a transaction exactly when the
    address is valid, the balance covers the amount, the amount and the
    source are parsed, the encoder accepts the arguments with allowance 0
    and the gas estimate is answered, and the transaction carries the
    encoding of those arguments; a call of [simulateUnstake] without it
    returns exactly under the same conditions on the address, the
    balance, the amount and the source when the simulation with
    allowance 1 is answered. The two argument lists differ for every
    amount and source. *)
Theorem allowedInterchangeNum_defaults_differ this address amount source t :
  let pool := Ethereum.contractPool this in
  let balanceRead :=
    readEvent (Ethereum.client this) (Ethereum.contractAccounting this)
      "autocompoundBalanceOf" [AAddress address] in
  let checked (amountWei src : Z) : Prop :=
    exists b,
      isAddress address = true
      /\ readAnswer (Ethereum.client this) (Ethereum.contractAccounting this)
           "autocompoundBalanceOf" [AAddress address] = inr [b]
      /\ BigNumber.lt (Ethereum.fromWeiToEther b) (BigNumber_ofString amount)
         = false
      /\ parseUnits amount 18 = Some amountWei
      /\ BigInt_ofString (default "0"%string source) = Some src in
  Ethereum.unstake this address amount None source
  = Ethereum.unstake this address amount (Some 0) source
  /\ Ethereum.simulateUnstake this address amount None source
     = Ethereum.simulateUnstake this address amount (Some 1) source
  /\ (forall tx t',
        Ethereum.unstake this address amount None source t = (inr tx, t') <->
        exists amountWei src gas,
          let args := [AUint amountWei; AUint 0; AUint src] in
          let data := encodeFunctionData (Contract.abi pool) "unstake" args in
          checked amountWei src
          /\ encodingError (Contract.abi pool) "unstake" args = None
          /\ rpc_estimateGas (Ethereum.client this) (Contract.address pool)
               data address = inr gas
          /\ tx = {| Ethereum.from := address;
                     Ethereum.to := Contract.address pool;
                     Ethereum.value := BigNumber.ofBigint 0;
                     Ethereum.gasLimit := Ethereum.calculateGasLimit gas;
                     Ethereum.data := data |}
          /\ t' = t ++ [balanceRead;
                        EvEstimateGas (Ethereum.client this)
                          (Contract.address pool) data address])
  /\ (forall v t',
        Ethereum.simulateUnstake this address amount None source t
        = (inr v, t') <->
        exists amountWei src result,
          let args := [AUint amountWei; AUint 1; AUint src] in
          checked amountWei src
          /\ rpc_simulateContract (Ethereum.client this) address
               (Contract.address pool) (Contract.abi pool) "unstake" args
             = inr result
          /\ v = Ethereum.fromWeiToEther result
          /\ t' = t ++ [balanceRead;
                        EvSimulateContract (Ethereum.client this) address
                          (Contract.address pool) (Contract.abi pool)
                          "unstake" args])
  /\ forall amountWei src,
       [AUint amountWei; AUint 0; AUint src]
       <> [AUint amountWei; AUint 1; AUint src].
Proof.
  intros pool balanceRead checked.
  split; [reflexivity |]. split; [reflexivity |].
  split; [| split].
  - intros tx t'. split.
    + intros H.
      apply eth_unstake_inr_inv in H
        as (b & amountWei & src & gas & Haddr & Hread & Hlt & Hparse & Hsrc
            & Hok & Hgas & -> & ->).
      exists amountWei, src, gas.
      split; [exists b; repeat split; assumption |].
      repeat split; assumption.
    + intros (amountWei & src & gas & (b & Haddr & Hread & Hlt & Hparse & Hsrc)
              & Hok & Hgas & -> & ->).
      exact (eth_unstake_returns this address amount None source t b
               amountWei src gas Haddr Hread Hlt Hparse Hsrc Hok Hgas).
  - intros v t'. split.
    + intros H.
      apply simulateUnstake_inr_inv in H
        as (b & amountWei & src & result & Haddr & Hread & Hlt & Hparse & Hsrc
            & Hsim & -> & ->).
      exists amountWei, src, result.
      split; [exists b; repeat split; assumption |].
      repeat split; assumption.
    + intros (amountWei & src & result
              & (b & Haddr & Hread & Hlt & Hparse & Hsrc) & Hsim & -> & ->).
      exact (simulateUnstake_returns this address amount None source t b
               amountWei src result Haddr Hread Hlt Hparse Hsrc Hsim).
  - intros amountWei src Heq. discriminate.
Qed.

(** C7. [selectNetwork] on an identifier that is no entry of the address
    table. When the identifier names nothing at all on the table object,
    the call fails with [NETWORK_NOT_SUPPORTED] and leaves the object as
    it was, and a later [selectNetwork] with an entry of the table binds
    the client and the three addresses from that entry. When the
    identifier is a property name of [Object.prototype], such as
    [constructor], the guard does not fire: with a URL given the call
    returns the object with the client bound to that URL and the three
    addresses [undefined], and without one it fails with the [TypeError]
    of the client's construction, not with [NETWORK_NOT_SUPPORTED]. *)
Theorem selectNetwork_inherited_name_is_not_rejected
    this network url template :
  Ethereum.ETH_NETWORK_ADDRESSES !! network = None ->
  Ethereum.ERROR_MESSAGES !! "NETWORK_NOT_SUPPORTED"%string = Some template ->
  let object := Ethereum.ofAdapter this in
  let unbound (given : string) :=
    {| Ethereum.object_addressContractWithdrawTreasury := None;
       Ethereum.object_contractAccounting :=
         {| Ethereum.object_abi := ABI_CONTRACT_ACCOUNTING;
            Ethereum.object_address := None |};
       Ethereum.object_contractPool :=
         {| Ethereum.object_abi := ABI_CONTRACT_POOL;
            Ethereum.object_address := None |};
       Ethereum.object_client := createPublicClient (http given 1 300) |} in
  (~ In network Ethereum.inheritedNames ->
   Ethereum.selectNetwork network url object
   = (inl (WalletSDKError "NETWORK_NOT_SUPPORTED" template [PStr network]
             None), object)
   /\ forall network' url' addresses,
        Ethereum.ETH_NETWORK_ADDRESSES !! network' = Some addresses ->
        let rebound :=
          {| Ethereum.object_addressContractWithdrawTreasury :=
               Some (Ethereum.addressContractWithdrawTreasury addresses);
             Ethereum.object_contractAccounting :=
               {| Ethereum.object_abi := ABI_CONTRACT_ACCOUNTING;
                  Ethereum.object_address :=
                    Some (Ethereum.addressContractAccounting addresses) |};
             Ethereum.object_contractPool :=
               {| Ethereum.object_abi := ABI_CONTRACT_POOL;
                  Ethereum.object_address :=
                    Some (Ethereum.addressContractPool addresses) |};
             Ethereum.object_client :=
               createPublicClient
                 (http match url' with
                       | None | Some EmptyString => Ethereum.rpcUrl addresses
                       | Some given => given
                       end 1 300) |} in
        Ethereum.selectNetwork network' url'
          (snd (Ethereum.selectNetwork network url object))
        = (inr rebound, rebound))
  /\ (In network Ethereum.inheritedNames ->
      (forall given,
         url = Some given -> given <> ""%string ->
         Ethereum.selectNetwork network url object
         = (inr (unbound given), unbound given))
      /\ (url = None \/ url = Some ""%string ->
          Ethereum.selectNetwork network url object
          = (inl (Thrown "TypeError"), object))).
Proof.
  intros Hunknown Hcode object unbound.
  assert (Hinherited :
    existsb (String.eqb network) Ethereum.inheritedNames = true
    <-> In network Ethereum.inheritedNames).
  { rewrite existsb_exists. split.
    - intros (name & Hin & Heq). apply String.eqb_eq in Heq. subst name.
      exact Hin.
    - intros Hin. exists network. split; [exact Hin | apply String.eqb_refl]. }
  split.
  - intros Hnot.
    assert (Hfail : Ethereum.selectNetwork network url object
      = (inl (WalletSDKError "NETWORK_NOT_SUPPORTED" template [PStr network]
                None), object)).
    { unfold Ethereum.selectNetwork, Ethereum.initializeNetwork,
        Ethereum.property, bind.
      rewrite Hunknown.
      destruct (existsb _ _) eqn:Hex in |- *;
        [exfalso; apply Hnot, Hinherited, Hex |].
      rewrite (eth_throwError_known _ _ _ _ Hcode). reflexivity. }
    split; [exact Hfail |].
    intros network' url' addresses Hknown rebound. rewrite Hfail. cbn [snd].
    unfold Ethereum.selectNetwork, Ethereum.initializeNetwork,
      Ethereum.property.
    rewrite Hknown. unfold rebound.
    destruct url' as [[| c given] |]; reflexivity.
  - intros Hin. apply Hinherited in Hin. split.
    + intros given -> Hgiven.
      unfold Ethereum.selectNetwork, Ethereum.initializeNetwork,
        Ethereum.property.
      rewrite Hunknown, Hin.
      destruct given as [| c given]; [contradiction | reflexivity].
    + intros [-> | ->];
        unfold Ethereum.selectNetwork, Ethereum.initializeNetwork,
          Ethereum.property;
        rewrite Hunknown, Hin; reflexivity.
Qed.

End EthereumClaims.

(** ** The Polygon adapter *)

Section PolygonFacts.
Context {L : Libraries} {W : World} {K : Polygon.Constants}.
Implicit Types (this : Polygon.t) (t : Trace).

Lemma getUnbondNonces_returns this address t latest :
  readAnswer (Polygon.client this) (Polygon.contract_buy this)
    "unbondNonces" [AAddress address] = inr [latest] ->
  Polygon.getUnbondNonces this address t
  = (inr latest,
     t ++ [readEvent (Polygon.client this) (Polygon.contract_buy this)
             "unbondNonces" [AAddress address]]).
Proof.
  intros Hread. unfold readAnswer in Hread.
  unfold Polygon.getUnbondNonces, try_catch, bind, readContract, external.
  rewrite Hread. reflexivity.
Qed.



Lemma polygon_getTransaction_inv this data address contractAddress t tx t' :
  Polygon.getTransaction this data address contractAddress t = (inr tx, t') ->
  exists gas,
    rpc_estimateGas (Polygon.client this) contractAddress data address = inr gas
    /\ tx = {| Polygon.from := address;
               Polygon.to := contractAddress;
               Polygon.gasLimit := gas;
               Polygon.data := data |}
    /\ t' = t ++ [EvEstimateGas (Polygon.client this) contractAddress data address].
Proof.
  unfold Polygon.getTransaction, bind, estimateGas, external.
  destruct (rpc_estimateGas _ _ _ _) as [kind | gas]; intros H; [discriminate |].
  injection H as <- <-. exists gas. repeat split.
Qed.

End PolygonFacts.

Section PolygonClaims.
Context {L : Libraries} {W : World} {K : Polygon.Constants}.
Implicit Types (this : Polygon.t) (t : Trace).


End PolygonClaims.

(** ** Across the adapters *)

Section BerrachainFacts.
Context {L : Libraries} {W : World} {K : Berrachain.Constants}.

Lemma bera_getTransaction_inv (this : Berrachain.t) data address value
    (t : Trace) tx t' :
  Berrachain.getTransaction this data address value t = (inr tx, t') ->
  exists gas,
    rpc_estimateGas (Berrachain.client this)
      (Berrachain.contractAddress (Berrachain.btg this)) data address = inr gas
    /\ tx = {| Berrachain.from := address;
               Berrachain.to := Berrachain.contractAddress (Berrachain.btg this);
               Berrachain.value := default (BigNumber.ofBigint 0) value;
               Berrachain.gasLimit := Berrachain.calculateGasLimit gas;
               Berrachain.data := data |}
    /\ t' = t ++ [EvEstimateGas (Berrachain.client this)
                    (Berrachain.contractAddress (Berrachain.btg this))
                    data address].
Proof.
  unfold Berrachain.getTransaction, bind, estimateGas, external.
  destruct (rpc_estimateGas _ _ _ _) as [kind | gas]; intros H; [discriminate |].
  injection H as <- <-. exists gas. repeat split.
Qed.

End BerrachainFacts.

Section AdapterClaims.
Context {L : Libraries} {W : World}.
Context {KE : Ethereum.Constants} {KB : Berrachain.Constants}
        {KP : Polygon.Constants}.

(** C6 (as amended). An amount whose parsed base-unit value is below the
    configured minimum is rejected with the minimum-amount error before
    anything is asked of the RPC client or of any other service, so no gas
    is estimated: by [stake] of the Ethereum adapter for every address
    that passes [isAddress], with the [MIN_AMOUNT_ERROR] code, and by
    [approve] of the Polygon adapter for every address, as a plain "Min
    Amount" error. *)
Theorem minimum_amount_rejected_before_any_call
    (ethereum : Ethereum.t) (polygon : Polygon.t)
    address amount source isPOL (t : Trace) amountWei :
  parseUnits amount 18 = Some amountWei ->
  (isAddress address = true ->
   BigNumber.lt (BigNumber.ofBigint amountWei) Ethereum.ETH_MIN_AMOUNT = true ->
   forall template,
     Ethereum.ERROR_MESSAGES !! "MIN_AMOUNT_ERROR"%string = Some template ->
     Ethereum.stake ethereum address amount source t
     = (inl (WalletSDKError "MIN_AMOUNT_ERROR" template
               [PBigNumber Ethereum.ETH_MIN_AMOUNT] None), t))
  /\ (amountWei < Polygon.MIN_AMOUNT ->
      Polygon.approve polygon address amount isPOL t
      = (inl (PlainError
                [PStr "Min Amount "; PUnits Polygon.MIN_AMOUNT 18;
                 PStr " matic"]), t)).
Proof.
  intros Hparse. split.
  - intros Haddr Hlt template Hcode.
    unfold Ethereum.stake, bind, orThrow, Ethereum.minAmount.
    rewrite Haddr, Hparse. cbn [negb ret]. rewrite Hlt.
    apply eth_throwError_known, Hcode.
  - intros Hlt.
    unfold Polygon.approve, bind, orThrow, BigNumber.isLessThan.
    rewrite Hparse. cbn [ret]. rewrite lt_bigint.
    apply Z.ltb_lt in Hlt. rewrite Hlt. reflexivity.
Qed.

(** C8 (as amended). A transaction returned by a state-changing operation
    of the Ethereum or of the Berrachain adapter has as gas limit the
    answer of the gas estimate for that very transaction plus the
    adapter's reserve (one decimal sum turned into a number on Ethereum,
    a sum of numbers on Berrachain), which is the exact integer sum for
    values within the safe integer range of a number, and then differs
    from the estimate as soon as the reserve is not zero. On the Polygon adapter
    the one operation that estimates gas, [approve], returns the estimate
    itself as gas limit; the other builders use fixed base-gas constants. *)
Theorem gasLimit_of_returned_transactions
    (ethereum : Ethereum.t) (berrachain : Berrachain.t) (polygon : Polygon.t) :
  (forall op,
     onReturn (runEth ethereum op)
       (fun tx t' =>
          exists gas t0,
            rpc_estimateGas (Ethereum.client ethereum) (Ethereum.to tx)
              (Ethereum.data tx) (Ethereum.from tx) = inr gas
            /\ t' = t0 ++ [EvEstimateGas (Ethereum.client ethereum)
                             (Ethereum.to tx) (Ethereum.data tx)
                             (Ethereum.from tx)]
            /\ Ethereum.gasLimit tx
               = Number.ofInteger (gas + Ethereum.ETH_GAS_RESERVE)
            /\ (Z.abs (gas + Ethereum.ETH_GAS_RESERVE)
                  <= Number.MAX_SAFE_INTEGER ->
                Ethereum.gasLimit tx = gas + Ethereum.ETH_GAS_RESERVE
                /\ (Ethereum.ETH_GAS_RESERVE <> 0 ->
                    Ethereum.gasLimit tx <> gas))))
  /\ (forall op,
        onReturn (runBera berrachain op)
          (fun tx t' =>
             exists gas t0,
               rpc_estimateGas (Berrachain.client berrachain)
                 (Berrachain.to tx) (Berrachain.data tx) (Berrachain.from tx)
               = inr gas
               /\ t' = t0 ++ [EvEstimateGas (Berrachain.client berrachain)
                                (Berrachain.to tx) (Berrachain.data tx)
                                (Berrachain.from tx)]
               /\ Berrachain.gasLimit tx
                  = Number.add (Number.ofInteger gas) Berrachain.GAS_RESERVE
               /\ (Z.abs gas <= Number.MAX_SAFE_INTEGER ->
                   Z.abs (gas + Berrachain.GAS_RESERVE)
                     <= Number.MAX_SAFE_INTEGER ->
                   Berrachain.gasLimit tx = gas + Berrachain.GAS_RESERVE
                   /\ (Berrachain.GAS_RESERVE <> 0 ->
                       Berrachain.gasLimit tx <> gas))))
  /\ (forall address amount isPOL,
        onReturn (Polygon.approve polygon address amount isPOL)
          (fun tx t' =>
             exists gas t0,
               rpc_estimateGas (Polygon.client polygon) (Polygon.to tx)
                 (Polygon.data tx) (Polygon.from tx) = inr gas
               /\ t' = t0 ++ [EvEstimateGas (Polygon.client polygon)
                                (Polygon.to tx) (Polygon.data tx)
                                (Polygon.from tx)]
               /\ Polygon.gasLimit tx = gas))
  /\ (forall token address amount nonce isPOL,
        onReturn (Polygon.delegate polygon token address amount isPOL)
          (fun tx _ => Polygon.gasLimit tx = Polygon.DELEGATE_BASE_GAS)
        /\ onReturn (Polygon.undelegate polygon token address amount isPOL)
             (fun tx _ => Polygon.gasLimit tx = Polygon.UNDELEGATE_BASE_GAS)
        /\ onReturn (Polygon.claimUndelegate polygon address nonce isPOL)
             (fun tx _ =>
                Polygon.gasLimit tx = Polygon.CLAIM_UNDELEGATE_BASE_GAS)
        /\ onReturn (Polygon.reward polygon address isPOL)
             (fun tx _ => Polygon.gasLimit tx = Polygon.CLAIM_REWARDS_BASE_GAS)
        /\ onReturn (Polygon.restake polygon address isPOL)
             (fun tx _ => Polygon.gasLimit tx = Polygon.RESTAKE_BASE_GAS)).
Proof.
  assert (Heth : forall data address contractAddress value,
    onReturn (Ethereum.getTransaction ethereum data address contractAddress value)
      (fun tx t' =>
         exists gas t0,
           rpc_estimateGas (Ethereum.client ethereum) (Ethereum.to tx)
             (Ethereum.data tx) (Ethereum.from tx) = inr gas
           /\ t' = t0 ++ [EvEstimateGas (Ethereum.client ethereum)
                            (Ethereum.to tx) (Ethereum.data tx)
                            (Ethereum.from tx)]
           /\ Ethereum.gasLimit tx
              = Number.ofInteger (gas + Ethereum.ETH_GAS_RESERVE)
           /\ (Z.abs (gas + Ethereum.ETH_GAS_RESERVE)
                 <= Number.MAX_SAFE_INTEGER ->
               Ethereum.gasLimit tx = gas + Ethereum.ETH_GAS_RESERVE
               /\ (Ethereum.ETH_GAS_RESERVE <> 0 ->
                   Ethereum.gasLimit tx <> gas)))).
  { intros data address contractAddress value t tx t' Hret.
    apply eth_getTransaction_inv in Hret as (gas & Hgas & -> & ->).
    exists gas, t. cbn [Ethereum.from Ethereum.to Ethereum.data Ethereum.gasLimit].
    split; [exact Hgas |]. split; [reflexivity |]. split; [reflexivity |].
    intros Hsafe. unfold Ethereum.calculateGasLimit.
    rewrite (ofInteger_exact _ Hsafe). split; [reflexivity | lia]. }
  assert (Hbera : forall data address value,
    onReturn (Berrachain.getTransaction berrachain data address value)
      (fun tx t' =>
         exists gas t0,
           rpc_estimateGas (Berrachain.client berrachain)
             (Berrachain.to tx) (Berrachain.data tx) (Berrachain.from tx)
           = inr gas
           /\ t' = t0 ++ [EvEstimateGas (Berrachain.client berrachain)
                            (Berrachain.to tx) (Berrachain.data tx)
                            (Berrachain.from tx)]
           /\ Berrachain.gasLimit tx
              = Number.add (Number.ofInteger gas) Berrachain.GAS_RESERVE
           /\ (Z.abs gas <= Number.MAX_SAFE_INTEGER ->
               Z.abs (gas + Berrachain.GAS_RESERVE)
                 <= Number.MAX_SAFE_INTEGER ->
               Berrachain.gasLimit tx = gas + Berrachain.GAS_RESERVE
               /\ (Berrachain.GAS_RESERVE <> 0 ->
                   Berrachain.gasLimit tx <> gas)))).
  { intros data address value t tx t' Hret.
    apply bera_getTransaction_inv in Hret as (gas & Hgas & -> & ->).
    exists gas, t.
    cbn [Berrachain.from Berrachain.to Berrachain.data Berrachain.gasLimit].
    split; [exact Hgas |]. split; [reflexivity |]. split; [reflexivity |].
    intros Hsafe Hsum. unfold Berrachain.calculateGasLimit.
    rewrite (add_exact _ _ Hsafe Hsum). split; [reflexivity | lia]. }
  split; [| split; [| split]].
  - intros op. destruct op; cbn [runEth].
    + unfold Ethereum.autocompound.
      apply onReturn_try; [| intros; apply onReturn_handleError].
      destruct (isAddress _); cbn [negb]; [| apply onReturn_throwError].
      apply onReturn_bind; intros rewards.
      destruct (BigNumber.isZero _); [apply onReturn_throwError | apply Heth].
    + unfold Ethereum.claimWithdrawRequest.
      apply onReturn_try; [| intros; apply onReturn_handleError].
      destruct (isAddress _); cbn [negb]; [| apply onReturn_throwError].
      apply onReturn_bind; intros [requested readyForClaim].
      destruct (BigNumber.isZero _); [apply onReturn_throwError |].
      destruct (negb _); [apply onReturn_throwError | apply Heth].
    + unfold Ethereum.stake.
      destruct (isAddress _); cbn [negb]; [| apply onReturn_throwError].
      apply onReturn_bind; intros amountWei.
      destruct (BigNumber.lt _ _); [apply onReturn_throwError |].
      apply onReturn_try; [| intros; apply onReturn_handleError].
      apply onReturn_bind; intros src.
      apply onReturn_bind; intros data. apply Heth.
    + unfold Ethereum.unstake.
      destruct (isAddress _); cbn [negb]; [| apply onReturn_throwError].
      apply onReturn_try; [| intros; apply onReturn_handleError].
      apply onReturn_bind; intros balance.
      destruct (BigNumber.lt _ _); [apply onReturn_throwError |].
      apply onReturn_bind; intros amountWei.
      apply onReturn_bind; intros src.
      apply onReturn_bind; intros data. apply Heth.
    + unfold Ethereum.unstakePending.
      destruct (isAddress _); cbn [negb]; [| apply onReturn_throwError].
      apply onReturn_bind; intros pendingBalance.
      destruct (BigNumber.isZero _); [apply onReturn_throwError |].
      destruct (BigNumber.gt _ _); [apply onReturn_throwError |].
      apply onReturn_try; [| intros; apply onReturn_handleError].
      apply onReturn_bind; intros _.
      apply onReturn_bind; intros amountWei.
      apply onReturn_bind; intros data. apply Heth.
    + unfold Ethereum.activateStake.
      apply onReturn_try; [| intros; apply onReturn_handleError].
      destruct (isAddress _); cbn [negb]; [| apply onReturn_throwError].
      apply Heth.
  - intros op. destruct op; cbn [runBera].
    + unfold Berrachain.approveForStake.
      apply onReturn_try; [| intros; apply onReturn_handleError].
      apply onReturn_bind; intros amountWei.
      apply onReturn_bind; intros data. apply Hbera.
    + unfold Berrachain.activateStake.
      apply onReturn_try; [| intros; apply onReturn_handleError].
      apply onReturn_bind; intros data. apply Hbera.
    + unfold Berrachain.cancelStakeInQueue.
      apply onReturn_try; [| intros; apply onReturn_handleError].
      destruct (isAddress _); cbn [negb]; [| apply onReturn_throwError].
      apply onReturn_bind; intros amountWei.
      apply onReturn_bind; intros data. apply Hbera.
    + unfold Berrachain.unstake.
      apply onReturn_try; [| intros; apply onReturn_handleError].
      destruct (isAddress _); cbn [negb]; [| apply onReturn_throwError].
      apply onReturn_bind; intros data. apply Hbera.
    + unfold Berrachain.stake.
      apply onReturn_try; [| intros; apply onReturn_handleError].
      destruct (isAddress _); cbn [negb]; [| apply onReturn_throwError].
      apply onReturn_bind; intros amountWei.
      apply onReturn_bind; intros data. apply Hbera.
    + unfold Berrachain.queueUnstake.
      apply onReturn_try; [| intros; apply onReturn_handleError].
      destruct (Berrachain.network _); [apply onReturn_throwError |].
      apply onReturn_bind; intros amountWei.
      apply onReturn_bind; intros data. apply Hbera.
    + unfold Berrachain.cancelUnstake.
      apply onReturn_try; [| intros; apply onReturn_handleError].
      destruct (Berrachain.network _); [apply onReturn_throwError |].
      apply onReturn_bind; intros amountWei.
      apply onReturn_bind; intros data. apply Hbera.
  - intros address amount isPOL. unfold Polygon.approve.
    apply onReturn_bind; intros amountWei.
    destruct (BigNumber.isLessThan _ _); [apply onReturn_throw |].
    apply onReturn_try; [| intros; apply onReturn_handleError].
    apply onReturn_bind; intros data.
    intros t tx t' Hret.
    apply polygon_getTransaction_inv in Hret as (gas & Hgas & -> & ->).
    exists gas, t. cbn. repeat split. exact Hgas.
  - intros token address amount nonce isPOL.
    split; [| split; [| split; [| split]]].
    + unfold Polygon.delegate. apply onReturn_bind; intros valid.
      destruct valid; [| apply onReturn_throw].
      apply onReturn_bind; intros amountWei.
      destruct (BigNumber.isLessThan _ _); [apply onReturn_throw |].
      apply onReturn_try; [| intros; apply onReturn_handleError].
      apply onReturn_bind; intros allowedAmount.
      destruct (_ && _); [apply onReturn_throwError |].
      apply onReturn_bind; intros data.
      apply onReturn_bind; intros _. apply onReturn_ret. reflexivity.
    + unfold Polygon.undelegate. apply onReturn_bind; intros valid.
      destruct valid; [| apply onReturn_throw].
      apply onReturn_try; [| intros; apply onReturn_handleError].
      apply onReturn_bind; intros amountWei.
      apply onReturn_bind; intros delegatedBalance.
      destruct (BigNumber.isLessThan _ _); [apply onReturn_throwError |].
      apply onReturn_bind; intros data.
      apply onReturn_bind; intros _. apply onReturn_ret. reflexivity.
    + unfold Polygon.claimUndelegate. apply onReturn_bind; intros unbond.
      destruct (BigNumber.isZero _); [apply onReturn_throw |].
      apply onReturn_bind; intros currentEpoch.
      destruct (BigNumber.isLessThan _ _); [apply onReturn_throw |].
      apply onReturn_bind; intros data. apply onReturn_ret. reflexivity.
    + apply onReturn_ret. reflexivity.
    + apply onReturn_ret. reflexivity.
Qed.

End AdapterClaims.

(** ** The statements on the sample instances *)

(** Witness of C1: against a balance of 2 ether, a request of 3 is
    refused with that balance in the message. *)
Lemma unstake_balance_check_witness :
  fst (@Ethereum.unstake Sample.libraries Sample.healthy Sample.ethConstants
         Sample.ethereum Sample.user "3" None None [])
  = inl (WalletSDKError "MAX_AMOUNT_FOR_UNSTAKE_ERROR"
           "Max amount for unstake is {0}"
           [PBigNumber (Ethereum.fromWeiToEther (2 * Sample.ether))] None).
Proof.
  refine (f_equal fst
            (proj1 (@unstake_balance_check Sample.libraries Sample.healthy
                      Sample.ethConstants Sample.ethereum Sample.user "3"
                      None None [] (2 * Sample.ether)
                      "Max amount for unstake is {0}" _ _ _) _));
    vm_compute; reflexivity.
Defined.

(** Counterexample to C1 as stated: a request of 1 ether against a
    balance of 2 is within the balance, and the call still fails, with
    [UNSTAKE_ERROR], when the endpoint does not estimate gas; so it does,
    on an endpoint that answers, with a source that [BigInt] refuses. *)
Lemma unstake_within_balance_can_fail :
  @isAddress Sample.libraries Sample.user = true
  /\ @readAnswer Sample.gasFailing (Ethereum.client Sample.ethereum)
       (Ethereum.contractAccounting Sample.ethereum)
       "autocompoundBalanceOf" [AAddress Sample.user]
     = inr [2 * Sample.ether]
  /\ BigNumber.lte (@BigNumber_ofString Sample.libraries "1")
       (Ethereum.fromWeiToEther (2 * Sample.ether)) = true
  /\ fst (@Ethereum.unstake Sample.libraries Sample.gasFailing
            Sample.ethConstants Sample.ethereum Sample.user "1" None None [])
     = inl (WalletSDKError "UNSTAKE_ERROR" "Unstake failed" []
              (Some (Thrown "EstimateGasExecutionError")))
  /\ ~ returns (@Ethereum.unstake Sample.libraries Sample.gasFailing
                  Sample.ethConstants Sample.ethereum Sample.user "1"
                  None None) []
  /\ fst (@Ethereum.unstake Sample.libraries Sample.healthy
            Sample.ethConstants Sample.ethereum Sample.user "1" None
            (Some "x"%string) [])
     = inl (WalletSDKError "UNSTAKE_ERROR" "Unstake failed" []
              (Some (Thrown "SyntaxError"))).
Proof.
  repeat split; try (vm_compute; reflexivity).
  intros (tx & t' & Hret). vm_compute in Hret. discriminate.
Qed.

(** Witness of C2: a request of 1 ether of which half is ready cannot be
    claimed. *)
Lemma claimWithdrawRequest_requires_filled_request_witness :
  fst (@Ethereum.claimWithdrawRequest Sample.libraries Sample.halfFilled
         Sample.ethConstants Sample.ethereum Sample.user [])
  = inl (WalletSDKError "NOT_FILLED_UNSTAKE_MESSAGE"
           "Unstake request is not filled yet" [] None).
Proof.
  refine (f_equal fst
            (proj1 (proj2
               (@claimWithdrawRequest_requires_filled_request
                  Sample.libraries Sample.halfFilled Sample.ethConstants
                  Sample.ethereum Sample.user [] Sample.ether
                  (Sample.ether / 2) "No funds to claim"
                  "Unstake request is not filled yet" _ _ _ _)) _ _));
    vm_compute; (reflexivity || discriminate).
Defined.

(** Witness of C3: taking 1 ether out of a pending balance of 1.05 would
    leave 0.05, below the minimum stake of 0.1. *)
Lemma unstakePending_checks_witness :
  fst (@Ethereum.unstakePending Sample.libraries Sample.smallPending
         Sample.ethConstants Sample.ethereum Sample.user "1" [])
  = inl (WalletSDKError "INSUFFICIENT_PENDING_BALANCE_ERROR"
           "Pending balance less than min stake amount {0}"
           [PBigNumber (Ethereum.fromWeiToEther (Sample.ether / 10))] None).
Proof.
  refine (f_equal fst
            (proj1 (proj2 (proj2
               (@unstakePending_checks Sample.libraries Sample.smallPending
                  Sample.ethConstants Sample.ethereum Sample.user "1" []
                  (105 * (Sample.ether / 100)) _ _)))
               _ _ _ (Sample.ether / 10)
               "Pending balance less than min stake amount {0}" _ _ _));
    vm_compute; (reflexivity || discriminate).
Defined.

(** Counterexample to C3 as stated: withdrawing the whole pending balance
    of 2 ether leaves a remainder of exactly zero, and the call fails all
    the same when the endpoint does not estimate gas. *)
Lemma unstakePending_zero_remainder_can_fail :
  @isAddress Sample.libraries Sample.user = true
  /\ @readAnswer Sample.gasFailing (Ethereum.client Sample.ethereum)
       (Ethereum.contractAccounting Sample.ethereum)
       "pendingBalanceOf" [AAddress Sample.user]
     = inr [2 * Sample.ether]
  /\ BigNumber.isZero
       (BigNumber.minus (Ethereum.fromWeiToEther (2 * Sample.ether))
          (@BigNumber_ofString Sample.libraries "2")) = true
  /\ fst (@Ethereum.unstakePending Sample.libraries Sample.gasFailing
            Sample.ethConstants Sample.ethereum Sample.user "2" [])
     = inl (WalletSDKError "UNSTAKE_PENDING_ERROR" "Unstake pending failed" []
              (Some (Thrown "EstimateGasExecutionError")))
  /\ ~ returns (@Ethereum.unstakePending Sample.libraries Sample.gasFailing
                  Sample.ethConstants Sample.ethereum Sample.user "2") [].
Proof.
  repeat split; try (vm_compute; reflexivity).
  intros (tx & t' & Hret). vm_compute in Hret. discriminate.
Qed.

(** C3 on the samples: with an endpoint that estimates gas, withdrawing
    the whole pending balance of 2 ether returns the transaction, and the
    minimum stake is not read. *)
Example unstakePending_whole_balance :
  @Ethereum.unstakePending Sample.libraries Sample.healthy Sample.ethConstants
    Sample.ethereum Sample.user "2" []
  = (inr {| Ethereum.from := Sample.user;
            Ethereum.to := "mainnet-pool";
            Ethereum.value := BigNumber.ofBigint 0;
            Ethereum.gasLimit := 241000;
            Ethereum.data := "unstakePending(2000000000000000000)" |},
     [EvReadContract (Ethereum.client Sample.ethereum) "mainnet-accounting"
        ABI_CONTRACT_ACCOUNTING "pendingBalanceOf" [AAddress Sample.user];
      EvEstimateGas (Ethereum.client Sample.ethereum) "mainnet-pool"
        "unstakePending(2000000000000000000)" Sample.user]).
Proof. vm_compute. reflexivity. Qed.


(** Witness of C5: against a balance of 2 ether, 1 ether is unstaked
    with an allowance of 70000, which is encoded, and simulated, as
    65535. *)
Lemma allowedInterchangeNum_saturates_witness :
  @Ethereum.unstake Sample.libraries Sample.healthy Sample.ethConstants
    Sample.ethereum Sample.user "1" (Some 70000) None []
  = (inr {| Ethereum.from := Sample.user;
            Ethereum.to := "mainnet-pool";
            Ethereum.value := BigNumber.ofBigint 0;
            Ethereum.gasLimit := 241000;
            Ethereum.data := "unstake(1000000000000000000,65535,0)" |},
     [EvReadContract (Ethereum.client Sample.ethereum) "mainnet-accounting"
        ABI_CONTRACT_ACCOUNTING "autocompoundBalanceOf" [AAddress Sample.user];
      EvEstimateGas (Ethereum.client Sample.ethereum) "mainnet-pool"
        "unstake(1000000000000000000,65535,0)" Sample.user])
  /\ @Ethereum.simulateUnstake Sample.libraries Sample.healthy
       Sample.ethConstants Sample.ethereum Sample.user "1" (Some 70000) None []
     = (inr (Ethereum.fromWeiToEther 0),
        [EvReadContract (Ethereum.client Sample.ethereum) "mainnet-accounting"
           ABI_CONTRACT_ACCOUNTING "autocompoundBalanceOf"
           [AAddress Sample.user];
         EvSimulateContract (Ethereum.client Sample.ethereum) Sample.user
           "mainnet-pool" ABI_CONTRACT_POOL "unstake"
           [AUint Sample.ether; AUint 65535; AUint 0]]).
Proof.
  pose proof (@allowedInterchangeNum_saturates Sample.libraries Sample.healthy
                Sample.ethConstants Sample.ethereum Sample.user "1" 70000 None
                [] (2 * Sample.ether) Sample.ether 0
                eq_refl eq_refl eq_refl eq_refl eq_refl)
    as (_ & _ & Hunstake & Hsimulate & _).
  split.
  - exact (Hunstake 21000 eq_refl eq_refl).
  - exact (Hsimulate 0 eq_refl).
Defined.

(** Counterexample to C5 as stated: -1 is at most 65535, and it is not
    encoded: the encoder refuses it and [unstake] fails with
    [UNSTAKE_ERROR] after the balance read. *)
Lemma unstake_refuses_negative_allowance :
  -1 <= 65535
  /\ @Ethereum.unstake Sample.libraries Sample.healthy Sample.ethConstants
       Sample.ethereum Sample.user "1" (Some (-1)) None []
     = (inl (WalletSDKError "UNSTAKE_ERROR" "Unstake failed" []
               (Some (Thrown "IntegerOutOfRangeError"))),
        [EvReadContract (Ethereum.client Sample.ethereum) "mainnet-accounting"
           ABI_CONTRACT_ACCOUNTING "autocompoundBalanceOf"
           [AAddress Sample.user]])
  /\ ~ returns (@Ethereum.unstake Sample.libraries Sample.healthy
                  Sample.ethConstants Sample.ethereum Sample.user "1"
                  (Some (-1)) None) [].
Proof.
  split; [lia |]. split; [vm_compute; reflexivity |].
  intros (tx & t' & Hret). vm_compute in Hret. discriminate.
Qed.

(** Witness of C10: without the parameter, [unstake] encodes an
    allowance of 0 and [simulateUnstake] submits an allowance of 1. *)
Lemma allowedInterchangeNum_defaults_differ_witness :
  @Ethereum.unstake Sample.libraries Sample.healthy Sample.ethConstants
    Sample.ethereum Sample.user "1" None None []
  = (inr {| Ethereum.from := Sample.user;
            Ethereum.to := "mainnet-pool";
            Ethereum.value := BigNumber.ofBigint 0;
            Ethereum.gasLimit := 241000;
            Ethereum.data := "unstake(1000000000000000000,0,0)" |},
     [EvReadContract (Ethereum.client Sample.ethereum) "mainnet-accounting"
        ABI_CONTRACT_ACCOUNTING "autocompoundBalanceOf" [AAddress Sample.user];
      EvEstimateGas (Ethereum.client Sample.ethereum) "mainnet-pool"
        "unstake(1000000000000000000,0,0)" Sample.user])
  /\ @Ethereum.simulateUnstake Sample.libraries Sample.healthy
       Sample.ethConstants Sample.ethereum Sample.user "1" None None []
     = (inr (Ethereum.fromWeiToEther 0),
        [EvReadContract (Ethereum.client Sample.ethereum) "mainnet-accounting"
           ABI_CONTRACT_ACCOUNTING "autocompoundBalanceOf"
           [AAddress Sample.user];
         EvSimulateContract (Ethereum.client Sample.ethereum) Sample.user
           "mainnet-pool" ABI_CONTRACT_POOL "unstake"
           [AUint Sample.ether; AUint 1; AUint 0]]).
Proof.
  pose proof (@allowedInterchangeNum_defaults_differ Sample.libraries
                Sample.healthy Sample.ethConstants Sample.ethereum Sample.user
                "1" None [])
    as (_ & _ & Hunstake & Hsimulate & _).
  split.
  - apply Hunstake. exists Sample.ether, 0, 21000.
    split; [exists (2 * Sample.ether); repeat split |].
    repeat split.
  - apply Hsimulate. exists Sample.ether, 0, 0.
    split; [exists (2 * Sample.ether); repeat split |].
    repeat split.
Defined.

(** C8 on the samples: the Berrachain [stake] adds its reserve of 50000
    to the estimate of 21000, and a number beyond the safe range does not
    hold every integer. *)
Example berrachain_stake_adds_reserve :
  fst (@Berrachain.stake Sample.libraries Sample.healthy Sample.beraConstants
         Sample.berrachain Sample.user "1" [])
  = inr {| Berrachain.from := Sample.user;
           Berrachain.to := "bgt-mainnet";
           Berrachain.value := BigNumber.ofBigint 0;
           Berrachain.gasLimit := 71000;
           Berrachain.data := "queueBoost(validator-mainnet,1000000000000000000)" |}.
Proof. vm_compute. reflexivity. Qed.

Example ofInteger_rounds_beyond_safe_range :
  Number.ofInteger (2 ^ 53 + 1) = 2 ^ 53
  /\ Number.ofInteger (2 ^ 53 + 3) = 2 ^ 53 + 4.
Proof. split; vm_compute; reflexivity. Qed.

(** Witness of C6: "0" is below both minimums and is refused before any
    call, by the Ethereum [stake] and by the Polygon [approve]. *)
Lemma minimum_amount_rejected_before_any_call_witness :
  @Ethereum.stake Sample.libraries Sample.healthy Sample.ethConstants
    Sample.ethereum Sample.user "0" None []
  = (inl (WalletSDKError "MIN_AMOUNT_ERROR" "Min amount is {0}"
            [PBigNumber (BigNumber.ofBigint (10 ^ 17))] None), [])
  /\ @Polygon.approve Sample.libraries Sample.healthy Sample.polygonConstants
       Sample.polygon Sample.user "0" None []
     = (inl (PlainError [PStr "Min Amount "; PUnits (10 ^ 18) 18;
                         PStr " matic"]), []).
Proof.
  pose proof (@minimum_amount_rejected_before_any_call Sample.libraries
                Sample.healthy Sample.ethConstants Sample.polygonConstants
                Sample.ethereum Sample.polygon Sample.user "0" None None [] 0
                eq_refl) as [Hstake Happrove].
  split.
  - apply (Hstake eq_refl eq_refl "Min amount is {0}"%string).
    vm_compute. reflexivity.
  - apply Happrove. vm_compute. reflexivity.
Defined.

(** Counterexample to C6 as stated: with an address that is not one,
    [stake] of the Ethereum adapter rejects an amount below the minimum
    with [ADDRESS_FORMAT_ERROR], not with the minimum-amount error. *)
Lemma stake_rejects_address_before_amount :
  @parseUnits Sample.libraries "0" 18 = Some 0
  /\ BigNumber.lt (BigNumber.ofBigint 0)
       (@Ethereum.ETH_MIN_AMOUNT Sample.ethConstants) = true
  /\ @Ethereum.stake Sample.libraries Sample.healthy Sample.ethConstants
       Sample.ethereum "" "0" None []
     = (inl (WalletSDKError "ADDRESS_FORMAT_ERROR" "Invalid address format"
               [] None), [])
  /\ codeOf (WalletSDKError "ADDRESS_FORMAT_ERROR" "Invalid address format"
               [] None) <> Some "MIN_AMOUNT_ERROR"%string.
Proof. repeat split; try (vm_compute; reflexivity). discriminate. Qed.

(** C7 on the samples: [goerli] names nothing on the sample table and is
    refused, after which the object can be moved to hoodi; [constructor]
    is no entry of the table either, and with a URL given it is accepted:
    the object comes back with its three addresses [undefined]. *)
Lemma selectNetwork_inherited_name_is_not_rejected_witness :
  @Ethereum.selectNetwork Sample.ethConstants "constructor"
    (Some "https://rpc.example"%string) (Ethereum.ofAdapter Sample.ethereum)
  = (inr {| Ethereum.object_addressContractWithdrawTreasury := None;
            Ethereum.object_contractAccounting :=
              {| Ethereum.object_abi := ABI_CONTRACT_ACCOUNTING;
                 Ethereum.object_address := None |};
            Ethereum.object_contractPool :=
              {| Ethereum.object_abi := ABI_CONTRACT_POOL;
                 Ethereum.object_address := None |};
            Ethereum.object_client :=
              createPublicClient (http "https://rpc.example" 1 300) |},
     {| Ethereum.object_addressContractWithdrawTreasury := None;
        Ethereum.object_contractAccounting :=
          {| Ethereum.object_abi := ABI_CONTRACT_ACCOUNTING;
             Ethereum.object_address := None |};
        Ethereum.object_contractPool :=
          {| Ethereum.object_abi := ABI_CONTRACT_POOL;
             Ethereum.object_address := None |};
        Ethereum.object_client :=
          createPublicClient (http "https://rpc.example" 1 300) |})
  /\ @Ethereum.selectNetwork Sample.ethConstants "goerli" None
       (Ethereum.ofAdapter Sample.ethereum)
     = (inl (WalletSDKError "NETWORK_NOT_SUPPORTED" "Unsupported network {0}"
               [PStr "goerli"] None), Ethereum.ofAdapter Sample.ethereum)
  /\ Ethereum.object_contractPool
       (snd (@Ethereum.selectNetwork Sample.ethConstants "hoodi" None
               (snd (@Ethereum.selectNetwork Sample.ethConstants "goerli" None
                       (Ethereum.ofAdapter Sample.ethereum)))))
     = {| Ethereum.object_abi := ABI_CONTRACT_POOL;
          Ethereum.object_address := Some "hoodi-pool"%string |}.
Proof.
  split; [| split].
  - refine (proj1 (proj2
              (@selectNetwork_inherited_name_is_not_rejected
                 Sample.ethConstants Sample.ethereum "constructor"
                 (Some "https://rpc.example"%string)
                 "Unsupported network {0}" eq_refl eq_refl) _)
              "https://rpc.example"%string eq_refl _).
    + cbn. tauto.
    + discriminate.
  - refine (proj1 (proj1
              (@selectNetwork_inherited_name_is_not_rejected
                 Sample.ethConstants Sample.ethereum "goerli" None
                 "Unsupported network {0}" eq_refl eq_refl) _)).
    cbn. intros H.
    repeat (destruct H as [H | H]; [discriminate H |]). exact H.
  - assert (Hnot : ~ In "goerli"%string Ethereum.inheritedNames).
    { cbn. intros H.
      repeat (destruct H as [H | H]; [discriminate H |]). exact H. }
    rewrite (proj2 (proj1
               (@selectNetwork_inherited_name_is_not_rejected
                  Sample.ethConstants Sample.ethereum "goerli" None
                  "Unsupported network {0}" eq_refl eq_refl) Hnot)
               "hoodi"%string None (Sample.ethAddresses "hoodi") eq_refl).
    reflexivity.
Defined.

(** Counterexample to C8 as stated: the transaction returned by [approve]
    of the Polygon adapter has the raw estimate, 21000, as gas limit. *)
Lemma polygon_approve_gasLimit_is_estimate :
  @rpc_estimateGas Sample.healthy (Polygon.client Sample.polygon)
    "matic-token" "approve(stake-manager,5000000000000000000)" Sample.user
  = inr 21000
  /\ fst (@Polygon.approve Sample.libraries Sample.healthy
            Sample.polygonConstants Sample.polygon Sample.user "5" None [])
     = inr {| Polygon.from := Sample.user;
              Polygon.to := "matic-token";
              Polygon.gasLimit := 21000;
              Polygon.data := "approve(stake-manager,5000000000000000000)" |}.
Proof. split; vm_compute; reflexivity. Qed.

(** C9, at an input where it fails: [claimUndelegate] on an unbond
    record that holds nothing exits with the plain error "Nothing to
    claim", which carries no code, of the adapter's vocabulary or other;
    the allowance check of [delegate], a validation of the same adapter,
    exits under the code [ALLOWANCE_ERR] of that vocabulary. *)
Lemma claimUndelegate_throws_uncoded_error :
  fst (@Polygon.claimUndelegate Sample.libraries Sample.nothingToClaim
         Sample.polygonConstants Sample.polygon Sample.user None None [])
  = inl (PlainError [PStr "Nothing to claim"])
  /\ codeOf (PlainError [PStr "Nothing to claim"]) = None
  /\ Blockchain.carriesKnownCode Sample.polygonErrors
       (PlainError [PStr "Nothing to claim"]) = false
  /\ fst (@Polygon.delegate Sample.libraries Scenario.delegator
            Sample.polygonConstants Sample.polygon "token" Sample.user "6"
            None [])
     = inl (WalletSDKError "ALLOWANCE_ERR" "Allowance less than amount" []
              None)
  /\ Blockchain.carriesKnownCode Sample.polygonErrors
       (WalletSDKError "ALLOWANCE_ERR" "Allowance less than amount" [] None)
     = true.
Proof.
  split; [vm_compute; reflexivity |].
  split; [reflexivity |].
  split; [vm_compute; reflexivity |].
  split; vm_compute; reflexivity.
Qed.

(** * Further properties of the adapters *)

(** ** The Polygon adapter: delegation *)

Section PolygonDelegation.
Context {L : Libraries} {W : World} {K : Polygon.Constants}.
Implicit Types (this : Polygon.t) (t : Trace).

Lemma receipt_not_found_cases {A} (kind : string) (a b : A) :
  match kind with
  | "TransactionReceiptNotFoundError"%string => a
  | _ => b
  end
  = if String.eqb kind "TransactionReceiptNotFoundError" then a else b.
Proof.
  repeat
    (destruct kind as [| [b0 b1 b2 b3 b4 b5 b6 b7] kind]; [reflexivity |];
     destruct b0; [| try reflexivity]; try reflexivity;
     destruct b1; try reflexivity;
     destruct b2; try reflexivity;
     destruct b3; try reflexivity;
     destruct b4; try reflexivity;
     destruct b5; try reflexivity;
     destruct b6; try reflexivity;
     destruct b7; try reflexivity).
Qed.


(** X1. [isTransactionLoading] asks for the receipt once. It resolves to
    [false] exactly when the receipt is found, and to [true] exactly when
    the lookup fails with [TransactionReceiptNotFoundError]; every other
    failure of the lookup makes the call fail. *)
Theorem isTransactionLoading_reports_missing_receipt this hash t loading t' :
  Polygon.isTransactionLoading this hash t = (inr loading, t') <->
  t' = t ++ [EvGetTransactionReceipt (Polygon.client this) hash]
  /\ rpc_getTransactionReceipt (Polygon.client this) hash
     = if loading then inl "TransactionReceiptNotFoundError"%string
       else inr tt.
Proof.
  unfold Polygon.isTransactionLoading, try_catch, bind, getTransactionReceipt,
    external.
  destruct (rpc_getTransactionReceipt _ _) as [kind | []].
  - rewrite receipt_not_found_cases.
    destruct (String.eqb_spec kind "TransactionReceiptNotFoundError")
      as [-> | Hne]; cbn [ret throw].
    + split.
      * intros H. injection H as <- <-. split; reflexivity.
      * intros [-> H]. destruct loading; [reflexivity | discriminate].
    + split.
      * intros H. exfalso. exact (handleError_never_returns _ _ _ _ _ _ H).
      * intros [_ H]. destruct loading; [congruence | discriminate].
  - split.
    + intros H. injection H as <- <-. split; reflexivity.
    + intros [-> H]. destruct loading; [discriminate | reflexivity].
Qed.

(** X2. [approve] returns a transaction exactly when [parseUnits] accepts
    the amount, the parsed amount is not below the minimum, the encoder
    accepts the spender and the amount, and the gas estimate of the
    encoded call is answered. The transaction goes from
    the given address to the POL token contract when [isPOL] is true and
    to the MATIC token contract otherwise; in both cases the approved
    spender is the staking contract, and the gas estimate is the only
    call made. *)
Theorem approve_returns_iff this address amount isPOL t tx t' :
  let token :=
    if default false isPOL then Polygon.contract_approve_pol this
    else Polygon.contract_approve this in
  Polygon.approve this address amount isPOL t = (inr tx, t') <->
  exists amountWei gas,
    let args := [AAddress Polygon.ADDRESS_CONTRACT_STAKING; AUint amountWei] in
    let data := encodeFunctionData (Contract.abi token) "approve" args in
    parseUnits amount 18 = Some amountWei
    /\ Polygon.MIN_AMOUNT <= amountWei
    /\ encodingError (Contract.abi token) "approve" args = None
    /\ rpc_estimateGas (Polygon.client this) (Contract.address token) data
         address = inr gas
    /\ tx = {| Polygon.from := address;
               Polygon.to := Contract.address token;
               Polygon.gasLimit := gas;
               Polygon.data := data |}
    /\ t' = t ++ [EvEstimateGas (Polygon.client this) (Contract.address token)
                    data address].
Proof.
  intros token. unfold Polygon.approve, bind, orThrow, BigNumber.isLessThan.
  fold token.
  destruct (parseUnits amount 18) as [amountWei |]; cbn [ret throw].
  2: { split; [discriminate | intros (? & ? & ? & _); discriminate]. }
  rewrite lt_bigint.
  destruct (Z.ltb_spec amountWei Polygon.MIN_AMOUNT) as [Hlt | Hge].
  { split; [discriminate |].
    intros (w & gas & Hw & Hmin & _). injection Hw as <-. lia. }
  split.
  - intros H. apply try_catch_inr_inv in H.
    apply bind_inr_inv in H as (data & t1 & Hdata & H).
    apply encode_inr_inv in Hdata as (Hok & -> & ->).
    apply polygon_getTransaction_inv in H as (gas & Hgas & -> & ->).
    exists amountWei, gas. repeat split; assumption.
  - intros (w & gas & Hw & _ & Hok & Hgas & -> & ->). injection Hw as <-.
    apply try_catch_returns. rewrite (encode_accepted _ _ _ _ Hok).
    unfold Polygon.getTransaction, bind, estimateGas, external.
    rewrite Hgas. reflexivity.
Qed.

Lemma getAllowance_inr_inv this owner isPOL spender t allowedAmount t' :
  let token :=
    if default false isPOL then Polygon.contract_approve_pol this
    else Polygon.contract_approve this in
  let args :=
    [AAddress owner; AAddress (default Polygon.ADDRESS_CONTRACT_STAKING spender)] in
  Polygon.getAllowance this owner isPOL spender t = (inr allowedAmount, t') ->
  readAnswer (Polygon.client this) token "allowance" args = inr [allowedAmount]
  /\ t' = t ++ [readEvent (Polygon.client this) token "allowance" args].
Proof.
  intros token args H. apply try_catch_inr_inv in H.
  apply bind_inr_inv in H as (result & t1 & Hread & Hsingle).
  apply external_inr_inv in Hread as [Hread ->].
  apply single_inr_inv in Hsingle as [-> ->].
  split; [exact Hread | reflexivity].
Qed.

Lemma getAllowance_returns this owner isPOL spender t allowedAmount :
  let token :=
    if default false isPOL then Polygon.contract_approve_pol this
    else Polygon.contract_approve this in
  let args :=
    [AAddress owner; AAddress (default Polygon.ADDRESS_CONTRACT_STAKING spender)] in
  readAnswer (Polygon.client this) token "allowance" args = inr [allowedAmount] ->
  Polygon.getAllowance this owner isPOL spender t
  = (inr allowedAmount,
     t ++ [readEvent (Polygon.client this) token "allowance" args]).
Proof.
  intros token args Hread. unfold readAnswer in Hread.
  unfold Polygon.getAllowance, try_catch, bind, readContract, external.
  fold token. fold args. rewrite Hread. reflexivity.
Qed.

(** X3. [delegate] returns a transaction exactly when the token is
    valid, [parseUnits] accepts the amount, the parsed amount is not below
    the minimum, the allowance read answers an allowance that is zero or
    not below the amount, the encoder accepts the amount, and the
    statistics call is answered. The
    allowance is that of the MATIC token contract for the staking
    contract, whatever [isPOL] is, and an allowance of zero passes the
    check. The transaction goes to the buy contract with the fixed
    delegate gas, encodes [buyVoucherPOL] or [buyVoucher] by [isPOL] on
    the parsed amount and 0, and the calls made are, in this order, the
    token check, the allowance read and the statistics call. *)
Theorem delegate_returns_iff this token address amount isPOL t tx t' :
  let allowance :=
    [AAddress address; AAddress Polygon.ADDRESS_CONTRACT_STAKING] in
  Polygon.delegate this token address amount isPOL t = (inr tx, t') <->
  exists amountWei allowedAmount,
    api_checkToken token = inr true
    /\ parseUnits amount 18 = Some amountWei
    /\ Polygon.MIN_AMOUNT <= amountWei
    /\ readAnswer (Polygon.client this) (Polygon.contract_approve this)
         "allowance" allowance = inr [allowedAmount]
    /\ (allowedAmount = 0 \/ amountWei <= allowedAmount)
    /\ encodingError (Contract.abi (Polygon.contract_buy this))
         (if default false isPOL then "buyVoucherPOL" else "buyVoucher")
         [AUint amountWei; AUint 0] = None
    /\ api_setStats token "stake" amount address Polygon.CHAIN = inr tt
    /\ tx = {| Polygon.from := address;
               Polygon.to := Polygon.ADDRESS_CONTRACT_BUY;
               Polygon.gasLimit := Polygon.DELEGATE_BASE_GAS;
               Polygon.data :=
                 encodeFunctionData (Contract.abi (Polygon.contract_buy this))
                   (if default false isPOL then "buyVoucherPOL"
                    else "buyVoucher")
                   [AUint amountWei; AUint 0] |}
    /\ t' = t ++ [EvCheckToken token;
                  readEvent (Polygon.client this) (Polygon.contract_approve this)
                    "allowance" allowance;
                  EvSetStats token "stake" amount address Polygon.CHAIN].
Proof.
  intros allowance. unfold Polygon.delegate.
  unfold bind at 1. unfold CheckToken, external.
  destruct (api_checkToken token) as [kind | [|]].
  1: { split; [discriminate | intros (? & ? & ? & _); discriminate]. }
  2: { split; [discriminate | intros (? & ? & ? & _); discriminate]. }
  unfold bind at 1. unfold orThrow.
  destruct (parseUnits amount 18) as [amountWei |]; cbn [ret throw].
  2: { split; [discriminate | intros (? & ? & _ & ? & _); discriminate]. }
  unfold BigNumber.isLessThan. rewrite !lt_bigint.
  destruct (Z.ltb_spec amountWei Polygon.MIN_AMOUNT) as [Hlt | Hge].
  { split; [discriminate |].
    intros (w & a & _ & Hw & Hmin & _). injection Hw as <-. lia. }
  split.
  - intros H. apply try_catch_inr_inv in H.
    apply bind_inr_inv in H as (allowedAmount & t1 & Hallow & H).
    apply getAllowance_inr_inv in Hallow as [Hallow ->].
    cbn [from_option id] in Hallow.
    destruct (Z.eqb_spec allowedAmount 0) as [Hz | Hnz]; cbn [negb andb] in H.
    + apply bind_inr_inv in H as (data & t1 & Hdata & H).
      apply encode_inr_inv in Hdata as (Hok & -> & ->).
      apply bind_inr_inv in H as ([] & t2 & Hstats & H).
      apply external_inr_inv in Hstats as [Hstats ->].
      injection H as <- <-.
      exists amountWei, allowedAmount. rewrite <- !app_assoc.
      repeat split; try assumption. left. exact Hz.
    + rewrite lt_bigint in H.
      destruct (Z.ltb_spec allowedAmount amountWei) as [Hlow | Hok].
      { exfalso. exact (throwError_never_returns _ _ _ _ _ _ H). }
      apply bind_inr_inv in H as (data & t1 & Hdata & H).
      apply encode_inr_inv in Hdata as (Henc & -> & ->).
      apply bind_inr_inv in H as ([] & t2 & Hstats & H).
      apply external_inr_inv in Hstats as [Hstats ->].
      injection H as <- <-.
      exists amountWei, allowedAmount. rewrite <- !app_assoc.
      repeat split; try assumption. right. exact Hok.
  - intros (w & allowedAmount & _ & Hw & _ & Hallow & Hcheck & Henc & Hstats
            & -> & ->).
    injection Hw as <-. apply try_catch_returns. unfold bind at 1.
    rewrite (getAllowance_returns this address None None _ allowedAmount Hallow).
    rewrite lt_bigint.
    assert (negb (allowedAmount =? 0) && (allowedAmount <? amountWei) = false)
      as ->.
    { destruct Hcheck as [-> | Hok]; [reflexivity |].
      apply andb_false_iff. right. apply Z.ltb_ge. exact Hok. }
    unfold bind at 1. rewrite (encode_accepted _ _ _ _ Henc).
    unfold bind, SetStats, external. rewrite Hstats.
    rewrite <- !app_assoc. reflexivity.
Qed.

(** X4. With a token that the API answers to be invalid, [delegate] and
    [undelegate] fail with the plain token error right after the token
    check: the amount is not parsed, nothing is read from the chain and no
    statistics are sent. *)
Theorem invalid_token_stops_delegation this token address amount isPOL t :
  api_checkToken token = inr false ->
  Polygon.delegate this token address amount isPOL t
  = (inl (PlainError [PStr Polygon.TOKEN_ERROR]), t ++ [EvCheckToken token])
  /\ Polygon.undelegate this token address amount isPOL t
     = (inl (PlainError [PStr Polygon.TOKEN_ERROR]), t ++ [EvCheckToken token]).
Proof.
  intros Htoken.
  unfold Polygon.delegate, Polygon.undelegate, bind, CheckToken, external.
  rewrite Htoken. split; reflexivity.
Qed.

(** X5. [undelegate] returns a transaction exactly when the token is
    valid, [parseUnits] accepts the amount, the delegated stake is read,
    the stake in token units is not less than the amount read as a
    decimal, the encoder accepts the amount, and the statistics call is
    answered; there is no minimum
    amount. The transaction goes to the buy contract with the fixed
    undelegate gas and encodes [sellVoucher_newPOL] or [sellVoucher_new]
    by [isPOL], with the parsed amount both as the claim and as the
    maximum of shares to burn. *)
Theorem undelegate_returns_iff this token address amount isPOL t tx t' :
  Polygon.undelegate this token address amount isPOL t = (inr tx, t') <->
  exists amountWei delegated rest,
    api_checkToken token = inr true
    /\ parseUnits amount 18 = Some amountWei
    /\ readAnswer (Polygon.client this) (Polygon.contract_buy this)
         "getTotalStake" [AAddress address] = inr (delegated :: rest)
    /\ BigNumber.isLessThan (Polygon.fromUnits delegated)
         (BigNumber_ofString amount) = false
    /\ encodingError (Contract.abi (Polygon.contract_buy this))
         (if default false isPOL then "sellVoucher_newPOL"
          else "sellVoucher_new")
         [AUint amountWei; AUint amountWei] = None
    /\ api_setStats token "unstake" amount address Polygon.CHAIN = inr tt
    /\ tx = {| Polygon.from := address;
               Polygon.to := Polygon.ADDRESS_CONTRACT_BUY;
               Polygon.gasLimit := Polygon.UNDELEGATE_BASE_GAS;
               Polygon.data :=
                 encodeFunctionData (Contract.abi (Polygon.contract_buy this))
                   (if default false isPOL then "sellVoucher_newPOL"
                    else "sellVoucher_new")
                   [AUint amountWei; AUint amountWei] |}
    /\ t' = t ++ [EvCheckToken token;
                  readEvent (Polygon.client this) (Polygon.contract_buy this)
                    "getTotalStake" [AAddress address];
                  EvSetStats token "unstake" amount address Polygon.CHAIN].
Proof.
  unfold Polygon.undelegate.
  unfold bind at 1. unfold CheckToken, external.
  destruct (api_checkToken token) as [kind | [|]].
  1: { split; [discriminate | intros (? & ? & ? & ? & _); discriminate]. }
  2: { split; [discriminate | intros (? & ? & ? & ? & _); discriminate]. }
  split.
  - intros H. apply try_catch_inr_inv in H.
    apply bind_inr_inv in H as (amountWei & t1 & Hparse & H).
    apply orThrow_inr_inv in Hparse as [Hparse ->].
    apply bind_inr_inv in H as (delegatedBalance & t1 & Htotal & H).
    apply try_catch_inr_inv in Htotal.
    apply bind_inr_inv in Htotal as (results & t2 & Hread & Htotal).
    apply external_inr_inv in Hread as [Hread ->].
    destruct results as [| delegated rest]; [discriminate |].
    injection Htotal as <- <-.
    destruct (BigNumber.isLessThan _ _) eqn:Hless.
    { exfalso. exact (throwError_never_returns _ _ _ _ _ _ H). }
    apply bind_inr_inv in H as (data & t2 & Hdata & H).
    apply encode_inr_inv in Hdata as (Henc & -> & ->).
    apply bind_inr_inv in H as ([] & t2 & Hstats & H).
    apply external_inr_inv in Hstats as [Hstats ->].
    injection H as <- <-.
    exists amountWei, delegated, rest. rewrite <- !app_assoc.
    repeat split; assumption.
  - intros (amountWei & delegated & rest & _ & Hparse & Hread & Hless & Henc
            & Hstats & -> & ->).
    apply try_catch_returns. unfold readAnswer in Hread.
    unfold bind at 1. unfold orThrow. rewrite Hparse. cbn [ret].
    unfold bind at 1.
    unfold Polygon.getTotalDelegate, try_catch, bind, readContract, external.
    rewrite Hread. cbn [ret]. rewrite Hless.
    unfold encode. rewrite Henc. cbn [ret].
    unfold SetStats, external. rewrite Hstats.
    rewrite <- !app_assoc. reflexivity.
Qed.

Lemma getUnbondNonces_inr_inv this address t latest t' :
  Polygon.getUnbondNonces this address t = (inr latest, t') ->
  readAnswer (Polygon.client this) (Polygon.contract_buy this)
    "unbondNonces" [AAddress address] = inr [latest]
  /\ t' = t ++ [readEvent (Polygon.client this) (Polygon.contract_buy this)
                  "unbondNonces" [AAddress address]].
Proof.
  intros H. apply try_catch_inr_inv in H.
  apply bind_inr_inv in H as (result & t1 & Hread & Hsingle).
  apply external_inr_inv in Hread as [Hread ->].
  apply single_inr_inv in Hsingle as [-> ->].
  split; [exact Hread | reflexivity].
Qed.

(** X6. [getUnbond] returns exactly when both of its reads answer: the
    latest unbond nonce of the address, which is read first whether or
    not a nonce is given, and the unbond record of the resolved nonce,
    which is the given nonce unless that is absent or 0, and then the
    latest. The record returned holds the amount in token units, the
    withdraw epoch as read, and the resolved nonce. *)
Theorem getUnbond_returns_iff this address unbondNonce t info t' :
  Polygon.getUnbond this address unbondNonce t = (inr info, t') <->
  exists latest res0 res1 rest,
    let nonce :=
      if default 0 unbondNonce =? 0 then latest else default 0 unbondNonce in
    readAnswer (Polygon.client this) (Polygon.contract_buy this)
      "unbondNonces" [AAddress address] = inr [latest]
    /\ readAnswer (Polygon.client this) (Polygon.contract_buy this)
         "unbonds_new" [AAddress address; AUint nonce]
       = inr (res0 :: res1 :: rest)
    /\ info = {| Polygon.amount := Polygon.fromUnits res0;
                 Polygon.withdrawEpoch := res1;
                 Polygon.unbondNonces := nonce |}
    /\ t' = t ++ [readEvent (Polygon.client this) (Polygon.contract_buy this)
                    "unbondNonces" [AAddress address];
                  readEvent (Polygon.client this) (Polygon.contract_buy this)
                    "unbonds_new" [AAddress address; AUint nonce]].
Proof.
  split.
  - intros H. apply try_catch_inr_inv in H.
    apply bind_inr_inv in H as (latest & t1 & Hlatest & H).
    apply getUnbondNonces_inr_inv in Hlatest as [Hlatest ->].
    apply bind_inr_inv in H as (result & t2 & Hread & H).
    apply external_inr_inv in Hread as [Hread ->].
    destruct result as [| res0 [| res1 rest]]; try discriminate.
    injection H as <- <-.
    exists latest, res0, res1, rest. rewrite <- !app_assoc.
    repeat split; assumption.
  - intros (latest & res0 & res1 & rest & Hlatest & Hread & -> & ->).
    unfold readAnswer in Hread.
    unfold Polygon.getUnbond, try_catch. unfold bind at 1.
    rewrite (getUnbondNonces_returns _ _ _ _ Hlatest).
    unfold bind, readContract, external. rewrite Hread.
    rewrite <- app_assoc. reflexivity.
Qed.

(** X7. A failure of [getUnbond] names the read that failed: when the
    read of the latest nonce fails the error carries
    [GET_UNBOND_NONCE_ERR], which the outer handler of [getUnbond] lets
    through, and the unbond record is not asked for; when the read of the
    record fails the error carries [GET_UNBOND_ERR]. In both cases the
    failure of the read is kept as the cause. *)
Theorem getUnbond_failure_names_the_failed_read
    this address unbondNonce t nonceTemplate unbondTemplate :
  Polygon.ERROR_MESSAGES !! "GET_UNBOND_NONCE_ERR"%string = Some nonceTemplate ->
  Polygon.ERROR_MESSAGES !! "GET_UNBOND_ERR"%string = Some unbondTemplate ->
  let nonces :=
    readEvent (Polygon.client this) (Polygon.contract_buy this)
      "unbondNonces" [AAddress address] in
  (forall kind,
     readAnswer (Polygon.client this) (Polygon.contract_buy this)
       "unbondNonces" [AAddress address] = inl kind ->
     Polygon.getUnbond this address unbondNonce t
     = (inl (WalletSDKError "GET_UNBOND_NONCE_ERR" nonceTemplate []
               (Some (Thrown kind))), t ++ [nonces]))
  /\ (forall latest kind,
        let nonce :=
          if default 0 unbondNonce =? 0 then latest
          else default 0 unbondNonce in
        readAnswer (Polygon.client this) (Polygon.contract_buy this)
          "unbondNonces" [AAddress address] = inr [latest] ->
        readAnswer (Polygon.client this) (Polygon.contract_buy this)
          "unbonds_new" [AAddress address; AUint nonce] = inl kind ->
        Polygon.getUnbond this address unbondNonce t
        = (inl (WalletSDKError "GET_UNBOND_ERR" unbondTemplate []
                  (Some (Thrown kind))),
           t ++ [nonces;
                 readEvent (Polygon.client this) (Polygon.contract_buy this)
                   "unbonds_new" [AAddress address; AUint nonce]])).
Proof.
  intros Hnonce Hunbond nonces. split.
  - intros kind Hread. unfold readAnswer in Hread.
    unfold Polygon.getUnbond. apply try_catch_passes_known.
    + unfold bind at 1. unfold Polygon.getUnbondNonces, Polygon.handleError.
      erewrite try_catch_wraps_thrown; [reflexivity | | exact Hnonce].
      unfold bind, readContract, external. rewrite Hread. reflexivity.
    + apply carriesKnownCode_wrapped, Hnonce.
  - intros latest kind nonce Hlatest Hread. unfold readAnswer in Hread.
    unfold Polygon.getUnbond, Polygon.handleError.
    erewrite try_catch_wraps_thrown; [| | exact Hunbond].
    + reflexivity.
    + unfold bind at 1. rewrite (getUnbondNonces_returns _ _ _ _ Hlatest).
      unfold bind, readContract, external. fold nonce. rewrite Hread.
      rewrite <- app_assoc. reflexivity.
Qed.

End PolygonDelegation.

(** ** The Ethereum adapter: address validation, reads, builders *)

Section EthereumExtras.
Context {L : Libraries} {W : World} {K : Ethereum.Constants}.
Implicit Types (this : Ethereum.t) (t : Trace).

Lemma eth_try_rejects_address {A} (m : Eff Trace A) wrap address template t :
  isAddress address = false ->
  Ethereum.ERROR_MESSAGES !! "ADDRESS_FORMAT_ERROR"%string = Some template ->
  try_catch
    (if negb (isAddress address) then
       Ethereum.throwError "ADDRESS_FORMAT_ERROR" []
     else m)
    (Ethereum.handleError wrap) t
  = (inl (WalletSDKError "ADDRESS_FORMAT_ERROR" template [] None), t).
Proof.
  intros Haddr Hcode. unfold try_catch. rewrite Haddr. cbn [negb].
  rewrite (eth_throwError_known _ _ _ _ Hcode).
  apply eth_handleError_rethrows, Hcode.
Qed.

Lemma forget_throws {S A} (m : Eff S A) e (s s' : S) :
  m s = (inl e, s') -> forget m s = (inl e, s').
Proof. intros H. unfold forget, bind. rewrite H. reflexivity. Qed.

(** X8. Every method of the Ethereum adapter that validates the user's
    address (the six per-address reads, the withdraw-request read, the six
    transaction builders and the unstake simulation) fails on an address
    that [isAddress] refuses with [ADDRESS_FORMAT_ERROR], under that code
    whatever the method's own code is, and without any call to the
    endpoint. *)
Theorem malformed_address_is_rejected_before_any_call
    this call address t template :
  isAddress address = false ->
  Ethereum.ERROR_MESSAGES !! "ADDRESS_FORMAT_ERROR"%string = Some template ->
  runEthAddressed this call address t
  = (inl (WalletSDKError "ADDRESS_FORMAT_ERROR" template [] None), t).
Proof.
  intros Haddr Hcode.
  destruct call; cbn [runEthAddressed]; apply forget_throws;
    try (apply eth_try_rejects_address; assumption).
  - unfold Ethereum.stake. rewrite Haddr. cbn [negb].
    apply eth_throwError_known, Hcode.
  - unfold Ethereum.unstake. rewrite Haddr. cbn [negb].
    apply eth_throwError_known, Hcode.
  - unfold Ethereum.unstakePending. rewrite Haddr. cbn [negb].
    apply eth_throwError_known, Hcode.
Qed.

(** X9. Each pool-wide read of the Ethereum adapter ([balance],
    [pendingBalance], [pendingDepositedBalance], [pendingRestakedRewards],
    [readyforAutocompoundRewardsAmount] on the accounting contract,
    [minStakeAmount] on the pool contract) makes one read of the function
    of its own name, returns exactly when that read answers and then the
    answer converted from wei to ether, and otherwise fails under its own
    code with the failure of the read as the cause. *)
Theorem pool_read_outcomes this read t :
  let contract := poolReadContract this read in
  let ev :=
    readEvent (Ethereum.client this) contract (poolReadFunction read) [] in
  (forall v t',
     runEthPoolRead this read t = (inr v, t') <->
     exists result,
       readAnswer (Ethereum.client this) contract (poolReadFunction read) []
       = inr [result]
       /\ v = Ethereum.fromWeiToEther result /\ t' = t ++ [ev])
  /\ (forall kind template,
        readAnswer (Ethereum.client this) contract (poolReadFunction read) []
        = inl kind ->
        Ethereum.ERROR_MESSAGES !! poolReadCode read = Some template ->
        runEthPoolRead this read t
        = (inl (WalletSDKError (poolReadCode read) template []
                  (Some (Thrown kind))), t ++ [ev])).
Proof.
  intros contract ev. split.
  - intros v t'. split.
    + intros H.
      assert (Hbody :
        (await result :=
           readContract (Ethereum.client this) (Contract.address contract)
             (Contract.abi contract) (poolReadFunction read) [] in
         await result := single result in
         ret (Ethereum.fromWeiToEther result)) t = (inr v, t')).
      { destruct read; exact (try_catch_inr_inv _ _ _ _ _ _ H). }
      apply bind_inr_inv in Hbody as (result & t1 & Hread & Hbody).
      apply external_inr_inv in Hread as [Hread ->].
      apply bind_inr_inv in Hbody as (r & t2 & Hsingle & Hbody).
      apply single_inr_inv in Hsingle as [-> ->].
      injection Hbody as <- <-. exists r. repeat split. exact Hread.
    + intros (result & Hread & -> & ->). unfold readAnswer in Hread.
      destruct read; cbn [runEthPoolRead];
        apply try_catch_returns; unfold bind, readContract, external;
        cbn [poolReadFunction poolReadContract] in *; subst contract;
        rewrite Hread; reflexivity.
  - intros kind template Hread Hcode. unfold readAnswer in Hread.
    destruct read; cbn [runEthPoolRead poolReadCode] in *;
      apply try_catch_wraps_thrown; try exact Hcode;
      unfold bind, readContract, external;
      cbn [poolReadFunction poolReadContract] in *; subst contract;
      rewrite Hread; reflexivity.
Qed.

Lemma readyforAutocompoundRewardsAmount_inr_inv this t rewards t' :
  Ethereum.readyforAutocompoundRewardsAmount this t = (inr rewards, t') ->
  exists result,
    readAnswer (Ethereum.client this) (Ethereum.contractAccounting this)
      "readyforAutocompoundRewardsAmount" [] = inr [result]
    /\ rewards = Ethereum.fromWeiToEther result
    /\ t' = t ++ [readEvent (Ethereum.client this)
                    (Ethereum.contractAccounting this)
                    "readyforAutocompoundRewardsAmount" []].
Proof.
  intros H. apply try_catch_inr_inv in H.
  apply bind_inr_inv in H as (result & t1 & Hread & H).
  apply external_inr_inv in Hread as [Hread ->].
  apply bind_inr_inv in H as (r & t2 & Hsingle & H).
  apply single_inr_inv in Hsingle as [-> ->].
  injection H as <- <-. exists r. repeat split. exact Hread.
Qed.

(** X10. [autocompound] returns a transaction exactly when the address is
    valid, the read of the rewards ready for autocompound answers an
    amount that is not zero, and the gas estimate of the encoded call is
    answered. The transaction goes from the address to the accounting
    contract, carries no ether, and the calls made are the read and the
    gas estimate. *)
Theorem autocompound_returns_iff this address t tx t' :
  let accounting := Ethereum.contractAccounting this in
  let data := encodeFunctionData (Contract.abi accounting) "autocompound" [] in
  Ethereum.autocompound this address t = (inr tx, t') <->
  exists rewards gas,
    isAddress address = true
    /\ readAnswer (Ethereum.client this) accounting
         "readyforAutocompoundRewardsAmount" [] = inr [rewards]
    /\ rewards <> 0
    /\ rpc_estimateGas (Ethereum.client this) (Contract.address accounting)
         data address = inr gas
    /\ tx = {| Ethereum.from := address;
               Ethereum.to := Contract.address accounting;
               Ethereum.value := BigNumber.ofBigint 0;
               Ethereum.gasLimit := Ethereum.calculateGasLimit gas;
               Ethereum.data := data |}
    /\ t' = t ++ [readEvent (Ethereum.client this) accounting
                    "readyforAutocompoundRewardsAmount" [];
                  EvEstimateGas (Ethereum.client this)
                    (Contract.address accounting) data address].
Proof.
  intros accounting data. subst accounting data. split.
  - intros H. apply try_catch_inr_inv in H.
    destruct (isAddress address) eqn:Haddr; cbn [negb] in H.
    2: { exfalso. exact (throwError_never_returns _ _ _ _ _ _ H). }
    apply bind_inr_inv in H as (rewards & t1 & Hrewards & H).
    apply readyforAutocompoundRewardsAmount_inr_inv in Hrewards
      as (result & Hread & -> & ->).
    unfold Ethereum.fromWeiToEther in H. rewrite isZero_wei in H.
    destruct (Z.eqb_spec result 0) as [Hz | Hnz].
    { exfalso. exact (throwError_never_returns _ _ _ _ _ _ H). }
    apply eth_getTransaction_inv in H as (gas & Hgas & -> & ->).
    exists result, gas. rewrite <- app_assoc. repeat split; assumption.
  - intros (rewards & gas & Haddr & Hread & Hnz & Hgas & -> & ->).
    unfold readAnswer in Hread. apply try_catch_returns.
    rewrite Haddr. cbn [negb]. unfold bind at 1.
    unfold Ethereum.readyforAutocompoundRewardsAmount, try_catch, bind,
      readContract, external.
    rewrite Hread. cbn [single ret].
    unfold Ethereum.fromWeiToEther. rewrite isZero_wei.
    destruct (Z.eqb_spec rewards 0) as [? | _]; [contradiction |].
    rewrite (eth_getTransaction_returns _ _ _ _ _ _ gas Hgas).
    rewrite <- app_assoc. reflexivity.
Qed.

(** X11. [simulateUnstake] returns exactly when the address is valid,
    the autocompound balance is read and is not less than the amount,
    [parseUnits] accepts the amount, [BigInt] accepts the source and the
    simulation of the [unstake] call is answered; the value returned is
    the answer of the simulation converted from wei to ether. The
    allowed number of interchanges defaults to 1 and is capped as in
    [unstake]. The calls made are the balance read and the simulation: no
    gas is estimated. *)
Theorem simulateUnstake_returns_iff
    this address amount allowedInterchangeNum source t v t' :
  let pool := Ethereum.contractPool this in
  let balanceRead :=
    readEvent (Ethereum.client this) (Ethereum.contractAccounting this)
      "autocompoundBalanceOf" [AAddress address] in
  Ethereum.simulateUnstake this address amount allowedInterchangeNum source t
  = (inr v, t') <->
  exists balance amountWei sourceId result,
    let args :=
      [AUint amountWei;
       AUint (Z.min (default 1 allowedInterchangeNum) 65535);
       AUint sourceId] in
    isAddress address = true
    /\ readAnswer (Ethereum.client this) (Ethereum.contractAccounting this)
         "autocompoundBalanceOf" [AAddress address] = inr [balance]
    /\ BigNumber.lt (Ethereum.fromWeiToEther balance)
         (BigNumber_ofString amount) = false
    /\ parseUnits amount 18 = Some amountWei
    /\ BigInt_ofString (default "0"%string source) = Some sourceId
    /\ rpc_simulateContract (Ethereum.client this) address
         (Contract.address pool) (Contract.abi pool) "unstake" args
       = inr result
    /\ v = Ethereum.fromWeiToEther result
    /\ t' = t ++ [balanceRead;
                  EvSimulateContract (Ethereum.client this) address
                    (Contract.address pool) (Contract.abi pool) "unstake" args].
Proof.
  intros pool balanceRead. subst pool balanceRead. split.
  - intros H. apply try_catch_inr_inv in H.
    destruct (isAddress address) eqn:Haddr; cbn [negb] in H.
    2: { exfalso. exact (throwError_never_returns _ _ _ _ _ _ H). }
    apply bind_inr_inv in H as (balance & t1 & Hbalance & H).
    apply autocompoundBalanceOf_inr_inv in Hbalance
      as (b & _ & Hread & -> & ->).
    destruct (BigNumber.lt _ _) eqn:Hlt.
    { exfalso. exact (throwError_never_returns _ _ _ _ _ _ H). }
    apply bind_inr_inv in H as (amountWei & t1 & Hparse & H).
    apply orThrow_inr_inv in Hparse as [Hparse ->].
    apply bind_inr_inv in H as (sourceId & t1 & Hsource & H).
    apply orThrow_inr_inv in Hsource as [Hsource ->].
    apply bind_inr_inv in H as (result & t1 & Hsim & H).
    apply external_inr_inv in Hsim as [Hsim ->].
    injection H as <- <-. rewrite clampInterchangeNum_min in *.
    exists b, amountWei, sourceId, result. rewrite <- app_assoc.
    repeat split; assumption.
  - intros (balance & amountWei & sourceId & result & Haddr & Hread & Hlt
            & Hparse & Hsource & Hsim & -> & ->).
    apply try_catch_returns. rewrite Haddr. cbn [negb]. unfold bind at 1.
    rewrite (autocompoundBalanceOf_returns _ _ _ _ Haddr Hread).
    rewrite Hlt. unfold bind, orThrow. rewrite Hparse, Hsource. cbn [ret].
    unfold simulateContract, external. rewrite clampInterchangeNum_min.
    rewrite Hsim. rewrite <- app_assoc. reflexivity.
Qed.

(** X12. [stake] returns a transaction exactly when the address is
    valid, [parseUnits] accepts the amount, the parsed amount is not less
    than the minimum, [BigInt] accepts the source, the encoder accepts
    the source identifier, and the gas estimate of the encoded call is
    answered. The transaction goes from the address
    to the pool contract and carries the parsed amount as its value; the
    gas estimate is the only call made. *)
Theorem stake_returns_iff this address amount source t tx t' :
  let pool := Ethereum.contractPool this in
  Ethereum.stake this address amount source t = (inr tx, t') <->
  exists amountWei sourceId gas,
    let data :=
      encodeFunctionData (Contract.abi pool) "stake" [AUint sourceId] in
    isAddress address = true
    /\ parseUnits amount 18 = Some amountWei
    /\ BigNumber.lt (BigNumber.ofBigint amountWei) Ethereum.ETH_MIN_AMOUNT
       = false
    /\ BigInt_ofString (default "0"%string source) = Some sourceId
    /\ encodingError (Contract.abi pool) "stake" [AUint sourceId] = None
    /\ rpc_estimateGas (Ethereum.client this) (Contract.address pool) data
         address = inr gas
    /\ tx = {| Ethereum.from := address;
               Ethereum.to := Contract.address pool;
               Ethereum.value := BigNumber.ofBigint amountWei;
               Ethereum.gasLimit := Ethereum.calculateGasLimit gas;
               Ethereum.data := data |}
    /\ t' = t ++ [EvEstimateGas (Ethereum.client this) (Contract.address pool)
                    data address].
Proof.
  intros pool. subst pool. split.
  - intros H. unfold Ethereum.stake in H.
    destruct (isAddress address) eqn:Haddr; cbn [negb] in H.
    2: { exfalso. exact (throwError_never_returns _ _ _ _ _ _ H). }
    apply bind_inr_inv in H as (amountWei & t1 & Hparse & H).
    apply orThrow_inr_inv in Hparse as [Hparse ->].
    unfold Ethereum.minAmount in H.
    destruct (BigNumber.lt _ _) eqn:Hlt.
    { exfalso. exact (throwError_never_returns _ _ _ _ _ _ H). }
    apply try_catch_inr_inv in H.
    apply bind_inr_inv in H as (sourceId & t1 & Hsource & H).
    apply orThrow_inr_inv in Hsource as [Hsource ->].
    apply bind_inr_inv in H as (data & t1 & Hdata & H).
    apply encode_inr_inv in Hdata as (Henc & -> & ->).
    apply eth_getTransaction_inv in H as (gas & Hgas & -> & ->).
    exists amountWei, sourceId, gas. repeat split; assumption.
  - intros (amountWei & sourceId & gas & Haddr & Hparse & Hlt & Hsource & Henc
            & Hgas & -> & ->).
    unfold Ethereum.stake. rewrite Haddr. cbn [negb].
    unfold bind at 1. unfold orThrow at 1. rewrite Hparse. cbn [ret].
    unfold Ethereum.minAmount. rewrite Hlt.
    apply try_catch_returns. unfold bind, orThrow. rewrite Hsource. cbn [ret].
    rewrite (encode_accepted _ _ _ _ Henc).
    rewrite (eth_getTransaction_returns _ _ _ _
               (Some (BigNumber.ofBigint amountWei)) _ gas Hgas).
    reflexivity.
Qed.

(** X13. An amount that [parseUnits] refuses: [stake] lets the error of
    the library through as it is, carrying no code of the SDK, and before
    any call; [unstake], once the balance is read and does not rule the
    amount out, fails under [UNSTAKE_ERROR] with the error of the
    library as the cause. *)
Theorem malformed_amount_raw_in_stake_wrapped_in_unstake
    this address amount allowedInterchangeNum source t balance template :
  isAddress address = true ->
  parseUnits amount 18 = None ->
  readAnswer (Ethereum.client this) (Ethereum.contractAccounting this)
    "autocompoundBalanceOf" [AAddress address] = inr [balance] ->
  BigNumber.lt (Ethereum.fromWeiToEther balance) (BigNumber_ofString amount)
  = false ->
  Ethereum.ERROR_MESSAGES !! "UNSTAKE_ERROR"%string = Some template ->
  Ethereum.stake this address amount source t
  = (inl (Thrown "InvalidDecimalNumberError"), t)
  /\ Ethereum.unstake this address amount allowedInterchangeNum source t
     = (inl (WalletSDKError "UNSTAKE_ERROR" template []
               (Some (Thrown "InvalidDecimalNumberError"))),
        t ++ [readEvent (Ethereum.client this)
                (Ethereum.contractAccounting this)
                "autocompoundBalanceOf" [AAddress address]]).
Proof.
  intros Haddr Hparse Hread Hlt Hcode. split.
  - unfold Ethereum.stake, bind, orThrow. rewrite Haddr, Hparse. reflexivity.
  - unfold Ethereum.unstake. rewrite Haddr. cbn [negb].
    apply try_catch_wraps_thrown; [| exact Hcode].
    unfold bind at 1.
    rewrite (autocompoundBalanceOf_returns _ _ _ _ Haddr Hread).
    rewrite Hlt. unfold bind, orThrow. rewrite Hparse. reflexivity.
Qed.

End EthereumExtras.

(** ** Transactions as they leave the adapters *)

Section Envelopes.
Context {L : Libraries} {W : World}.
Context {KE : Ethereum.Constants} {KB : Berrachain.Constants}
        {KP : Polygon.Constants}.

(** X14. A transaction returned by a builder of the Ethereum adapter is
    sent from the address the call was made for, which [isAddress]
    accepts, to the accounting contract for [autocompound] and
    [claimWithdrawRequest] and to the pool contract for the other four;
    it carries ether only when it comes from [stake], and then the
    parsed amount. *)
Theorem eth_transaction_envelope (this : Ethereum.t) op :
  onReturn (runEth this op)
    (fun tx _ =>
       Ethereum.from tx = ethOperationAddress op
       /\ isAddress (Ethereum.from tx) = true
       /\ Ethereum.to tx = Contract.address (ethOperationContract this op)
       /\ match op with
          | EthStake _ amount _ =>
              exists amountWei,
                parseUnits amount 18 = Some amountWei
                /\ Ethereum.value tx = BigNumber.ofBigint amountWei
          | _ => Ethereum.value tx = BigNumber.ofBigint 0
          end).
Proof.
  assert (Hbuild : forall data address contractAddress value (Q : Prop),
    (isAddress address = true /\ Q) ->
    onReturn (Ethereum.getTransaction this data address contractAddress value)
      (fun tx _ =>
         Ethereum.from tx = address
         /\ isAddress (Ethereum.from tx) = true
         /\ Ethereum.to tx = contractAddress
         /\ Ethereum.value tx = default (BigNumber.ofBigint 0) value /\ Q)).
  { intros data address contractAddress value Q [Haddr HQ] t tx t' Hret.
    apply eth_getTransaction_inv in Hret as (gas & _ & -> & _).
    cbn. repeat split; assumption. }
  assert (Hweaken : forall (m : Eff Trace Ethereum.EthTransaction)
                           (P Q : Ethereum.EthTransaction -> Trace -> Prop),
    (forall tx t, P tx t -> Q tx t) -> onReturn m P -> onReturn m Q).
  { intros m P Q HPQ Hm s a s' H. apply HPQ. exact (Hm _ _ _ H). }
  destruct op; cbn [runEth ethOperationAddress ethOperationContract].
  - unfold Ethereum.autocompound.
    apply onReturn_try; [| intros; apply onReturn_handleError].
    destruct (isAddress address) eqn:Haddr; cbn [negb];
      [| apply onReturn_throwError].
    apply onReturn_bind; intros rewards.
    destruct (BigNumber.isZero _); [apply onReturn_throwError |].
    eapply Hweaken; [| apply (Hbuild _ _ _ _ True); split; [exact Haddr | exact I]].
    cbn. intros tx _ (? & ? & ? & ? & _). repeat split; assumption.
  - unfold Ethereum.claimWithdrawRequest.
    apply onReturn_try; [| intros; apply onReturn_handleError].
    destruct (isAddress address) eqn:Haddr; cbn [negb];
      [| apply onReturn_throwError].
    apply onReturn_bind; intros [requested readyForClaim].
    destruct (BigNumber.isZero _); [apply onReturn_throwError |].
    destruct (negb _); [apply onReturn_throwError |].
    eapply Hweaken; [| apply (Hbuild _ _ _ _ True); split; [exact Haddr | exact I]].
    cbn. intros tx _ (? & ? & ? & ? & _). repeat split; assumption.
  - unfold Ethereum.stake.
    destruct (isAddress address) eqn:Haddr; cbn [negb];
      [| apply onReturn_throwError].
    apply onReturn_bind_orThrow; intros amountWei Hparse.
    destruct (BigNumber.lt _ _); [apply onReturn_throwError |].
    apply onReturn_try; [| intros; apply onReturn_handleError].
    apply onReturn_bind; intros src.
    apply onReturn_bind; intros data.
    eapply Hweaken;
      [| apply (Hbuild _ _ _ _ (parseUnits amount 18 = Some amountWei));
         split; [exact Haddr | exact Hparse]].
    cbn. intros tx _ (? & ? & ? & ? & ?). repeat split; try assumption.
    exists amountWei. split; assumption.
  - unfold Ethereum.unstake.
    destruct (isAddress address) eqn:Haddr; cbn [negb];
      [| apply onReturn_throwError].
    apply onReturn_try; [| intros; apply onReturn_handleError].
    apply onReturn_bind; intros balance.
    destruct (BigNumber.lt _ _); [apply onReturn_throwError |].
    apply onReturn_bind; intros amountWei.
    apply onReturn_bind; intros src.
    apply onReturn_bind; intros data.
    eapply Hweaken; [| apply (Hbuild _ _ _ _ True); split; [exact Haddr | exact I]].
    cbn. intros tx _ (? & ? & ? & ? & _). repeat split; assumption.
  - unfold Ethereum.unstakePending.
    destruct (isAddress address) eqn:Haddr; cbn [negb];
      [| apply onReturn_throwError].
    apply onReturn_bind; intros pendingBalance.
    destruct (BigNumber.isZero _); [apply onReturn_throwError |].
    destruct (BigNumber.gt _ _); [apply onReturn_throwError |].
    apply onReturn_try; [| intros; apply onReturn_handleError].
    apply onReturn_bind; intros _.
    apply onReturn_bind; intros amountWei.
    apply onReturn_bind; intros data.
    eapply Hweaken; [| apply (Hbuild _ _ _ _ True); split; [exact Haddr | exact I]].
    cbn. intros tx _ (? & ? & ? & ? & _). repeat split; assumption.
  - unfold Ethereum.activateStake.
    apply onReturn_try; [| intros; apply onReturn_handleError].
    destruct (isAddress address) eqn:Haddr; cbn [negb];
      [| apply onReturn_throwError].
    eapply Hweaken; [| apply (Hbuild _ _ _ _ True); split; [exact Haddr | exact I]].
    cbn. intros tx _ (? & ? & ? & ? & _). repeat split; assumption.
Qed.

(** X15. A transaction returned by a builder of the Berrachain adapter is
    sent from the address the call was made for to the BGT contract of
    the adapter's network, carries no value, and its gas estimate is the
    last call made. *)
Theorem bera_transaction_envelope (this : Berrachain.t) op :
  onReturn (runBera this op)
    (fun tx t' =>
       Berrachain.from tx = beraOperationAddress op
       /\ Berrachain.to tx = Berrachain.contractAddress (Berrachain.btg this)
       /\ Berrachain.value tx = BigNumber.ofBigint 0
       /\ exists t0,
            t' = t0 ++ [EvEstimateGas (Berrachain.client this)
                          (Berrachain.contractAddress (Berrachain.btg this))
                          (Berrachain.data tx) (beraOperationAddress op)]).
Proof.
  assert (Hbuild : forall data address,
    onReturn (Berrachain.getTransaction this data address None)
      (fun tx t' =>
         Berrachain.from tx = address
         /\ Berrachain.to tx = Berrachain.contractAddress (Berrachain.btg this)
         /\ Berrachain.value tx = BigNumber.ofBigint 0
         /\ exists t0,
              t' = t0 ++ [EvEstimateGas (Berrachain.client this)
                            (Berrachain.contractAddress (Berrachain.btg this))
                            (Berrachain.data tx) address])).
  { intros data address t tx t' Hret.
    apply bera_getTransaction_inv in Hret as (gas & _ & -> & ->).
    cbn. repeat split. exists t. reflexivity. }
  destruct op; cbn [runBera beraOperationAddress].
  - unfold Berrachain.approveForStake.
    apply onReturn_try; [| intros; apply onReturn_handleError].
    apply onReturn_bind; intros amountWei.
    apply onReturn_bind; intros data. apply Hbuild.
  - unfold Berrachain.activateStake.
    apply onReturn_try; [| intros; apply onReturn_handleError].
    apply onReturn_bind; intros data. apply Hbuild.
  - unfold Berrachain.cancelStakeInQueue.
    apply onReturn_try; [| intros; apply onReturn_handleError].
    destruct (isAddress _); cbn [negb]; [| apply onReturn_throwError].
    apply onReturn_bind; intros amountWei.
    apply onReturn_bind; intros data. apply Hbuild.
  - unfold Berrachain.unstake.
    apply onReturn_try; [| intros; apply onReturn_handleError].
    destruct (isAddress _); cbn [negb]; [| apply onReturn_throwError].
    apply onReturn_bind; intros data. apply Hbuild.
  - unfold Berrachain.stake.
    apply onReturn_try; [| intros; apply onReturn_handleError].
    destruct (isAddress _); cbn [negb]; [| apply onReturn_throwError].
    apply onReturn_bind; intros amountWei.
    apply onReturn_bind; intros data. apply Hbuild.
  - unfold Berrachain.queueUnstake.
    apply onReturn_try; [| intros; apply onReturn_handleError].
    destruct (Berrachain.network _); [apply onReturn_throwError |].
    apply onReturn_bind; intros amountWei.
    apply onReturn_bind; intros data. apply Hbuild.
  - unfold Berrachain.cancelUnstake.
    apply onReturn_try; [| intros; apply onReturn_handleError].
    destruct (Berrachain.network _); [apply onReturn_throwError |].
    apply onReturn_bind; intros amountWei.
    apply onReturn_bind; intros data. apply Hbuild.
Qed.

(** X16. [cancelStakeInQueue], [unstake] and [stake] of the Berrachain
    adapter fail on an address that [isAddress] refuses with
    [ADDRESS_FORMAT_ERROR] and without any call to the endpoint. *)
Theorem bera_malformed_address_is_rejected
    (this : Berrachain.t) op (t : Trace) template :
  beraValidatesAddress op = true ->
  isAddress (beraOperationAddress op) = false ->
  Berrachain.ERROR_MESSAGES !! "ADDRESS_FORMAT_ERROR"%string = Some template ->
  runBera this op t
  = (inl (WalletSDKError "ADDRESS_FORMAT_ERROR" template [] None), t).
Proof.
  intros Hvalidates Haddr Hcode.
  destruct op; try discriminate Hvalidates;
    cbn [runBera beraOperationAddress] in *.
  - unfold Berrachain.cancelStakeInQueue, Berrachain.handleError.
    apply try_catch_passes_known.
    + rewrite Haddr. cbn [negb]. apply throwError_known, Hcode.
    + apply carriesKnownCode_thrown, Hcode.
  - unfold Berrachain.unstake, Berrachain.handleError.
    apply try_catch_passes_known.
    + rewrite Haddr. cbn [negb]. apply throwError_known, Hcode.
    + apply carriesKnownCode_thrown, Hcode.
  - unfold Berrachain.stake, Berrachain.handleError.
    apply try_catch_passes_known.
    + rewrite Haddr. cbn [negb]. apply throwError_known, Hcode.
    + apply carriesKnownCode_thrown, Hcode.
Qed.

(** X18. [queueUnstake] and [cancelUnstake] of an adapter on the testnet
    fail with [NOT_AVAILABLE_NETWORK], whatever the address and the
    amount, without parsing the amount and without any call to the
    endpoint. *)
Theorem unstake_queue_is_not_available_on_testnet
    (this : Berrachain.t) address amount (t : Trace) template :
  Berrachain.network this = Berrachain.testnet ->
  Berrachain.ERROR_MESSAGES !! "NOT_AVAILABLE_NETWORK"%string = Some template ->
  Berrachain.queueUnstake this address amount t
  = (inl (WalletSDKError "NOT_AVAILABLE_NETWORK" template [] None), t)
  /\ Berrachain.cancelUnstake this address amount t
     = (inl (WalletSDKError "NOT_AVAILABLE_NETWORK" template [] None), t).
Proof.
  intros Hnet Hcode.
  unfold Berrachain.queueUnstake, Berrachain.cancelUnstake,
    Berrachain.handleError.
  split; apply try_catch_passes_known;
    try (rewrite Hnet; apply throwError_known, Hcode);
    apply carriesKnownCode_thrown, Hcode.
Qed.

(** X19. On the mainnet [unstake] of the Berrachain adapter does not look
    at the amount: it encodes [dropBoost] on the address and the
    validator, so two calls that differ in the amount only, be it one
    that [parseUnits] refuses, run the same. It returns exactly when the
    address is valid, the encoder accepts the address and the validator,
    and the gas estimate of that call is answered. *)
Theorem mainnet_unstake_ignores_amount
    (this : Berrachain.t) address amount (t : Trace) :
  Berrachain.btg_network (Berrachain.btg this) = Berrachain.mainnet ->
  let args := [AAddress address; AAddress (Berrachain.validator this)] in
  let data :=
    encodeFunctionData (Berrachain.abi (Berrachain.btg this)) "dropBoost"
      args in
  (forall amount',
     Berrachain.unstake this address amount' t
     = Berrachain.unstake this address amount t)
  /\ (returns (Berrachain.unstake this address amount) t <->
      isAddress address = true
      /\ encodingError (Berrachain.abi (Berrachain.btg this)) "dropBoost"
           args = None
      /\ exists gas,
           rpc_estimateGas (Berrachain.client this)
             (Berrachain.contractAddress (Berrachain.btg this)) data address
           = inr gas).
Proof.
  intros Hnet args data. split.
  - intros amount'. unfold Berrachain.unstake. rewrite Hnet. reflexivity.
  - unfold returns, Berrachain.unstake. rewrite Hnet. split.
    + intros (tx & t' & H). apply try_catch_inr_inv in H.
      destruct (isAddress address); cbn [negb] in H.
      2: { exfalso. exact (throwError_never_returns _ _ _ _ _ _ H). }
      split; [reflexivity |].
      apply bind_inr_inv in H as (d & t1 & Hd & H).
      apply encode_inr_inv in Hd as (Henc & -> & ->).
      split; [exact Henc |].
      apply bera_getTransaction_inv in H as (gas & Hgas & _).
      exists gas. exact Hgas.
    + intros (Haddr & Henc & gas & Hgas). rewrite Haddr. cbn [negb].
      eexists _, _. apply try_catch_returns. unfold bind at 1.
      rewrite (encode_accepted _ _ _ _ Henc).
      unfold bind, ret, Berrachain.getTransaction, bind, estimateGas, external.
      fold args. fold data. rewrite Hgas. reflexivity.
Qed.

End Envelopes.

(** ** The aggregated views and the remaining helpers of the Ethereum
    adapter *)

Section ViewsExtras.
Context {L : Libraries} {W : World} {K : Ethereum.Constants}
        {X : EthereumViews.Externals}.
Implicit Types (this : Ethereum.t) (log : EthereumViews.MulticallLog).

Lemma entries_returns_iff {St} methods index results (s s' : St) balances :
  EthereumViews.entries methods index results s = (inr balances, s') <->
  (length methods <= length (drop index results))%nat
  /\ balances
     = zip methods (renderWei <$> take (length methods) (drop index results))
  /\ s' = s.
Proof.
  revert index balances s'.
  induction methods as [| method rest IH]; intros index balances s'; cbn.
  - unfold ret. split.
    + intros H. injection H as <- <-. repeat split. lia.
    + intros (_ & -> & ->). reflexivity.
  - unfold bind at 1. unfold orThrow.
    destruct (results !! index) as [result |] eqn:Hlookup; cbn [ret throw].
    + rewrite (drop_S _ _ _ Hlookup). cbn.
      unfold bind.
      destruct (EthereumViews.entries rest (S index) results s)
        as [[e | others] s1] eqn:Hrest.
      * split; [discriminate |].
        intros (Hlen & -> & ->).
        assert (EthereumViews.entries rest (S index) results s
                = (inr (zip rest
                          (renderWei <$> take (length rest)
                                        (drop (S index) results))), s))
          as Hok by (apply IH; repeat split; lia).
        congruence.
      * apply IH in Hrest as (Hlen & -> & ->). unfold ret. split.
        -- intros H. injection H as <- <-. repeat split. lia.
        -- intros (_ & -> & ->). reflexivity.
    + apply lookup_ge_None in Hlookup. split; [discriminate |].
      intros (Hlen & _). rewrite length_drop in Hlen. lia.
Qed.

(** X20. [poolBalances] sends one multicall, of the five pool-wide
    functions on the accounting contract, with failures not allowed. It
    returns exactly when the multicall answers at least five results, and
    then the five function names in their order, each with the decimal
    rendering of its result converted from wei to ether. *)
Theorem poolBalances_returns_iff this log balances log' :
  let request :=
    {| EthereumViews.contracts :=
         map (fun name =>
            {| EthereumViews.functionName := name;
               EthereumViews.address :=
                 Contract.address (Ethereum.contractAccounting this);
               EthereumViews.abi :=
                 Contract.abi (Ethereum.contractAccounting this);
               EthereumViews.args := None |}) EthereumViews.poolMethods;
       EthereumViews.allowFailure := false;
       EthereumViews.multicallAddress :=
         EthereumViews.MULTICALL_CONTRACT_ADDRESS |} in
  EthereumViews.poolBalances this log = (inr balances, log') <->
  exists results,
    EthereumViews.rpc_multicall (Ethereum.client this) request = inr results
    /\ (5 <= length results)%nat
    /\ balances
       = zip ["balance"; "pendingBalance"; "pendingDepositedBalance";
              "pendingRestakedRewards"; "readyforAutocompoundRewardsAmount"]%string
             (renderWei <$> take 5 results)
    /\ log' = log ++ [(Ethereum.client this, request)].
Proof.
  intros request. unfold EthereumViews.poolBalances. fold request. split.
  - intros H. apply try_catch_inr_inv in H.
    apply bind_inr_inv in H as (results & log1 & Hcall & H).
    unfold EthereumViews.multicall in Hcall.
    destruct (EthereumViews.rpc_multicall _ _) as [kind | answered];
      [discriminate |].
    injection Hcall as -> <-.
    apply entries_returns_iff in H as (Hlen & -> & ->).
    exists results. repeat split. exact Hlen.
  - intros (results & Hcall & Hlen & -> & ->).
    apply try_catch_returns. unfold bind, EthereumViews.multicall.
    rewrite Hcall. apply entries_returns_iff. repeat split. exact Hlen.
Qed.

(** X21. [userBalances] sends one multicall, of the five per-address
    functions on the accounting contract applied to the given address,
    and returns exactly when that call answers at least five results.
    The request carries the address as it is given; an address that the
    client refuses is a multicall that fails, and with it the method. *)
Theorem userBalances_returns_iff this address log balances log' :
  let request :=
    {| EthereumViews.contracts :=
         map (fun name =>
            {| EthereumViews.functionName := name;
               EthereumViews.address :=
                 Contract.address (Ethereum.contractAccounting this);
               EthereumViews.abi :=
                 Contract.abi (Ethereum.contractAccounting this);
               EthereumViews.args := Some [AAddress address] |}) EthereumViews.userMethods;
       EthereumViews.allowFailure := false;
       EthereumViews.multicallAddress :=
         EthereumViews.MULTICALL_CONTRACT_ADDRESS |} in
  EthereumViews.userBalances this address log = (inr balances, log') <->
  exists results,
    EthereumViews.rpc_multicall (Ethereum.client this) request = inr results
    /\ (5 <= length results)%nat
    /\ balances
       = zip ["pendingBalanceOf"; "pendingDepositedBalanceOf";
              "pendingRestakedRewardOf"; "autocompoundBalanceOf";
              "depositedBalanceOf"]%string
             (renderWei <$> take 5 results)
    /\ log' = log ++ [(Ethereum.client this, request)].
Proof.
  intros request.
  unfold EthereumViews.userBalances. fold request. split.
  - intros H. apply try_catch_inr_inv in H.
    apply bind_inr_inv in H as (results & log1 & Hcall & H).
    unfold EthereumViews.multicall in Hcall.
    destruct (EthereumViews.rpc_multicall _ _) as [kind | answered];
      [discriminate |].
    injection Hcall as -> <-.
    apply entries_returns_iff in H as (Hlen & -> & ->).
    exists results. repeat split. exact Hlen.
  - intros (results & Hcall & Hlen & -> & ->).
    apply try_catch_returns. unfold bind, EthereumViews.multicall.
    rewrite Hcall. apply entries_returns_iff. repeat split. exact Hlen.
Qed.

(** X22. A multicall that fails, or that answers fewer than five
    results, makes [poolBalances] fail as a whole under
    [POOL_BALANCES_ERROR]: no partial object is returned. *)
Theorem poolBalances_is_all_or_nothing this log template :
  Ethereum.ERROR_MESSAGES !! "POOL_BALANCES_ERROR"%string = Some template ->
  (forall results,
     EthereumViews.rpc_multicall (Ethereum.client this)
       {| EthereumViews.contracts :=
            map (fun name =>
               {| EthereumViews.functionName := name;
                  EthereumViews.address :=
                    Contract.address (Ethereum.contractAccounting this);
                  EthereumViews.abi :=
                    Contract.abi (Ethereum.contractAccounting this);
                  EthereumViews.args := None |}) EthereumViews.poolMethods;
          EthereumViews.allowFailure := false;
          EthereumViews.multicallAddress :=
            EthereumViews.MULTICALL_CONTRACT_ADDRESS |} = inr results ->
     (length results < 5)%nat ->
     fst (EthereumViews.poolBalances this log)
     = inl (WalletSDKError "POOL_BALANCES_ERROR" template []
              (Some (Thrown "TypeError"))))
  /\ (forall kind,
        EthereumViews.rpc_multicall (Ethereum.client this)
          {| EthereumViews.contracts :=
               map (fun name =>
                  {| EthereumViews.functionName := name;
                     EthereumViews.address :=
                       Contract.address (Ethereum.contractAccounting this);
                     EthereumViews.abi :=
                       Contract.abi (Ethereum.contractAccounting this);
                     EthereumViews.args := None |}) EthereumViews.poolMethods;
             EthereumViews.allowFailure := false;
             EthereumViews.multicallAddress :=
               EthereumViews.MULTICALL_CONTRACT_ADDRESS |} = inl kind ->
        fst (EthereumViews.poolBalances this log)
        = inl (WalletSDKError "POOL_BALANCES_ERROR" template []
                 (Some (Thrown kind)))).
Proof.
  intros Hcode. split.
  - intros results Hcall Hlen.
    assert (Hentries : forall methods index (s : EthereumViews.MulticallLog),
      (length (drop index results) < length methods)%nat ->
      EthereumViews.entries methods index results s
      = (inl (Thrown "TypeError"), s)).
    { induction methods as [| method rest IH]; intros index s Hshort;
        cbn in *; [lia |].
      unfold bind at 1. unfold orThrow.
      destruct (results !! index) as [result |] eqn:Hlookup; cbn [ret throw];
        [| reflexivity].
      rewrite (drop_S _ _ _ Hlookup) in Hshort. cbn in Hshort. unfold bind.
      rewrite IH by lia. reflexivity. }
    unfold EthereumViews.poolBalances, Ethereum.handleError.
    erewrite try_catch_wraps_thrown; [reflexivity | | exact Hcode].
    unfold bind, EthereumViews.multicall. rewrite Hcall.
    apply Hentries. rewrite drop_0. exact Hlen.
  - intros kind Hcall.
    unfold EthereumViews.poolBalances, Ethereum.handleError.
    erewrite try_catch_wraps_thrown; [reflexivity | | exact Hcode].
    unfold bind, EthereumViews.multicall. rewrite Hcall. reflexivity.
Qed.

(** X23. [getStatusFromCode] answers the lower-case name of the status
    for the three codes of the enum and "invalid status" for every other
    code, and for no code of the enum. *)
Theorem getStatusFromCode_classifies (code : Z) :
  EthereumViews.getStatusFromCode 0 = "unknown"%string
  /\ EthereumViews.getStatusFromCode 1 = "pending"%string
  /\ EthereumViews.getStatusFromCode 2 = "deposited"%string
  /\ (EthereumViews.getStatusFromCode code = "invalid status"%string
      <-> code < 0 \/ 2 < code).
Proof.
  split; [reflexivity |]. split; [reflexivity |]. split; [reflexivity |].
  unfold EthereumViews.getStatusFromCode, EthereumViews.ValidatorStatus.
  destruct (Z.eqb_spec code 0) as [-> | H0];
    [split; [discriminate | lia] |].
  destruct (Z.eqb_spec code 1) as [-> | H1];
    [split; [discriminate | lia] |].
  destruct (Z.eqb_spec code 2) as [-> | H2];
    [split; [discriminate | lia] |].
  split; [lia | reflexivity].
Qed.

(** X24. The conversions from base units, [fromWeiToEther] of the
    Ethereum adapter and the 18-decimal formatting of the Polygon
    adapter, lose nothing: two converted amounts compare as the integers
    they come from, and a converted amount is zero exactly when the
    integer is. *)
Theorem base_unit_conversion_keeps_order (a b : Z) :
  BigNumber.compare (Ethereum.fromWeiToEther a) (Ethereum.fromWeiToEther b)
  = Some (a ?= b)
  /\ BigNumber.compare (Polygon.fromUnits a) (Polygon.fromUnits b)
     = Some (a ?= b)
  /\ BigNumber.isZero (Ethereum.fromWeiToEther a) = (a =? 0)
  /\ BigNumber.isZero (Polygon.fromUnits a) = (a =? 0)
  /\ (Ethereum.fromWeiToEther a = Ethereum.fromWeiToEther b -> a = b).
Proof.
  unfold Ethereum.fromWeiToEther, Polygon.fromUnits.
  rewrite !compare_wei, !isZero_wei. repeat split.
  rewrite !shiftedBy_wei. intros H. injection H as H. exact H.
Qed.

End ViewsExtras.

(** ** The off-chain API client *)

Section ApiExtras.
Context {N : Api.Network}.
Implicit Types (st : Api.State).

(** What a call makes of a response that is ok and whose body is read:
    the transform of the parsed body and, where the body does not parse
    or that transform throws, the transform of the body as a string. *)
Lemma makeApiFetchFn_on_ok_response {Args}
    (fetchArgsFn : string -> Args -> string + Api.Request) transform prefix
    args st request response raw :
  fetchArgsFn (Api.apiUrl st) args = inr request ->
  Api.fetch request = inr response ->
  Api.ok response = true ->
  Api.text response = inr raw ->
  let fallback :=
    match transform (Api.JString raw) with
    | inl kind => inl (Thrown kind)
    | inr value => inr value
    end in
  fst (Api.makeApiFetchFn fetchArgsFn transform prefix args st)
  = match Api.JSON_parse raw with
    | Some data =>
        match transform data with
        | inr value => inr value
        | inl _ => fallback
        end
    | None => fallback
    end.
Proof.
  intros Hbuild Hfetch Hok Htext fallback.
  unfold Api.makeApiFetchFn, try_catch, bind, get, Api.send.
  rewrite Hbuild. cbn [ret]. rewrite Hfetch, Hok, Htext. cbn [negb ret].
  unfold orThrow, fallback.
  destruct (Api.JSON_parse raw) as [data |]; cbn [ret throw bind].
  - unfold Api.applyTransform.
    destruct (transform data) as [kind | value]; cbn [ret throw];
      [| reflexivity].
    destruct (transform (Api.JString raw)); reflexivity.
  - unfold Api.applyTransform.
    destruct (transform (Api.JString raw)); reflexivity.
Qed.

(** What a call leaves behind: the request when one was built, the base
    URL as it was, and one line of the error console when it failed. *)
Lemma makeApiFetchFn_effects {Args}
    (fetchArgsFn : string -> Args -> string + Api.Request) transform prefix
    args st :
  let run := Api.makeApiFetchFn fetchArgsFn transform prefix args st in
  Api.requests (snd run)
  = Api.requests st
    ++ match fetchArgsFn (Api.apiUrl st) args with
       | inl _ => []
       | inr request => [request]
       end
  /\ Api.apiUrl (snd run) = Api.apiUrl st
  /\ Api.console (snd run)
     = Api.console st
       ++ match fst run with
          | inl error => [((prefix +:+ ":")%string, error)]
          | inr _ => []
          end.
Proof.
  unfold Api.makeApiFetchFn, try_catch, bind, get, Api.send.
  destruct (fetchArgsFn _ _) as [thrown | request]; cbn.
  { rewrite app_nil_r. repeat split. }
  destruct (Api.fetch _) as [kind | response]; cbn.
  { repeat split. }
  destruct (Api.ok response); cbn; [| repeat split].
  destruct (Api.text response) as [kind | raw]; cbn; [repeat split |].
  unfold orThrow, Api.applyTransform.
  destruct (Api.JSON_parse raw) as [data |]; cbn.
  - destruct (transform data) as [kind | value]; cbn.
    + destruct (transform (Api.JString raw)); cbn; repeat split;
        rewrite app_nil_r; reflexivity.
    + repeat split. rewrite app_nil_r. reflexivity.
  - destruct (transform (Api.JString raw)); cbn; repeat split;
      rewrite app_nil_r; reflexivity.
Qed.

(** A builder that throws ends the call with what it threw. *)
Lemma makeApiFetchFn_builder_throws {Args}
    (fetchArgsFn : string -> Args -> string + Api.Request) transform prefix
    args st kind :
  fetchArgsFn (Api.apiUrl st) args = inl kind ->
  fst (Api.makeApiFetchFn fetchArgsFn transform prefix args st)
  = inl (Thrown kind).
Proof.
  intros Hbuild. unfold Api.makeApiFetchFn, try_catch, bind, get.
  rewrite Hbuild. reflexivity.
Qed.

(** X25. A call made through [makeApiFetchFn] sends at most one request:
    the one its builder returns from the base URL as it is when the call
    is made, and none when the builder throws, in which case the call
    fails with what the builder threw. When the call fails, the error
    that reaches the caller is written once to the error console, after
    the prefix of the call and a colon; when it succeeds nothing is
    written. The base URL is left as it is. *)
Theorem api_call_sends_once_and_logs_its_failure {Args}
    (fetchArgsFn : string -> Args -> string + Api.Request) transform prefix
    args st :
  let run := Api.makeApiFetchFn fetchArgsFn transform prefix args st in
  Api.requests (snd run)
  = Api.requests st
    ++ match fetchArgsFn (Api.apiUrl st) args with
       | inl _ => []
       | inr request => [request]
       end
  /\ (forall kind,
        fetchArgsFn (Api.apiUrl st) args = inl kind ->
        fst run = inl (Thrown kind))
  /\ Api.apiUrl (snd run) = Api.apiUrl st
  /\ Api.console (snd run)
     = Api.console st
       ++ match fst run with
          | inl error => [((prefix +:+ ":")%string, error)]
          | inr _ => []
          end.
Proof.
  intros run.
  destruct (makeApiFetchFn_effects fetchArgsFn transform prefix args st)
    as (Hrequests & Hurl & Hconsole).
  split; [exact Hrequests |]. split; [| split; assumption].
  intros kind Hbuild. apply makeApiFetchFn_builder_throws, Hbuild.
Qed.

(** X26. A request that is rejected makes the call fail with that very
    rejection, and a response that is not ok makes it fail with the
    error "Error: " followed by the status text of the response,
    whatever its body and whatever the call. *)
Theorem api_call_fails_without_an_ok_response {Args}
    (fetchArgsFn : string -> Args -> string + Api.Request) transform prefix
    args st :
  (forall request kind,
     fetchArgsFn (Api.apiUrl st) args = inr request ->
     Api.fetch request = inl kind ->
     fst (Api.makeApiFetchFn fetchArgsFn transform prefix args st)
     = inl (Thrown kind))
  /\ (forall request response,
        fetchArgsFn (Api.apiUrl st) args = inr request ->
        Api.fetch request = inr response ->
        Api.ok response = false ->
        fst (Api.makeApiFetchFn fetchArgsFn transform prefix args st)
        = inl (PlainError [PStr "Error: "; PStr (Api.statusText response)])).
Proof.
  split.
  - intros request kind Hbuild Hfetch.
    unfold Api.makeApiFetchFn, try_catch, bind, get, Api.send.
    rewrite Hbuild. cbn [ret]. rewrite Hfetch. reflexivity.
  - intros request response Hbuild Hfetch Hok.
    unfold Api.makeApiFetchFn, try_catch, bind, get, Api.send.
    rewrite Hbuild. cbn [ret]. rewrite Hfetch, Hok. reflexivity.
Qed.

(** X27. [checkToken] asks for the path of the token under the base URL
    and does not fail on a response that is ok and whose body is read:
    it resolves to the [result] property of a body that parses to an
    object, and to [undefined] for every other body, be it [null], a
    number, a string, an array or text that is no JSON. *)
Theorem checkToken_resolves_on_ok_response token st response raw :
  Api.fetch
    {| Api.url :=
         (Api.apiUrl st +:+ "/everstake-wallet/token/check/" +:+ token)%string;
       Api.method := "GET";
       Api.headers := [("Content-Type", "application/json")]%string;
       Api.body := None |} = inr response ->
  Api.ok response = true ->
  Api.text response = inr raw ->
  fst (Api.checkToken token st)
  = inr match Api.JSON_parse raw with
        | Some (Api.JObject fields) => Api.field "result" fields
        | _ => Api.Undefined
        end.
Proof.
  intros Hfetch Hok Htext. unfold Api.checkToken.
  match goal with
  | |- context [Api.makeApiFetchFn ?f ?tr ?p ?a ?s] =>
      rewrite (makeApiFetchFn_on_ok_response f tr p a s _ response raw
                 eq_refl Hfetch Hok Htext)
  end.
  destruct (Api.JSON_parse raw) as [[] |]; reflexivity.
Qed.

(** X28. On a server that answers every request with a response that is
    ok and whose body is read, [setStats] resolves to [undefined]
    whatever the body, and [createToken] and [getEthValidatorsQueueStats]
    resolve to the parsed body, or to the body as a string when it is no
    JSON; none of them fails. *)
Theorem api_calls_resolve_on_ok_response st response raw :
  (forall request, Api.fetch request = inr response) ->
  Api.ok response = true ->
  Api.text response = inr raw ->
  (forall params, fst (Api.setStats params st) = inr Api.Undefined)
  /\ (forall name type,
        fst (Api.createToken (name, type) st)
        = inr (Api.Value (default (Api.JString raw) (Api.JSON_parse raw))))
  /\ fst (Api.getEthValidatorsQueueStats tt st)
     = inr (Api.Value (default (Api.JString raw) (Api.JSON_parse raw))).
Proof.
  intros Hfetch Hok Htext. split; [| split].
  - intros params. unfold Api.setStats.
    match goal with
    | |- context [Api.makeApiFetchFn ?f ?tr ?p ?a ?s] =>
        rewrite (makeApiFetchFn_on_ok_response f tr p a s _ response raw
                   eq_refl (Hfetch _) Hok Htext)
    end.
    destruct (Api.JSON_parse raw); reflexivity.
  - intros name type. unfold Api.createToken.
    match goal with
    | |- context [Api.makeApiFetchFn ?f ?tr ?p ?a ?s] =>
        rewrite (makeApiFetchFn_on_ok_response f tr p a s _ response raw
                   eq_refl (Hfetch _) Hok Htext)
    end.
    destruct (Api.JSON_parse raw); reflexivity.
  - unfold Api.getEthValidatorsQueueStats.
    match goal with
    | |- context [Api.makeApiFetchFn ?f ?tr ?p ?a ?s] =>
        rewrite (makeApiFetchFn_on_ok_response f tr p a s _ response raw
                   eq_refl (Hfetch _) Hok Htext)
    end.
    destruct (Api.JSON_parse raw); reflexivity.
Qed.

(** X29. The base URL is read when a call is made, not when the calling
    function is created: after [setApiUrl], the next [checkToken] asks
    under the URL set last. *)
Theorem setApiUrl_directs_the_next_call first second token st :
  let run :=
    (await _ := Api.setApiUrl first in
     await _ := Api.setApiUrl second in
     Api.checkToken token) st in
  Api.requests (snd run)
  = Api.requests st
    ++ [{| Api.url :=
             (second +:+ "/everstake-wallet/token/check/" +:+ token)%string;
           Api.method := "GET";
           Api.headers := [("Content-Type", "application/json")]%string;
           Api.body := None |}]
  /\ Api.apiUrl (snd run) = second.
Proof.
  intros run.
  assert (run = Api.checkToken token
                  {| Api.apiUrl := second;
                     Api.requests := Api.requests st;
                     Api.console := Api.console st |}) as -> by reflexivity.
  unfold Api.checkToken.
  match goal with
  | |- context [Api.makeApiFetchFn ?f ?tr ?p ?a ?s] =>
      destruct (makeApiFetchFn_effects f tr p a s) as (Hreq & Hurl & _)
  end.
  cbn zeta in Hreq, Hurl. rewrite Hreq, Hurl. split; reflexivity.
Qed.

(** X30. [getEthAccountTransactions] builds its request with [new URL]
    on the path of the account under the base URL. Where that text is no
    URL, as under the empty base URL the module starts with, the call
    sends nothing, fails with the [TypeError] of the constructor, and
    writes it to the error console. Where it is one, the call sends one
    GET request, to that URL with the search parameters set that are
    neither [null] nor [undefined], in the order given. *)
Theorem getEthAccountTransactions_builds_its_url params st :
  let target :=
    (Api.apiUrl st +:+ "/everstake-eth-api/transactions/"
     +:+ Api.account params)%string in
  let run := Api.getEthAccountTransactions params st in
  if Api.URL_canParse target then
    Api.requests (snd run)
    = Api.requests st
      ++ [{| Api.url :=
               Api.URL_href target
                 (omap (fun '(key, value) => pair key <$> value)
                    (Api.restParams params));
             Api.method := "GET";
             Api.headers := [];
             Api.body := None |}]
  else
    run
    = (inl (Thrown "TypeError"),
       {| Api.apiUrl := Api.apiUrl st;
          Api.requests := Api.requests st;
          Api.console :=
            Api.console st
            ++ [("Failed to get ETH account transactions:"%string,
                 Thrown "TypeError")] |}).
Proof.
  intros target run. subst run. unfold Api.getEthAccountTransactions.
  destruct (Api.URL_canParse target) eqn:Hurl.
  - match goal with
    | |- context [Api.makeApiFetchFn ?f ?tr ?p ?a ?s] =>
        destruct (makeApiFetchFn_effects f tr p a s) as (Hreq & _)
    end.
    cbn zeta in Hreq. fold target in Hreq. rewrite Hurl in Hreq.
    exact Hreq.
  - unfold Api.makeApiFetchFn, try_catch, bind, get. fold target.
    rewrite Hurl. reflexivity.
Qed.

End ApiExtras.

(** ** The further statements on the sample instances *)

(** X2 on the samples: an approval of 5 POL for the staking contract, on
    the POL token. *)
Lemma approve_returns_iff_witness :
  fst (@Polygon.approve Sample.libraries Scenario.delegator
         Sample.polygonConstants Sample.polygon Sample.user "5" (Some true) [])
  = inr {| Polygon.from := Sample.user;
           Polygon.to := "pol-token";
           Polygon.gasLimit := 21000;
           Polygon.data := "approve(stake-manager,5000000000000000000)" |}.
Proof.
  refine (f_equal fst
            (proj2 (@approve_returns_iff Sample.libraries Scenario.delegator
                      Sample.polygonConstants Sample.polygon Sample.user "5"
                      (Some true) [] _ _) _)).
  exists (5 * Sample.ether), 21000.
  repeat split; vm_compute; (reflexivity || discriminate).
Defined.

(** X3 on the samples: 5 POL are delegated against an allowance of 5. *)
Lemma delegate_returns_iff_witness :
  @Polygon.delegate Sample.libraries Scenario.delegator
    Sample.polygonConstants Sample.polygon "token" Sample.user "5" None []
  = (inr {| Polygon.from := Sample.user;
            Polygon.to := "validator-share";
            Polygon.gasLimit := 220000;
            Polygon.data := "buyVoucher(5000000000000000000,0)" |},
     [EvCheckToken "token";
      EvReadContract (Polygon.client Sample.polygon) "matic-token"
        ABI_CONTRACT_APPROVE "allowance"
        [AAddress Sample.user; AAddress "stake-manager"];
      EvSetStats "token" "stake" "5" Sample.user "polygon"]).
Proof.
  refine (proj2 (@delegate_returns_iff Sample.libraries Scenario.delegator
                   Sample.polygonConstants Sample.polygon "token" Sample.user
                   "5" None [] _ _) _).
  exists (5 * Sample.ether), (5 * Sample.ether).
  repeat split; try (vm_compute; (reflexivity || discriminate)).
  right. vm_compute. discriminate.
Defined.

(** Witness of X4: with an invalid token nothing but the token check
    happens. *)
Lemma invalid_token_stops_delegation_witness :
  @Polygon.delegate Sample.libraries Scenario.invalidToken
    Sample.polygonConstants Sample.polygon "token" Sample.user "5" None []
  = (inl (PlainError [PStr "Please create or use correct token"]),
     [EvCheckToken "token"])
  /\ @Polygon.undelegate Sample.libraries Scenario.invalidToken
       Sample.polygonConstants Sample.polygon "token" Sample.user "5" None []
     = (inl (PlainError [PStr "Please create or use correct token"]),
        [EvCheckToken "token"]).
Proof.
  exact (@invalid_token_stops_delegation Sample.libraries Scenario.invalidToken
           Sample.polygonConstants Sample.polygon "token" Sample.user "5" None
           [] eq_refl).
Defined.

(** X5 on the samples: 3 POL are undelegated from a stake of 3. *)
Lemma undelegate_returns_iff_witness :
  fst (@Polygon.undelegate Sample.libraries Scenario.delegator
         Sample.polygonConstants Sample.polygon "token" Sample.user "3"
         (Some true) [])
  = inr {| Polygon.from := Sample.user;
           Polygon.to := "validator-share";
           Polygon.gasLimit := 300000;
           Polygon.data :=
             "sellVoucher_newPOL(3000000000000000000,3000000000000000000)" |}.
Proof.
  refine (f_equal fst
            (proj2 (@undelegate_returns_iff Sample.libraries Scenario.delegator
                      Sample.polygonConstants Sample.polygon "token" Sample.user
                      "3" (Some true) [] _ _) _)).
  exists (3 * Sample.ether), (3 * Sample.ether), [1].
  repeat split; vm_compute; (reflexivity || discriminate).
Defined.

(** X6 on the samples: the record of the nonce given, 3, is read after
    the latest nonce. *)
Lemma getUnbond_returns_iff_witness :
  fst (@Polygon.getUnbond Scenario.delegator Sample.polygonConstants
         Sample.polygon Sample.user (Some 3) [])
  = inr {| Polygon.amount := Polygon.fromUnits (2 * Sample.ether);
           Polygon.withdrawEpoch := 10;
           Polygon.unbondNonces := 3 |}.
Proof.
  refine (f_equal fst
            (proj2 (@getUnbond_returns_iff Scenario.delegator
                      Sample.polygonConstants Sample.polygon Sample.user
                      (Some 3) [] _ _) _)).
  exists 7, (2 * Sample.ether), 10, [].
  repeat split; vm_compute; reflexivity.
Defined.

(** Witness of X7: on an endpoint that answers no read, [getUnbond]
    fails under the code of the nonce read. *)
Lemma getUnbond_failure_names_the_failed_read_witness :
  @Polygon.getUnbond Scenario.unreadable Sample.polygonConstants
    Sample.polygon Sample.user None []
  = (inl (WalletSDKError "GET_UNBOND_NONCE_ERR" "Unbond nonce read failed" []
            (Some (Thrown "ContractFunctionExecutionError"))),
     [EvReadContract (Polygon.client Sample.polygon) "validator-share"
        ABI_CONTRACT_BUY "unbondNonces" [AAddress Sample.user]]).
Proof.
  refine (proj1 (@getUnbond_failure_names_the_failed_read Scenario.unreadable
                   Sample.polygonConstants Sample.polygon Sample.user None []
                   "Unbond nonce read failed" "Unbond read failed" _ _)
            "ContractFunctionExecutionError"%string _);
    vm_compute; reflexivity.
Defined.

(** Witness of X8: the empty string is no address, for [stake] as for
    the read of the deposited balance. *)
Lemma malformed_address_is_rejected_before_any_call_witness :
  @runEthAddressed Sample.libraries Sample.healthy Sample.ethConstants
    Sample.ethereum (AddrStake "1" None) "" []
  = (inl (WalletSDKError "ADDRESS_FORMAT_ERROR" "Invalid address format" []
            None), [])
  /\ @runEthAddressed Sample.libraries Sample.healthy Sample.ethConstants
       Sample.ethereum AddrDepositedBalanceOf "" []
     = (inl (WalletSDKError "ADDRESS_FORMAT_ERROR" "Invalid address format" []
               None), []).
Proof.
  split;
    apply (@malformed_address_is_rejected_before_any_call Sample.libraries
             Sample.healthy Sample.ethConstants);
    vm_compute; reflexivity.
Defined.

(** X10 on the samples: 4 ether of rewards are ready. *)
Lemma autocompound_returns_iff_witness :
  fst (@Ethereum.autocompound Sample.libraries Scenario.rewarding
         Sample.ethConstants Sample.ethereum Sample.user [])
  = inr {| Ethereum.from := Sample.user;
           Ethereum.to := "mainnet-accounting";
           Ethereum.value := BigNumber.ofBigint 0;
           Ethereum.gasLimit := 241000;
           Ethereum.data := "autocompound()" |}.
Proof.
  refine (f_equal fst
            (proj2 (@autocompound_returns_iff Sample.libraries
                      Scenario.rewarding Sample.ethConstants Sample.ethereum
                      Sample.user [] _ _) _)).
  exists (4 * Sample.ether), 21000.
  repeat split; try (vm_compute; reflexivity). vm_compute. discriminate.
Defined.

(** X11 on the samples: unstaking 1 ether of 2 is simulated, and
    answers 1 ether. *)
Lemma simulateUnstake_returns_iff_witness :
  @Ethereum.simulateUnstake Sample.libraries Scenario.rewarding
    Sample.ethConstants Sample.ethereum Sample.user "1" None None []
  = (inr (Ethereum.fromWeiToEther Sample.ether),
     [EvReadContract (Ethereum.client Sample.ethereum) "mainnet-accounting"
        ABI_CONTRACT_ACCOUNTING "autocompoundBalanceOf" [AAddress Sample.user];
      EvSimulateContract (Ethereum.client Sample.ethereum) Sample.user
        "mainnet-pool" ABI_CONTRACT_POOL "unstake"
        [AUint Sample.ether; AUint 1; AUint 0]]).
Proof.
  refine (proj2 (@simulateUnstake_returns_iff Sample.libraries
                   Scenario.rewarding Sample.ethConstants Sample.ethereum
                   Sample.user "1" None None [] _ _) _).
  exists (2 * Sample.ether), Sample.ether, 0, Sample.ether.
  repeat split; vm_compute; reflexivity.
Defined.

(** X12 on the samples: a stake of 1 ether. *)
Lemma stake_returns_iff_witness :
  fst (@Ethereum.stake Sample.libraries Sample.healthy Sample.ethConstants
         Sample.ethereum Sample.user "1" (Some "7"%string) [])
  = inr {| Ethereum.from := Sample.user;
           Ethereum.to := "mainnet-pool";
           Ethereum.value := BigNumber.ofBigint Sample.ether;
           Ethereum.gasLimit := 241000;
           Ethereum.data := "stake(7)" |}.
Proof.
  refine (f_equal fst
            (proj2 (@stake_returns_iff Sample.libraries Sample.healthy
                      Sample.ethConstants Sample.ethereum Sample.user "1"
                      (Some "7"%string) [] _ _) _)).
  exists Sample.ether, 7, 21000.
  repeat split; vm_compute; reflexivity.
Defined.

(** Witness of X13: "one" is no decimal number. *)
Lemma malformed_amount_raw_in_stake_wrapped_in_unstake_witness :
  @Ethereum.stake Sample.libraries Sample.healthy Sample.ethConstants
    Sample.ethereum Sample.user "one" None []
  = (inl (Thrown "InvalidDecimalNumberError"), [])
  /\ fst (@Ethereum.unstake Sample.libraries Sample.healthy
            Sample.ethConstants Sample.ethereum Sample.user "one" None None [])
     = inl (WalletSDKError "UNSTAKE_ERROR" "Unstake failed" []
              (Some (Thrown "InvalidDecimalNumberError"))).
Proof.
  pose proof (@malformed_amount_raw_in_stake_wrapped_in_unstake
                Sample.libraries Sample.healthy Sample.ethConstants
                Sample.ethereum Sample.user "one" None None []
                (2 * Sample.ether) "Unstake failed"
                eq_refl eq_refl eq_refl eq_refl eq_refl) as [Hstake Hunstake].
  split; [exact Hstake | exact (f_equal fst Hunstake)].
Defined.

(** Witness of X16: [stake] of the Berrachain adapter on the empty
    string. *)
Lemma bera_malformed_address_is_rejected_witness :
  @Berrachain.stake Sample.libraries Sample.healthy Sample.beraConstants
    Sample.berrachain "" "1" []
  = (inl (WalletSDKError "ADDRESS_FORMAT_ERROR" "Invalid address format" []
            None), []).
Proof.
  exact (@bera_malformed_address_is_rejected Sample.libraries Sample.healthy
           Sample.beraConstants Sample.berrachain (BeraStake "" "1") []
           "Invalid address format" eq_refl eq_refl eq_refl).
Defined.

(** Witness of X18: an adapter made for the testnet. *)
Lemma unstake_queue_is_not_available_on_testnet_witness :
  @Berrachain.queueUnstake Sample.libraries Sample.healthy
    Scenario.beraConstants Scenario.testnetAdapter Sample.user "1" []
  = (inl (WalletSDKError "NOT_AVAILABLE_NETWORK"
            "Not available on this network" [] None), [])
  /\ @Berrachain.cancelUnstake Sample.libraries Sample.healthy
       Scenario.beraConstants Scenario.testnetAdapter Sample.user "1" []
     = (inl (WalletSDKError "NOT_AVAILABLE_NETWORK"
               "Not available on this network" [] None), []).
Proof.
  exact (@unstake_queue_is_not_available_on_testnet Sample.libraries
           Sample.healthy Scenario.beraConstants Scenario.testnetAdapter
           Sample.user "1" [] "Not available on this network"
           eq_refl eq_refl).
Defined.

(** Witness of X19: on the mainnet adapter [unstake] returns for an
    amount that is no number, as it does for "1". *)
Lemma mainnet_unstake_ignores_amount_witness :
  @Berrachain.unstake Sample.libraries Sample.healthy Sample.beraConstants
    Sample.berrachain Sample.user "one" []
  = @Berrachain.unstake Sample.libraries Sample.healthy Sample.beraConstants
      Sample.berrachain Sample.user "1" []
  /\ returns (@Berrachain.unstake Sample.libraries Sample.healthy
                Sample.beraConstants Sample.berrachain Sample.user "1") [].
Proof.
  pose proof (@mainnet_unstake_ignores_amount Sample.libraries Sample.healthy
                Sample.beraConstants Sample.berrachain Sample.user "1" []
                eq_refl) as [Hsame Hreturns].
  split; [apply Hsame |].
  apply Hreturns. split; [reflexivity |]. split; [reflexivity |].
  exists 21000. reflexivity.
Defined.

(** X20 on the samples: five results of 1 to 5 ether. *)
Lemma poolBalances_returns_iff_witness :
  fst (@EthereumViews.poolBalances Scenario.ethConstants Scenario.multicalling
         Sample.ethereum [])
  = inr [("balance", "1"); ("pendingBalance", "2");
         ("pendingDepositedBalance", "3"); ("pendingRestakedRewards", "4");
         ("readyforAutocompoundRewardsAmount", "5")]%string.
Proof.
  refine (f_equal fst
            (proj2 (@poolBalances_returns_iff Scenario.ethConstants
                      Scenario.multicalling Sample.ethereum [] _ _) _)).
  eexists. split; [reflexivity |]. split; [cbn; lia |].
  split; vm_compute; reflexivity.
Defined.

(** Witness of X22: three results for five functions. *)
Lemma poolBalances_is_all_or_nothing_witness :
  fst (@EthereumViews.poolBalances Scenario.ethConstants Scenario.shortAnswer
         Sample.ethereum [])
  = inl (WalletSDKError "POOL_BALANCES_ERROR" "Pool balances read failed" []
           (Some (Thrown "TypeError"))).
Proof.
  refine (proj1 (@poolBalances_is_all_or_nothing Scenario.ethConstants
                   Scenario.shortAnswer Sample.ethereum []
                   "Pool balances read failed" _) _ eq_refl _).
  - vm_compute. reflexivity.
  - cbn. lia.
Defined.

(** Witness of X27: a body that holds a result, and the body [null]. *)
Lemma checkToken_resolves_on_ok_response_witness :
  fst (@Api.checkToken (Scenario.server Scenario.validBody) "token" Api.initial)
  = inr (Api.Value (Api.JBool true))
  /\ fst (@Api.checkToken (Scenario.server "null") "token" Api.initial)
     = inr Api.Undefined.
Proof.
  split.
  - exact (@checkToken_resolves_on_ok_response
             (Scenario.server Scenario.validBody) "token" Api.initial _
             Scenario.validBody eq_refl eq_refl eq_refl).
  - exact (@checkToken_resolves_on_ok_response (Scenario.server "null")
             "token" Api.initial _ "null" eq_refl eq_refl eq_refl).
Defined.

(** Witness of X28: a body that is no JSON is handed back as it is. *)
Lemma api_calls_resolve_on_ok_response_witness :
  fst (@Api.getEthValidatorsQueueStats (Scenario.server "busy") tt Api.initial)
  = inr (Api.Value (Api.JString "busy")).
Proof.
  exact (proj2 (proj2
           (@api_calls_resolve_on_ok_response (Scenario.server "busy")
              Api.initial _ "busy" (fun _ => eq_refl) eq_refl eq_refl))).
Defined.

(** X30 on the samples: under the empty base URL the module starts with,
    nothing is sent; under a base URL that is one, the limit is set and
    the operation, which is not given, is left out. *)
Lemma getEthAccountTransactions_builds_its_url_witness :
  @Api.getEthAccountTransactions (Scenario.server "null")
    {| Api.account := "0xabc";
       Api.restParams := [("operation", None); ("limit", Some "10")]%string |}
    Api.initial
  = (inl (Thrown "TypeError"),
     {| Api.apiUrl := "";
        Api.requests := [];
        Api.console :=
          [("Failed to get ETH account transactions:"%string,
            Thrown "TypeError")] |})
  /\ Api.requests
       (snd (@Api.getEthAccountTransactions (Scenario.server "null")
               {| Api.account := "0xabc";
                  Api.restParams :=
                    [("operation", None); ("limit", Some "10")]%string |}
               {| Api.apiUrl := "https://api.example";
                  Api.requests := [];
                  Api.console := [] |}))
     = [{| Api.url :=
             "https://api.example/everstake-eth-api/transactions/0xabc?limit=10";
           Api.method := "GET";
           Api.headers := [];
           Api.body := None |}].
Proof.
  split.
  - exact (@getEthAccountTransactions_builds_its_url (Scenario.server "null")
             {| Api.account := "0xabc";
                Api.restParams :=
                  [("operation", None); ("limit", Some "10")]%string |}
             Api.initial).
  - exact (@getEthAccountTransactions_builds_its_url (Scenario.server "null")
             {| Api.account := "0xabc";
                Api.restParams :=
                  [("operation", None); ("limit", Some "10")]%string |}
             {| Api.apiUrl := "https://api.example";
                Api.requests := [];
                Api.console := [] |}).
Defined.
